(** * Corporate-loan data profiler: rule registry, risk scoring, remediation

    A shallow embedding of
      - [corporate_loan_rules.py]  (the rule functions and [CORPORATE_LOAN_RULES]),
      - [risk_scoring.py], [remediation.py], [custom_rules.py],
      - the upload branch of [genai_data_profiling.py],
    together with the properties the specification states about them.

    Python objects are a small tagged union ([value]); text is a [string] whose
    characters are the code points 0..255; a pandas DataFrame is a row count
    plus an ordered list of named columns; a Python exception is the [Raise]
    branch of [result]. *)

From Stdlib Require Import ZArith List String Ascii Bool Lia DecimalString.
From Stdlib Require Import SpecFloat Permutation.
Import ListNotations.
Open Scope string_scope.

(** ** Exceptions *)

Inductive pyexc :=
| KeyError (key : string)
| AttributeError (msg : string)
| TypeError (msg : string)
| ValueError (msg : string)
| OverflowError
| NameError (name : string).

Inductive result (A : Type) :=
| Ok (a : A)
| Raise (e : pyexc).
Arguments Ok {A} a.
Arguments Raise {A} e.

Definition bind {A B} (m : result A) (k : A -> result B) : result B :=
  match m with
  | Ok a => k a
  | Raise e => Raise e
  end.

Notation "x <- m ;; k" := (bind m (fun x => k))
  (at level 61, m at next level, right associativity).

(** [for x in xs: ys.append(f(x))], stopping at the first exception. *)
Fixpoint map_result {A B} (f : A -> result B) (xs : list A) : result (list B) :=
  match xs with
  | [] => Ok []
  | x :: xs' => y <- f x ;; ys <- map_result f xs' ;; Ok (y :: ys)
  end.

(** [try: body / except: handler], the bare [except] of the rule functions. *)
Definition try_except {A} (body handler : result A) : result A :=
  match body with
  | Ok a => Ok a
  | Raise _ => handler
  end.

(** ** Text *)

Module Text.

Definition code (c : ascii) : N := N_of_ascii c.

Definition between (lo hi : N) (c : ascii) : bool :=
  (lo <=? code c)%N && (code c <=? hi)%N.

Definition is_code (n : N) (c : ascii) : bool := (code c =? n)%N.

Definition chr (n : N) : ascii := ascii_of_N n.

Definition dquote : ascii := chr 34.
Definition squote : ascii := chr 39.
Definition backslash : ascii := chr 92.
Definition newline : ascii := chr 10.

(** ASCII decimal digit: what [\d] matches among the code points 0..255. *)
Definition is_decimal (c : ascii) : bool := between 48 57 c.

(** [str.isdigit] per character: the decimal digits and the superscripts
    U+00B2, U+00B3, U+00B9. *)
Definition isdigit_char (c : ascii) : bool :=
  is_decimal c || is_code 178 c || is_code 179 c || is_code 185 c.

(** Whitespace as [str.strip] sees it. *)
Definition isspace_char (c : ascii) : bool :=
  between 9 13 c || between 28 32 c || is_code 133 c || is_code 160 c.

Fixpoint forallb_str (p : ascii -> bool) (s : string) : bool :=
  match s with
  | EmptyString => true
  | String c s' => p c && forallb_str p s'
  end.

Fixpoint existsb_str (p : ascii -> bool) (s : string) : bool :=
  match s with
  | EmptyString => false
  | String c s' => p c || existsb_str p s'
  end.

Definition is_empty (s : string) : bool :=
  match s with EmptyString => true | _ => false end.

(** [s.isdigit()] *)
Definition isdigit (s : string) : bool :=
  negb (is_empty s) && forallb_str isdigit_char s.

Fixpoint lstrip_by (blank : ascii -> bool) (s : string) : string :=
  match s with
  | EmptyString => EmptyString
  | String c s' => if blank c then lstrip_by blank s' else s
  end.

Definition lstrip (s : string) : string := lstrip_by isspace_char s.

Fixpoint rev_onto (s acc : string) : string :=
  match s with
  | EmptyString => acc
  | String c s' => rev_onto s' (String c acc)
  end.

Definition rev (s : string) : string := rev_onto s EmptyString.

Definition strip_by (blank : ascii -> bool) (s : string) : string :=
  rev (lstrip_by blank (rev (lstrip_by blank s))).

(** [s.strip()] *)
Definition strip (s : string) : string := strip_by isspace_char s.

(** [str.upper] per character.  Two code points (U+00B5, U+00FF) have an upper
    case outside 0..255; they are kept as they are, which like the real result
    is no ASCII letter, and every use below compares with ASCII text. *)
Definition upper_char (c : ascii) : string :=
  if between 97 122 c then String (chr (code c - 32)) EmptyString
  else if is_code 223 c then "SS"
  else if between 224 254 c && negb (is_code 247 c)
       then String (chr (code c - 32)) EmptyString
  else String c EmptyString.

Fixpoint upper (s : string) : string :=
  match s with
  | EmptyString => EmptyString
  | String c s' => upper_char c ++ upper s'
  end.

Fixpoint repeat_char (c : ascii) (n : nat) : string :=
  match n with
  | O => EmptyString
  | S n' => String c (repeat_char c n')
  end.

Fixpoint take (n : nat) (s : string) : string :=
  match n, s with
  | S n', String c s' => String c (take n' s')
  | _, _ => EmptyString
  end.

Fixpoint drop (n : nat) (s : string) : string :=
  match n, s with
  | S n', String _ s' => drop n' s'
  | _, _ => s
  end.

(** The text up to the first occurrence of [c], and the text after it. *)
Fixpoint split_at (c : ascii) (s : string) : option (string * string) :=
  match s with
  | EmptyString => None
  | String d s' =>
      if Ascii.eqb c d then Some (EmptyString, s')
      else match split_at c s' with
           | Some (a, b) => Some (String d a, b)
           | None => None
           end
  end.

Definition of_Z (z : Z) : string := NilZero.string_of_int (Z.to_int z).

Definition digit_value (c : ascii) : Z := Z.of_N (code c) - 48.

(** Value of a run of ASCII decimal digits. *)
Fixpoint digits_value_from (acc : Z) (s : string) : Z :=
  match s with
  | EmptyString => acc
  | String c s' => digits_value_from (10 * acc + digit_value c) s'
  end.

Definition digits_value (s : string) : Z := digits_value_from 0 s.

Definition hex_digit (n : N) : ascii :=
  if (n <? 10)%N then chr (48 + n) else chr (87 + n).

End Text.

(** ** Regular expressions ([re.match], [Series.str.match])

    The patterns of the rule functions all have the shape [^body$] (one is an
    alternation of two such).  [body] is a regular expression over character
    classes; [$] matches at the end of the text and also just before a final
    line feed. *)

Module Re.

Inductive regex :=
| Void
| Eps
| Class (p : ascii -> bool)
| Cat (r s : regex)
| Alt (r s : regex)
| Star (r : regex).

Fixpoint nullable (r : regex) : bool :=
  match r with
  | Void => false
  | Eps => true
  | Class _ => false
  | Cat r s => nullable r && nullable s
  | Alt r s => nullable r || nullable s
  | Star _ => true
  end.

Definition cat (r s : regex) : regex :=
  match r, s with
  | Void, _ => Void
  | _, Void => Void
  | Eps, _ => s
  | _, _ => Cat r s
  end.

Definition alt (r s : regex) : regex :=
  match r, s with
  | Void, _ => s
  | _, Void => r
  | _, _ => Alt r s
  end.

(** Brzozowski derivative. *)
Fixpoint deriv (c : ascii) (r : regex) : regex :=
  match r with
  | Void => Void
  | Eps => Void
  | Class p => if p c then Eps else Void
  | Cat r s =>
      if nullable r then alt (cat (deriv c r) s) (deriv c s)
      else cat (deriv c r) s
  | Alt r s => alt (deriv c r) (deriv c s)
  | Star r => cat (deriv c r) (Star r)
  end.

(** The whole text belongs to the language of [r]. *)
Fixpoint fullmatch (r : regex) (s : string) : bool :=
  match s with
  | EmptyString => nullable r
  | String c s' => fullmatch (deriv c r) s'
  end.

Definition chr_is (c : ascii) : regex := Class (Ascii.eqb c).

Fixpoint lit (s : string) : regex :=
  match s with
  | EmptyString => Eps
  | String c s' => Cat (chr_is c) (lit s')
  end.

Definition plus (r : regex) : regex := Cat r (Star r).
Definition opt (r : regex) : regex := Alt Eps r.

(** [r{n}] *)
Fixpoint times (n : nat) (r : regex) : regex :=
  match n with
  | O => Eps
  | S n' => Cat r (times n' r)
  end.

(** [r{0,n}] *)
Fixpoint upto (n : nat) (r : regex) : regex :=
  match n with
  | O => Eps
  | S n' => opt (Cat r (upto n' r))
  end.

(** [r{n,m}] *)
Definition range (n m : nat) (r : regex) : regex := Cat (times n r) (upto (m - n) r).

(** [\d] *)
Definition digit : regex := Class Text.is_decimal.

Definition ends_with_newline (s : string) : bool :=
  match Text.rev s with
  | String c _ => Ascii.eqb c Text.newline
  | EmptyString => false
  end.

Definition without_last (s : string) : string :=
  match Text.rev s with
  | String _ t => Text.rev t
  | EmptyString => EmptyString
  end.

(** What [re.match("^body$", s)] matches, if anything: the text itself, or the
    text without its final line feed. *)
Definition match_anchored (body : regex) (s : string) : option string :=
  if fullmatch body s then Some s
  else if ends_with_newline s && fullmatch body (without_last s)
       then Some (without_last s)
  else None.

(** [bool(re.match("^body$", s))] *)
Definition matches (body : regex) (s : string) : bool :=
  match match_anchored body s with Some _ => true | None => false end.

End Re.

(** ** Dates ([datetime.strptime(s, "%Y-%m-%d")]) *)

Module Date.

Local Open Scope Z_scope.

Record date := mk { year : Z; month : Z; day : Z }.

Definition is_leap (y : Z) : bool :=
  ((y mod 4 =? 0) && negb (y mod 100 =? 0)) || (y mod 400 =? 0).

Definition days_in_month (y m : Z) : Z :=
  if m =? 2 then (if is_leap y then 29 else 28)
  else if (m =? 4) || (m =? 6) || (m =? 9) || (m =? 11) then 30
  else 31.

(** [%Y] is [\d\d\d\d]. *)
Definition year_re : Re.regex := Re.times 4 Re.digit.

(** [%m] is [1[0-2]|0[1-9]|[1-9]]. *)
Definition month_re : Re.regex :=
  Re.Alt (Re.Cat (Re.chr_is "1") (Re.Class (Text.between 48 50)))
    (Re.Alt (Re.Cat (Re.chr_is "0") (Re.Class (Text.between 49 57)))
            (Re.Class (Text.between 49 57))).

(** [%d] is [3[0-1]|[1-2]\d|0[1-9]|[1-9]| [1-9]]. *)
Definition day_re : Re.regex :=
  Re.Alt (Re.Cat (Re.chr_is "3") (Re.Class (Text.between 48 49)))
    (Re.Alt (Re.Cat (Re.Class (Text.between 49 50)) Re.digit)
      (Re.Alt (Re.Cat (Re.chr_is "0") (Re.Class (Text.between 49 57)))
        (Re.Alt (Re.Class (Text.between 49 57))
                (Re.Cat (Re.chr_is " ") (Re.Class (Text.between 49 57)))))).

(** [int] of a day or month group: a leading blank or zero does not count. *)
Definition field_value (s : string) : Z := Text.digits_value (Text.lstrip s).

(** [datetime.strptime(s, "%Y-%m-%d")]: the three groups must cover the text
    exactly, and the date must exist (years 1..9999). [None] stands for the
    [ValueError]. *)
Definition strptime_ymd (s : string) : option date :=
  let y := Text.take 4 s in
  match Text.drop 4 s with
  | String "-" rest =>
      match Text.split_at "-" rest with
      | Some (m, d) =>
          if Re.fullmatch year_re y && Re.fullmatch month_re m && Re.fullmatch day_re d
          then
            let yv := Text.digits_value y in
            let mv := field_value m in
            let dv := field_value d in
            if (1 <=? yv) && (dv <=? days_in_month yv mv)
            then Some (mk yv mv dv) else None
          else None
      | None => None
      end
  | _ => None
  end.

(** [a <= b] on calendar dates. *)
Definition leb (a b : date) : bool :=
  (year a <? year b)
  || ((year a =? year b)
      && ((month a <? month b) || ((month a =? month b) && (day a <=? day b)))).

(** [d <= today] for a parsed date, false when nothing was parsed. *)
Definition leb_opt (d : option date) (today : date) : bool :=
  match d with Some x => leb x today | None => false end.

End Date.

(** ** Python floats (binary64): [float(...)], [repr], comparison with ints *)

Module Float.

Local Open Scope Z_scope.

Definition prec : Z := 53.
Definition emax : Z := 1024.

Definition eqb (x y : spec_float) : bool :=
  match x, y with
  | S754_zero a, S754_zero b => Bool.eqb a b
  | S754_infinity a, S754_infinity b => Bool.eqb a b
  | S754_nan, S754_nan => true
  | S754_finite a m e, S754_finite b n f => Bool.eqb a b && Pos.eqb m n && (e =? f)
  | _, _ => false
  end.

Definition is_zero (x : spec_float) : bool :=
  match x with S754_zero _ => true | _ => false end.

(** The binary64 nearest to [p/q] (ties to even), for [0 <= p] and [0 < q]. *)
Definition of_ratio (neg : bool) (p q : Z) : spec_float :=
  if p =? 0 then S754_zero neg
  else
    let s := Z.max 0 (64 + Z.log2 q - Z.log2 p) in
    let n := p * 2 ^ s in
    let loc := if n mod q =? 0 then loc_Exact else loc_Inexact (2 * (n mod q) ?= q) in
    binary_round_aux prec emax neg (n / q) (- s) loc.

(** [m * 10^k] as a ratio. *)
Definition of_decimal (neg : bool) (m k : Z) : spec_float :=
  if 0 <=? k then of_ratio neg (m * 10 ^ k) 1 else of_ratio neg m (10 ^ (- k)).

(** [float(z)] for an int: the nearest float, [OverflowError] beyond the range. *)
Definition of_Z (z : Z) : result spec_float :=
  match of_ratio (z <? 0) (Z.abs z) 1 with
  | S754_infinity _ => Raise OverflowError
  | x => Ok x
  end.

(** Exact comparison of a float with an int, as Python does it; [None] for
    a NaN, which compares false with everything. *)
Definition compare_Z (x : spec_float) (z : Z) : option comparison :=
  match x with
  | S754_nan => None
  | S754_infinity s => Some (if s then Lt else Gt)
  | S754_zero _ => Some (0 ?= z)
  | S754_finite s m e =>
      let v := if s then Z.neg m else Z.pos m in
      if 0 <=? e then Some (v * 2 ^ e ?= z) else Some (v ?= z * 2 ^ (- e))
  end.

(** The blanks [float(s)] drops around a literal: the ASCII ones and the two
    other spaces among the code points 0..255 (not the separators 28..31,
    which [str.strip] does drop). *)
Definition is_blank (c : ascii) : bool :=
  Text.between 9 13 c || Text.is_code 32 c || Text.is_code 133 c || Text.is_code 160 c.

(** Underscores of a numeric literal: each must stand between two digits. *)
Fixpoint drop_underscores (after_digit : bool) (s : string) : option string :=
  match s with
  | EmptyString => Some EmptyString
  | String c s' =>
      if Ascii.eqb c "_" then
        match s' with
        | String d _ =>
            if after_digit && Text.is_decimal d then drop_underscores false s' else None
        | EmptyString => None
        end
      else
        match drop_underscores (Text.is_decimal c) s' with
        | Some t => Some (String c t)
        | None => None
        end
  end.

Definition all_digits (s : string) : bool := Text.forallb_str Text.is_decimal s.

(** Sign prefix of a literal: is it negative, and the text after the sign. *)
Definition split_sign (s : string) : bool * string :=
  match s with
  | String "-" s' => (true, s')
  | String "+" s' => (false, s')
  | _ => (false, s)
  end.

(** The first [e] or [E] splits mantissa and exponent. *)
Fixpoint split_exponent (s : string) : string * option string :=
  match s with
  | EmptyString => (EmptyString, None)
  | String c s' =>
      if Ascii.eqb c "e" || Ascii.eqb c "E" then (EmptyString, Some s')
      else let '(m, e) := split_exponent s' in (String c m, e)
  end.

Definition parse_exponent (e : option string) : option Z :=
  match e with
  | None => Some 0
  | Some t =>
      let '(neg, ds) := split_sign t in
      if negb (Text.is_empty ds) && all_digits ds
      then Some (if neg then - Text.digits_value ds else Text.digits_value ds)
      else None
  end.

(** [float(s)] for text, [None] standing for the [ValueError]:
    blanks around are dropped; [inf], [infinity], [nan] in any case; otherwise
    [[sign] digits [. digits] [e [sign] digits]] with at least one mantissa
    digit. *)
Definition parse (s : string) : option spec_float :=
  match drop_underscores false (Text.strip_by is_blank s) with
  | None => None
  | Some t =>
      let '(neg, body) := split_sign t in
      let u := Text.upper body in
      if String.eqb u "INF" || String.eqb u "INFINITY" then Some (S754_infinity neg)
      else if String.eqb u "NAN" then Some S754_nan
      else
        let '(mant, e) := split_exponent body in
        let '(ip, fp) := match Text.split_at "." mant with
                         | Some (a, b) => (a, b)
                         | None => (mant, EmptyString)
                         end in
        if all_digits ip && all_digits fp && negb (Text.is_empty (ip ++ fp))
        then match parse_exponent e with
             | Some k =>
                 Some (of_decimal neg (Text.digits_value (ip ++ fp))
                                  (k - Z.of_nat (String.length fp)))
             | None => None
             end
        else None
  end.

(** *** [repr]: the shortest decimal that reads back as the same float *)

(** [10^k <= p/q] *)
Definition ge_pow10 (p q k : Z) : bool :=
  if 0 <=? k then (q * 10 ^ k <=? p) else (q <=? p * 10 ^ (- k)).

Fixpoint raise_exponent (fuel : nat) (p q k : Z) : Z :=
  match fuel with
  | O => k
  | S fuel' => if ge_pow10 p q (k + 1) then raise_exponent fuel' p q (k + 1) else k
  end.

(** [floor (log10 (p/q))] *)
Definition log10_floor (p q : Z) : Z :=
  raise_exponent 16 p q ((Z.log2 p - Z.log2 q) * 301 / 1000 - 2).

Fixpoint strip_trailing_zeros_rev (s : string) : string :=
  match s with
  | String "0" s' => strip_trailing_zeros_rev s'
  | _ => s
  end.

Definition strip_trailing_zeros (s : string) : string :=
  Text.rev (strip_trailing_zeros_rev (Text.rev s)).

(** With [n] significant digits: the digits and the position of the decimal
    point of a decimal that reads back as [x = p/q], if there is one. *)
Definition digits_with (x : spec_float) (p q k : Z) (n : Z) : option (string * Z) :=
  let t := k - n + 1 in
  let a := if 0 <=? t then p else p * 10 ^ (- t) in
  let b := if 0 <=? t then q * 10 ^ t else q in
  let lo := a / b in
  let r := a mod b in
  let back c := eqb (of_decimal false c t) x in
  let pick c := Some (strip_trailing_zeros (Text.of_Z c),
                      Z.of_nat (String.length (Text.of_Z c)) + t) in
  if r =? 0 then (if back lo then pick lo else None)
  else
    match back lo, back (lo + 1) with
    | true, true => if 2 * r <=? b then pick lo else pick (lo + 1)
    | true, false => pick lo
    | false, true => pick (lo + 1)
    | false, false => None
    end.

Fixpoint shortest_digits (fuel : nat) (x : spec_float) (p q k n : Z) : string * Z :=
  match fuel with
  | O => (Text.of_Z (p / q), k + 1)
  | S fuel' =>
      match digits_with x p q k n with
      | Some d => d
      | None => shortest_digits fuel' x p q k (n + 1)
      end
  end.

Definition exponent_text (e : Z) : string :=
  let ds := Text.of_Z (Z.abs e) in
  (if e <? 0 then "-" else "+")
    ++ (if Z.of_nat (String.length ds) <? 2 then "0" ++ ds else ds).

(** Layout of [repr]: plain notation while the decimal point lies in
    [-4 < decpt <= 16], scientific notation beyond. *)
Definition layout (ds : string) (decpt : Z) : string :=
  let n := Z.of_nat (String.length ds) in
  if (decpt <=? -4) || (16 <? decpt) then
    Text.take 1 ds
      ++ (if 1 <? n then "." ++ Text.drop 1 ds else "")
      ++ "e" ++ exponent_text (decpt - 1)
  else if decpt <=? 0 then
    "0." ++ Text.repeat_char "0" (Z.to_nat (- decpt)) ++ ds
  else if n <=? decpt then
    ds ++ Text.repeat_char "0" (Z.to_nat (decpt - n)) ++ ".0"
  else
    Text.take (Z.to_nat decpt) ds ++ "." ++ Text.drop (Z.to_nat decpt) ds.

(** [repr(x)], which is also [str(x)]. *)
Definition repr (x : spec_float) : string :=
  match x with
  | S754_nan => "nan"
  | S754_infinity s => if s then "-inf" else "inf"
  | S754_zero s => if s then "-0.0" else "0.0"
  | S754_finite s m e =>
      let p := if 0 <=? e then Z.pos m * 2 ^ e else Z.pos m in
      let q := if 0 <=? e then 1 else 2 ^ (- e) in
      let '(ds, decpt) :=
        shortest_digits 17 (of_ratio false p q) p q (log10_floor p q) 1 in
      (if s then "-" else "") ++ layout ds decpt
  end.

End Float.

(** ** Python values held by a cell *)

Inductive value :=
| VNone
| VBool (b : bool)
| VInt (z : Z)
| VFloat (x : spec_float)
| VStr (s : string)
| VMatch (matched : string).
(** [VMatch m] is the [re.Match] object of a match at position 0 whose matched
    text is [m]; a missing cell of a CSV file is [VFloat S754_nan]. *)

Definition NaN : value := VFloat S754_nan.

Module Py.

Definition Z_of_bool (b : bool) : Z := if b then 1%Z else 0%Z.

(** [repr(s)] of a character of text. *)
Definition repr_char (quote : ascii) (c : ascii) : string :=
  if Ascii.eqb c quote || Ascii.eqb c Text.backslash
  then String Text.backslash (String c EmptyString)
  else if Text.is_code 9 c then String Text.backslash "t"
  else if Text.is_code 10 c then String Text.backslash "n"
  else if Text.is_code 13 c then String Text.backslash "r"
  else if Text.between 0 31 c || Text.between 127 160 c || Text.is_code 173 c
  then String Text.backslash
         (String "x" (String (Text.hex_digit (Text.code c / 16))
                        (String (Text.hex_digit (Text.code c mod 16)) EmptyString)))
  else String c EmptyString.

Fixpoint repr_chars (quote : ascii) (s : string) : string :=
  match s with
  | EmptyString => EmptyString
  | String c s' => repr_char quote c ++ repr_chars quote s'
  end.

(** [repr(s)] for text: single quotes unless the text has a single quote and
    no double quote. *)
Definition repr_text (s : string) : string :=
  let quote :=
    if Text.existsb_str (Ascii.eqb Text.squote) s
       && negb (Text.existsb_str (Ascii.eqb Text.dquote) s)
    then Text.dquote else Text.squote in
  String quote (repr_chars quote s ++ String quote EmptyString).

(** [str(v)], the text of a cell.  CPython (3.11 and later, and the patched
    older releases) refuses one conversion: the text of an int of more than
    4300 digits, for which [str] and [astype(str)] raise [ValueError];
    [legible] below tells the cells that do have a text. *)
Definition str (v : value) : string :=
  match v with
  | VNone => "None"
  | VBool b => if b then "True" else "False"
  | VInt z => Text.of_Z z
  | VFloat x => Float.repr x
  | VStr s => s
  | VMatch m =>
      "<re.Match object; span=(0, " ++ Text.of_Z (Z.of_nat (String.length m))
        ++ "), match=" ++ Text.take 50 (repr_text m) ++ ">"
  end.

(** [str(v)] returns: [v] is no int of more than 4300 digits. *)
Definition legible (v : value) : bool :=
  match v with
  | VInt z => (Z.abs z <? 10 ^ 4300)%Z
  | _ => true
  end.

(** [bool(v)] *)
Definition truthy (v : value) : bool :=
  match v with
  | VNone => false
  | VBool b => b
  | VInt z => negb (z =? 0)%Z
  | VFloat x => negb (Float.is_zero x)
  | VStr s => negb (Text.is_empty s)
  | VMatch _ => true
  end.

(** [v == s] for a text literal [s] *)
Definition eq_text (v : value) (s : string) : bool :=
  match v with
  | VStr t => String.eqb t s
  | _ => false
  end.

(** [v == k] for an int literal [k] *)
Definition eq_int (v : value) (k : Z) : bool :=
  match v with
  | VBool b => (Z_of_bool b =? k)%Z
  | VInt z => (z =? k)%Z
  | VFloat x => match Float.compare_Z x k with Some Eq => true | _ => false end
  | _ => false
  end.

(** Ordering of [v] against an int literal [k]: [TypeError] unless [v] is a
    number; [None] when [v] is a NaN. *)
Definition compare_int (v : value) (k : Z) : result (option comparison) :=
  match v with
  | VBool b => Ok (Some (Z_of_bool b ?= k)%Z)
  | VInt z => Ok (Some (z ?= k)%Z)
  | VFloat x => Ok (Float.compare_Z x k)
  | _ => Raise (TypeError "comparison not supported between these types")
  end.

(** [v > k] *)
Definition gt_int (v : value) (k : Z) : result bool :=
  c <- compare_int v k ;;
  Ok (match c with Some Gt => true | _ => false end).

(** [v >= k] *)
Definition ge_int (v : value) (k : Z) : result bool :=
  c <- compare_int v k ;;
  Ok (match c with Some (Gt | Eq) => true | _ => false end).

(** [isinstance(v, (int, float))]; a bool is an int. *)
Definition is_int_or_float (v : value) : bool :=
  match v with
  | VBool _ | VInt _ | VFloat _ => true
  | _ => false
  end.

(** [isinstance(v, int)] *)
Definition is_int (v : value) : bool :=
  match v with
  | VBool _ | VInt _ => true
  | _ => false
  end.

(** [float(v)] *)
Definition to_float (v : value) : result spec_float :=
  match v with
  | VStr s =>
      match Float.parse s with
      | Some x => Ok x
      | None => Raise (ValueError "could not convert string to float")
      end
  | VInt z => Float.of_Z z
  | VBool b => Float.of_Z (Z_of_bool b)
  | VFloat x => Ok x
  | _ => Raise (TypeError "float() argument must be a string or a real number")
  end.

(** [0 <= x <= 1] for a float [x] *)
Definition in_unit_interval (x : spec_float) : bool :=
  match Float.compare_Z x 0, Float.compare_Z x 1 with
  | Some (Gt | Eq), Some (Lt | Eq) => true
  | _, _ => false
  end.

(** [v.strip()]: only text has the method. *)
Definition strip (v : value) : result string :=
  match v with
  | VStr s => Ok (Text.strip s)
  | _ => Raise (AttributeError "object has no attribute 'strip'")
  end.

(** [datetime.strptime(v, "%Y-%m-%d")] *)
Definition strptime (v : value) : result Date.date :=
  match v with
  | VStr s =>
      match Date.strptime_ymd s with
      | Some d => Ok d
      | None => Raise (ValueError "time data does not match format '%Y-%m-%d'")
      end
  | _ => Raise (TypeError "strptime() argument 1 must be str")
  end.

(** [re.match("^body$", s)]: a match object or [None]. *)
Definition re_match (body : Re.regex) (s : string) : value :=
  match Re.match_anchored body s with
  | Some m => VMatch m
  | None => VNone
  end.

(** [a or b] *)
Definition or_ (a b : value) : value := if truthy a then a else b.

(** [str(v).strip().upper() == 'NA'] *)
Definition is_na_stripped (v : value) : bool :=
  String.eqb (Text.upper (Text.strip (str v))) "NA".

(** [str(v).upper() == 'NA'] *)
Definition is_na (v : value) : bool := String.eqb (Text.upper (str v)) "NA".

End Py.

(** ** pandas: Series, rows and DataFrames *)

Definition Series := list value.

(** A row handed to [df.apply(f, axis=1)]: a Series indexed by column name. *)
Definition Row := list (string * value).

Record DataFrame := mkDataFrame {
  nrows : nat;
  columns : list (string * Series)
}.

Fixpoint lookup {A} (key : string) (kvs : list (string * A)) : option A :=
  match kvs with
  | [] => None
  | (k, v) :: rest => if String.eqb k key then Some v else lookup key rest
  end.

(** Replace the entry of [key] where it stands, or add it at the end. *)
Fixpoint assign {A} (key : string) (v : A) (kvs : list (string * A)) : list (string * A) :=
  match kvs with
  | [] => [(key, v)]
  | (k, w) :: rest =>
      if String.eqb k key then (k, v) :: rest else (k, w) :: assign key v rest
  end.

Definition column_names (df : DataFrame) : list string := map fst (columns df).

Definition has_column (df : DataFrame) (c : string) : bool :=
  match lookup c (columns df) with Some _ => true | None => false end.

(** [df[c]] *)
Definition df_get (df : DataFrame) (c : string) : result Series :=
  match lookup c (columns df) with
  | Some s => Ok s
  | None => Raise (KeyError c)
  end.

(** [df[c] = s] *)
Definition df_set (df : DataFrame) (c : string) (s : Series) : DataFrame :=
  mkDataFrame (nrows df) (assign c s (columns df)).

(** [x[c]] on a row *)
Definition row_get (x : Row) (c : string) : result value :=
  match lookup c x with
  | Some v => Ok v
  | None => Raise (KeyError c)
  end.

(** [x.get(c, default)] on a row *)
Definition row_get_default (x : Row) (c : string) (default : value) : value :=
  match lookup c x with
  | Some v => v
  | None => default
  end.

Definition row_at (df : DataFrame) (i : nat) : Row :=
  map (fun cs => (fst cs, nth i (snd cs) NaN)) (columns df).

(** The rows in order.  (pandas gives the cells of a row one common type, so
    an int beside floats arrives as the float of the same value; no function
    applied to rows below tells the two apart.) *)
Definition rows (df : DataFrame) : list Row := map (row_at df) (seq 0 (nrows df)).

(** The all-NaN row over the frame's columns. *)
Definition nan_row (df : DataFrame) : Row := map (fun cs => (fst cs, NaN)) (columns df).

(** [df.apply(f, axis=1)] followed by the assignment of its result to one
    column, as pandas 2 does it.  With rows and columns, [f] runs on each row
    in order and an exception of [f] propagates.  When the frame has no rows or
    no columns, pandas calls [f] on an all-NaN row over the columns to see what
    it returns: a scalar is given to every row (there may be none); an
    exception is swallowed and the frame itself comes back, which can be
    assigned to one column only when it has exactly one. *)
Definition df_apply_rows (f : Row -> result value) (df : DataFrame) : result Series :=
  match nrows df, columns df with
  | S _, _ :: _ => map_result f (rows df)
  | n, cols =>
      match f (nan_row df) with
      | Ok r => Ok (repeat r n)
      | Raise _ =>
          match cols with
          | [_] => Ok []
          | _ => Raise (ValueError "Cannot set a DataFrame to a single column")
          end
      end
  end.

(** Every column has one cell per row, and no name occurs twice. *)
Definition well_formed (df : DataFrame) : Prop :=
  Forall (fun cs => List.length (snd cs) = nrows df) (columns df)
  /\ NoDup (column_names df).

(** ** The environment of a validation pass

    [datetime.today()] and [pd.to_datetime] are not functions of the table:
    the first reads the clock, the second is pandas' date parser, whose verdict
    on a cell may depend on the rest of its column (the format is inferred). *)

Record Env := mkEnv {
  today : Date.date;
  to_datetime_notna : Series -> value -> bool
}.

(** ** Rules

    A rule function [validate_x(df)] has one of three shapes:
      - [df[out] = df[src].<cell by cell>]
      - [df[out] = pd.to_datetime(df[src], errors='coerce').notna()]
      - [df[out] = df.apply(lambda x: ..., axis=1)] *)

Inductive rule :=
| Cellwise (src out : string) (f : value -> result value)
| Columnwise (src out : string) (f : Series -> value -> value)
| Rowwise (fields : list string) (out : string) (f : Row -> result value).

(** The field a rule writes. *)
Definition output_field (r : rule) : string :=
  match r with
  | Cellwise _ out _ => out
  | Columnwise _ out _ => out
  | Rowwise _ out _ => out
  end.

(** The fields a rule reads. *)
Definition source_fields (r : rule) : list string :=
  match r with
  | Cellwise src _ _ => [src]
  | Columnwise src _ _ => [src]
  | Rowwise fields _ _ => fields
  end.

Definition is_rowwise (r : rule) : bool :=
  match r with Rowwise _ _ _ => true | _ => false end.

(** [rule(df)] *)
Definition apply_rule (r : rule) (df : DataFrame) : result DataFrame :=
  match r with
  | Cellwise src out f =>
      s <- df_get df src ;; t <- map_result f s ;; Ok (df_set df out t)
  | Columnwise src out f =>
      s <- df_get df src ;; Ok (df_set df out (map (f s) s))
  | Rowwise _ out f =>
      s <- df_apply_rows f df ;; Ok (df_set df out s)
  end.

(** [for rule in rules: df = rule(df)] *)
Fixpoint apply_rules (rules : list rule) (df : DataFrame) : result DataFrame :=
  match rules with
  | [] => Ok df
  | r :: rest => df' <- apply_rule r df ;; apply_rules rest df'
  end.

(** ** corporate_loan_rules.py *)

(** *** Patterns *)

Definition upper_AZ : Re.regex := Re.Class (Text.between 65 90).

(** [[A-Za-z0-9]] *)
Definition alnum : Re.regex :=
  Re.Class (fun c => Text.between 65 90 c || Text.between 97 122 c || Text.is_decimal c).

(** [[A-Z0-9]] *)
Definition upper_alnum : Re.regex :=
  Re.Class (fun c => Text.between 65 90 c || Text.is_decimal c).

(** [[^\r\n,\x00-\x1F\x7F]] *)
Definition id_char : Re.regex :=
  Re.Class (fun c => negb (Text.is_code 13 c || Text.is_code 10 c || Text.is_code 44 c
                           || Text.between 0 31 c || Text.is_code 127 c)).

(** [[^\r\n\x00-\x1F\x7F]] *)
Definition id_char_or_comma : Re.regex :=
  Re.Class (fun c => negb (Text.is_code 13 c || Text.is_code 10 c
                           || Text.between 0 31 c || Text.is_code 127 c)).

(** [^[^\r\n,\x00-\x1F\x7F]+$] *)
Definition id_pattern : Re.regex := Re.plus id_char.

(** [^[^\r\n\x00-\x1F\x7F]+$] *)
Definition id_list_pattern : Re.regex := Re.plus id_char_or_comma.

(** [^[^\r\n,\x00-\x1F\x7F]*$] *)
Definition entity_pattern : Re.regex := Re.Star id_char.

(** [^[A-Z]{2}$] *)
Definition country_pattern : Re.regex := Re.times 2 upper_AZ.

(** [^\d{5}$] *)
Definition zip_pattern : Re.regex := Re.times 5 Re.digit.

(** [^\d{4,6}$] *)
Definition industry_code_pattern : Re.regex := Re.range 4 6 Re.digit.

(** [^(\d{9}|\d{2}-\d{7}|NA)$] *)
Definition tin_pattern : Re.regex :=
  Re.Alt (Re.times 9 Re.digit)
    (Re.Alt (Re.Cat (Re.times 2 Re.digit) (Re.Cat (Re.chr_is "-") (Re.times 7 Re.digit)))
            (Re.lit "NA")).

(** [^[A-Za-z0-9]{6}$|^NA$] *)
Definition cusip_pattern : Re.regex := Re.Alt (Re.times 6 alnum) (Re.lit "NA").

(** [^(\d{3}-\d{2}-\d{4}|\d{9}|NA)$] *)
Definition guarantor_tin_pattern : Re.regex :=
  Re.Alt (Re.Cat (Re.times 3 Re.digit)
            (Re.Cat (Re.chr_is "-")
               (Re.Cat (Re.times 2 Re.digit) (Re.Cat (Re.chr_is "-") (Re.times 4 Re.digit)))))
    (Re.Alt (Re.times 9 Re.digit) (Re.lit "NA")).

(** [^[^,\r\n\f]+$] *)
Definition snc_pattern : Re.regex :=
  Re.plus (Re.Class (fun c => negb (Text.is_code 44 c || Text.is_code 13 c
                                    || Text.is_code 10 c || Text.is_code 12 c))).

(** [^\d{2}-\d{2}-\d{4}$] *)
Definition renewal_pattern : Re.regex :=
  Re.Cat (Re.times 2 Re.digit)
    (Re.Cat (Re.chr_is "-")
       (Re.Cat (Re.times 2 Re.digit) (Re.Cat (Re.chr_is "-") (Re.times 4 Re.digit)))).

(** [^[A-Z]{3}$] *)
Definition currency_pattern : Re.regex := Re.times 3 upper_AZ.

(** [^[A-Z]\.[A-Z]\.\d$] *)
Definition schedule_shift_pattern : Re.regex :=
  Re.Cat upper_AZ (Re.Cat (Re.chr_is ".") (Re.Cat upper_AZ (Re.Cat (Re.chr_is ".") Re.digit))).

(** [^\d+(\.\d{1,4})?$] *)
Definition target_hold_pattern : Re.regex :=
  Re.Cat (Re.plus Re.digit) (Re.opt (Re.Cat (Re.chr_is ".") (Re.range 1 4 Re.digit))).

(** [^-?\d+$] *)
Definition signed_integer_pattern : Re.regex :=
  Re.Cat (Re.opt (Re.chr_is "-")) (Re.plus Re.digit).

(** [^[A-Z0-9]{20}$] *)
Definition lei_pattern : Re.regex := Re.times 20 upper_alnum.

(** *** The shapes shared by many rule bodies *)

(** [.astype(str).str.match(pattern)] *)
Definition str_match (pattern : Re.regex) (v : value) : result value :=
  Ok (VBool (Re.matches pattern (Py.str v))).

(** [.astype(str).str.strip().ne("")] *)
Definition str_nonblank (v : value) : result value :=
  Ok (VBool (negb (String.eqb (Text.strip (Py.str v)) ""))).

(** [.astype(str).isin(allowed)] *)
Definition str_isin (allowed : list string) (v : value) : result value :=
  Ok (VBool (existsb (String.eqb (Py.str v)) allowed)).

(** [.isin(allowed)] for a list of ints *)
Definition isin (allowed : list Z) (v : value) : result value :=
  Ok (VBool (existsb (Py.eq_int v) allowed)).

(** [[str(i) for i in range(lo, hi)]] *)
Definition str_range (lo hi : nat) : list string :=
  map (fun i => Text.of_Z (Z.of_nat i)) (seq lo (hi - lo)).

(** [lambda x: isinstance(x, (int, float)) and x >= 0] *)
Definition nonnegative_number (v : value) : result value :=
  if Py.is_int_or_float v
  then b <- Py.ge_int v 0 ;; Ok (VBool b)
  else Ok (VBool false).

(** [lambda x: str(x).isdigit()] *)
Definition str_isdigit (v : value) : result value :=
  Ok (VBool (Text.isdigit (Py.str v))).

(** [lambda x: str(x).isdigit() or str(x).strip().upper() == 'NA'] *)
Definition str_isdigit_or_na (v : value) : result value :=
  Ok (VBool (Text.isdigit (Py.str v) || Py.is_na_stripped v)).

(** [try: val = float(x); return 0 <= val <= 1 / except: return False] *)
Definition float_in_unit_interval (v : value) : result value :=
  try_except (x <- Py.to_float v ;; Ok (VBool (Py.in_unit_interval x)))
             (Ok (VBool false)).

(** [try: float(x); return True / except: return False] *)
Definition float_parses (v : value) : result value :=
  try_except (_ <- Py.to_float v ;; Ok (VBool true)) (Ok (VBool false)).

(** [try: return bool(datetime.strptime(x, "%Y-%m-%d")) / except: return x == sentinel]
    (a datetime is always true) *)
Definition date_or_sentinel (sentinel : string) (v : value) : result value :=
  try_except (_ <- Py.strptime v ;; Ok (VBool true))
             (Ok (VBool (Py.eq_text v sentinel))).

(** [val = str(val).strip().upper()], then [val in ['NA', 'NONE']] or
    [float(val)] succeeds. *)
Definition number_or_none (v : value) : result value :=
  let val := Text.upper (Text.strip (Py.str v)) in
  if String.eqb val "NA" || String.eqb val "NONE" then Ok (VBool true)
  else float_parses (VStr val).

(** [str(x).upper() == 'NA' or re.match(r'^-?\d+$', str(x))] *)
Definition na_or_signed_integer (v : value) : result value :=
  Ok (Py.or_ (VBool (Py.is_na v)) (Py.re_match signed_integer_pattern (Py.str v))).

(** [re.match(r'^[A-Z0-9]{20}$', str(x)) or str(x).upper() == 'NA'] *)
Definition lei_or_na (v : value) : result value :=
  Ok (Py.or_ (Py.re_match lei_pattern (Py.str v)) (VBool (Py.is_na v))).

(** [.astype(str).apply(lambda x: True if x.strip().upper() == 'NA' else bool(re.match(pattern, x)))] *)
Definition na_or_match (pattern : Re.regex) (v : value) : result value :=
  if Py.is_na_stripped v then Ok (VBool true)
  else Ok (VBool (Re.matches pattern (Py.str v))).

(** *** The rule functions, in the order of the file *)

Definition validate_customer_id := Cellwise "Customer_ID" "Customer_ID" (str_match id_pattern).
Definition validate_internal_id := Cellwise "Internal_ID" "Internal_ID" (str_match id_pattern).
Definition validate_original_internal_id :=
  Cellwise "Original_Internal_ID" "Original_Internal_ID" (str_match id_pattern).
Definition validate_obligor_name := Cellwise "Obligor_Name" "Obligor_Name" (str_match id_pattern).
Definition validate_city := Cellwise "City" "City" str_nonblank.
Definition validate_country := Cellwise "Country" "Country" (str_match country_pattern).
Definition validate_zip_code := Cellwise "Zip_Code" "Zip_Code" (str_match zip_pattern).
Definition validate_industry_code :=
  Cellwise "Industry_Code" "Industry_Code" (str_match industry_code_pattern).
Definition validate_industry_code_type :=
  Cellwise "Industry_Code_Type" "Industry_Code_Type" (str_isin ["1"; "2"; "3"]).
Definition validate_internal_risk_rating :=
  Cellwise "Internal_Risk_Rating" "Internal_Risk_Rating" str_nonblank.
Definition validate_tin := Cellwise "TIN" "TIN" (str_match tin_pattern).
Definition validate_stock_exchange := Cellwise "Stock_Exchange" "Stock_Exchange" str_nonblank.
Definition validate_ticker_symbol := Cellwise "Ticker_Symbol" "Ticker_Symbol" str_nonblank.
Definition validate_cusip := Cellwise "CUSIP" "CUSIP" (str_match cusip_pattern).
Definition validate_internal_credit_facility_id :=
  Cellwise "Internal_Credit_Facility_ID" "Internal_Credit_Facility_ID" (str_match id_pattern).
Definition validate_original_credit_facility_id :=
  Cellwise "Original_Credit_Facility_ID" "Original_Credit_Facility_ID"
    (str_match id_list_pattern).

(** [is_valid_date] of [validate_origination_date]:
    [d = strptime(date_str); return d <= datetime.today()], [False] on any
    exception; the cell is stringified first. *)
Definition is_valid_origination (E : Env) (v : value) : result value :=
  try_except (d <- Py.strptime (VStr (Py.str v)) ;; Ok (VBool (Date.leb d (today E))))
             (Ok (VBool false)).

Definition validate_origination_date (E : Env) :=
  Cellwise "Origination_Date" "Origination_Date" (is_valid_origination E).

Definition is_valid_maturity (date_str : value) : result value :=
  date_or_sentinel "9999-01-01" date_str.

Definition validate_maturity_date :=
  Cellwise "Maturity_Date" "Maturity_Date" (fun v => is_valid_maturity (VStr (Py.str v))).

Definition validate_credit_facility_type :=
  Cellwise "Credit_Facility_Type" "Credit_Facility_Type" (str_isin (str_range 0 20)).

(** [True if x[code] != '0' or (x[code] == '0' and x[description].strip() != '') else False] *)
Definition other_description_required (code description : string) (x : Row) : result value :=
  c <- row_get x code ;;
  if negb (Py.eq_text c "0") then Ok (VBool true)
  else
    c' <- row_get x code ;;
    if Py.eq_text c' "0" then
      d <- row_get x description ;;
      s <- Py.strip d ;;
      Ok (VBool (negb (String.eqb s "")))
    else Ok (VBool false).

Definition validate_other_credit_facility_type_desc :=
  Rowwise ["Credit_Facility_Type"; "Other_Credit_Facility_Type_Description"]
    "Other_Credit_Facility_Desc"
    (other_description_required "Credit_Facility_Type" "Other_Credit_Facility_Type_Description").

Definition validate_credit_facility_purpose :=
  Cellwise "Credit_Facility_Purpose" "Credit_Facility_Purpose"
    (str_isin (str_range 0 31 ++ [Text.of_Z 33])).

Definition validate_other_credit_facility_purpose_desc :=
  Rowwise ["Credit_Facility_Purpose"; "Other_Credit_Facility_Purpose_Description"]
    "Other_Credit_Facility_Purpose_Desc"
    (other_description_required "Credit_Facility_Purpose"
       "Other_Credit_Facility_Purpose_Description").

Definition validate_committed_exposure :=
  Cellwise "Committed_Exposure" "Committed_Exposure" nonnegative_number.
Definition validate_utilized_exposure :=
  Cellwise "Utilized_Exposure" "Utilized_Exposure" nonnegative_number.
Definition validate_line_reported_on_fry9c :=
  Cellwise "Line_Reported_on_FR_Y9C" "Line_Reported_on_FR_Y9C" (str_isin (str_range 1 12)).
Definition validate_line_of_business :=
  Cellwise "Line_of_Business" "Line_of_Business" str_nonblank.

(** [val == 'NA' or (isinstance(val, (int, float)) and val >= 0)] *)
Definition is_valid (val : value) : result value :=
  if Py.eq_text val "NA" then Ok (VBool true) else nonnegative_number val.

Definition validate_cumulative_chargeoffs :=
  Cellwise "Cumulative_Chargeoffs" "Cumulative_Chargeoffs" is_valid.

(** [lambda x: isinstance(x, int) and x >= 0] *)
Definition validate_days_past_due :=
  Cellwise "Days_Past_Due" "Days_Past_Due"
    (fun v => if Py.is_int v then b <- Py.ge_int v 0 ;; Ok (VBool b) else Ok (VBool false)).

Definition is_valid_non_accrual (date_str : value) : result value :=
  date_or_sentinel "9999-12-31" date_str.

Definition validate_non_accrual_date :=
  Cellwise "Non_Accrual_Date" "Non_Accrual_Date"
    (fun v => is_valid_non_accrual (VStr (Py.str v))).

Definition validate_participation_flag :=
  Cellwise "Participation_Flag" "Participation_Flag" (str_isin ["1"; "2"; "3"; "4"; "5"]).
Definition validate_lien_position :=
  Cellwise "Lien_Position" "Lien_Position" (str_isin ["1"; "2"; "3"; "4"]).
Definition validate_security_type :=
  Cellwise "Security_Type" "Security_Type" (str_isin ["0"; "1"; "2"; "3"; "4"; "5"; "6"]).
Definition validate_interest_rate_variability :=
  Cellwise "Interest_Rate_Variability" "Interest_Rate_Variability"
    (str_isin ["1"; "2"; "3"; "4"]).

(** [if str(val).strip().upper() == 'NA': return True], then the float test *)
Definition is_valid_rate (v : value) : result value :=
  if Py.is_na_stripped v then Ok (VBool true) else float_in_unit_interval v.

Definition validate_interest_rate := Cellwise "Interest_Rate" "Interest_Rate" is_valid_rate.
Definition validate_interest_rate_index :=
  Cellwise "Interest_Rate_Index" "Interest_Rate_Index"
    (str_isin ["1"; "2"; "3"; "4"; "5"; "6"; "7"]).

Definition is_valid_spread (v : value) : result value :=
  if Py.is_na_stripped v then Ok (VBool true) else float_parses v.

Definition validate_interest_rate_spread :=
  Cellwise "Interest_Rate_Spread" "Interest_Rate_Spread" is_valid_spread.
Definition is_valid_ceiling : value -> result value := number_or_none.
Definition is_valid_floor : value -> result value := number_or_none.

Definition validate_interest_rate_ceiling :=
  Cellwise "Interest_Rate_Ceiling" "Interest_Rate_Ceiling" is_valid_ceiling.
Definition validate_interest_rate_floor :=
  Cellwise "Interest_Rate_Floor" "Interest_Rate_Floor" is_valid_floor.
Definition validate_tax_status := Cellwise "Tax_Status" "Tax_Status" (str_isin ["1"; "2"]).
Definition validate_guarantor_internal_id :=
  Cellwise "Guarantor_Internal_ID" "Guarantor_Internal_ID" (na_or_match id_pattern).
Definition validate_guarantor_name :=
  Cellwise "Guarantor_Name" "Guarantor_Name" (na_or_match id_pattern).

(** [.astype(str).str.upper().str.match(pattern)] *)
Definition validate_guarantor_tin :=
  Cellwise "Guarantor_TIN" "Guarantor_TIN"
    (fun v => Ok (VBool (Re.matches guarantor_tin_pattern (Text.upper (Py.str v))))).

(** [True if x.strip().upper() == 'NA' else bool(x.strip())] *)
Definition validate_guarantor_internal_risk_rating :=
  Cellwise "Guarantor_Internal_Risk_Rating" "Guarantor_Internal_Risk_Rating"
    (fun v => if Py.is_na_stripped v then Ok (VBool true)
              else Ok (VBool (negb (Text.is_empty (Text.strip (Py.str v)))))).

Definition validate_entity_internal_id :=
  Cellwise "Entity_Internal_ID" "Entity_Internal_ID" (str_match entity_pattern).
Definition validate_entity_name :=
  Cellwise "Entity_Name" "Entity_Name" (str_match entity_pattern).
Definition validate_entity_internal_risk_rating :=
  Cellwise "Entity_Internal_Risk_Rating" "Entity_Internal_Risk_Rating" str_nonblank.

(** [pd.to_datetime(df[c], errors='coerce').notna()] *)
Definition validate_date_financials (E : Env) :=
  Columnwise "Date_Financials" "Date_Financials"
    (fun col v => VBool (to_datetime_notna E col v)).
Definition validate_date_last_audit (E : Env) :=
  Columnwise "Date_Last_Audit" "Date_Last_Audit"
    (fun col v => VBool (to_datetime_notna E col v)).

Definition validate_net_sales_current :=
  Cellwise "Net_Sales_Current" "Net_Sales_Current" str_isdigit.
Definition validate_net_sales_prior_year :=
  Cellwise "Net_Sales_Prior_Year" "Net_Sales_Prior_Year" str_isdigit.
Definition validate_operating_income :=
  Cellwise "Operating_Income" "Operating_Income" str_isdigit.
Definition validate_depreciation_amortization :=
  Cellwise "Depreciation_Amortization" "Depreciation_Amortization" str_isdigit.
Definition validate_interest_expense :=
  Cellwise "Interest_Expense" "Interest_Expense" str_isdigit.
Definition validate_net_income_current :=
  Cellwise "Net_Income_Current" "Net_Income_Current" str_isdigit.
Definition validate_net_income_prior_year :=
  Cellwise "Net_Income_Prior_Year" "Net_Income_Prior_Year" str_isdigit.
Definition validate_cash_marketable_securities :=
  Cellwise "Cash_Marketable_Securities" "Cash_Marketable_Securities" str_isdigit.
Definition validate_accounts_receivable_current :=
  Cellwise "Accounts_Receivable_Current" "AR_Current" str_isdigit.
Definition validate_accounts_receivable_prior_year :=
  Cellwise "Accounts_Receivable_Prior_Year" "AR_Prior_Year" str_isdigit.
Definition validate_inventory_current :=
  Cellwise "Inventory_Current" "Inventory_Current" str_isdigit.
Definition validate_inventory_prior_year :=
  Cellwise "Inventory_Prior_Year" "Inventory_Prior_Year" str_isdigit.
Definition validate_current_assets_current :=
  Cellwise "Current_Assets_Current" "Current_Assets_Current" str_isdigit.
Definition validate_current_assets_prior_year :=
  Cellwise "Current_Assets_Prior_Year" "Current_Assets_Prior_Year" str_isdigit.
Definition validate_tangible_assets :=
  Cellwise "Tangible_Assets" "Tangible_Assets" str_isdigit.
Definition validate_fixed_assets := Cellwise "Fixed_Assets" "Fixed_Assets" str_isdigit.
Definition validate_total_assets_current :=
  Cellwise "Total_Assets_Current" "Total_Assets_Current" str_isdigit.
Definition validate_total_assets_prior_year :=
  Cellwise "Total_Assets_Prior_Year" "Total_Assets_Prior_Year" str_isdigit.
Definition validate_accounts_payable_current :=
  Cellwise "Accounts_Payable_Current" "Accounts_Payable_Current" str_isdigit.
Definition validate_accounts_payable_prior_year :=
  Cellwise "Accounts_Payable_Prior_Year" "Accounts_Payable_Prior_Year" str_isdigit.
Definition validate_short_term_debt :=
  Cellwise "Short_Term_Debt" "Short_Term_Debt" str_isdigit.
Definition validate_current_maturities_long_term_debt :=
  Cellwise "Current_Maturities_Long_Term_Debt" "Current_Maturities_Long_Term_Debt" str_isdigit.
Definition validate_current_liabilities_current :=
  Cellwise "Current_Liabilities_Current" "Current_Liabilities_Current" str_isdigit.
Definition validate_current_liabilities_prior_year :=
  Cellwise "Current_Liabilities_Prior_Year" "Current_Liabilities_Prior_Year" str_isdigit.
Definition validate_long_term_debt := Cellwise "Long_Term_Debt" "Long_Term_Debt" str_isdigit.
Definition validate_minority_interest :=
  Cellwise "Minority_Interest" "Minority_Interest" str_isdigit_or_na.
Definition validate_total_liabilities :=
  Cellwise "Total_Liabilities" "Total_Liabilities" str_isdigit.
Definition validate_retained_earnings :=
  Cellwise "Retained_Earnings" "Retained_Earnings" str_isdigit.
Definition validate_capital_expenditures :=
  Cellwise "Capital_Expenditures" "Capital_Expenditures" str_isdigit.
Definition validate_special_purpose_entity_flag :=
  Cellwise "Special_Purpose_Entity_Flag" "Special_Purpose_Entity_Flag" (isin [1; 2]%Z).
Definition validate_locom_flag := Cellwise "LOCOM" "LOCOM" (isin [1; 2; 3]%Z).

(** [x == 'NA' or bool(re.match(r'^[^,\r\n\f]+$', str(x)))] *)
Definition validate_snc_internal_credit_id :=
  Cellwise "SNC_Internal_Credit_ID" "SNC_Internal_Credit_ID"
    (fun v => if Py.eq_text v "NA" then Ok (VBool true)
              else Ok (VBool (Re.matches snc_pattern (Py.str v)))).

(** [if str(x).upper() == 'NA': return True], then the float test *)
Definition is_valid_pd (v : value) : result value :=
  if Py.is_na v then Ok (VBool true) else float_in_unit_interval v.

(** The same body under another name. *)
Definition is_valid_lgd : value -> result value := is_valid_pd.

(** [str(x).isdigit() or str(x).strip().upper() == 'NA'] *)
Definition is_valid_ead : value -> result value := str_isdigit_or_na.

Definition validate_probability_of_default := Cellwise "Probability_of_Default" "PD" is_valid_pd.
Definition validate_loss_given_default := Cellwise "LGD" "LGD" is_valid_lgd.
Definition validate_exposure_at_default := Cellwise "EAD" "EAD" is_valid_ead.

(** [is_valid_date] of [validate_renewal_date]:
    [str(x).strip() == '9999-12-31' or bool(re.match(r'^\d{2}-\d{2}-\d{4}$', str(x)))] *)
Definition is_valid_renewal_date (v : value) : result value :=
  if String.eqb (Text.strip (Py.str v)) "9999-12-31" then Ok (VBool true)
  else Ok (VBool (Re.matches renewal_pattern (Py.str v))).

Definition validate_renewal_date := Cellwise "Renewal_Date" "Renewal_Date" is_valid_renewal_date.

(** [bool(re.match(r'^[A-Z]{3}$', str(x).strip()))] *)
Definition validate_credit_facility_currency :=
  Cellwise "Credit_Facility_Currency" "Credit_Facility_Currency"
    (fun v => Ok (VBool (Re.matches currency_pattern (Text.strip (Py.str v))))).

Definition validate_collateral_market_value :=
  Cellwise "Collateral_Market_Value" "Collateral_Market_Value" str_isdigit_or_na.
Definition validate_prepayment_penalty_flag :=
  Cellwise "Prepayment_Penalty_Flag" "Prepayment_Penalty_Flag" (isin [1; 2; 3]%Z).

(** [str(x).isdigit() and 4 <= len(str(x)) <= 6] *)
Definition validate_entity_industry_code :=
  Cellwise "Entity_Industry_Code" "Entity_Industry_Code"
    (fun v => Ok (VBool (Text.isdigit (Py.str v)
                         && ((4 <=? String.length (Py.str v))%nat
                             && (String.length (Py.str v) <=? 6)%nat)))).

(** The body of [is_valid_rate] again. *)
Definition is_valid_participation : value -> result value := is_valid_rate.

Definition validate_participation_interest :=
  Cellwise "Participation_Interest" "Participation_Interest" is_valid_participation.
Definition validate_leveraged_loan_flag :=
  Cellwise "Leveraged_Loan_Flag" "Leveraged_Loan_Flag" (isin [1; 2]%Z).

(** [.isin(list(range(9)))] *)
Definition validate_disposition_flag :=
  Cellwise "Disposition_Flag" "Disposition_Flag" (isin (map Z.of_nat (seq 0 9))).

(** [bool(re.match(pattern, str(x).strip())) or str(x).strip().upper() == 'NA'] *)
Definition validate_disposition_schedule_shift :=
  Cellwise "Disposition_Schedule_Shift" "Disposition_Schedule_Shift"
    (fun v => Ok (VBool (Re.matches schedule_shift_pattern (Text.strip (Py.str v))
                         || Py.is_na_stripped v))).

Definition validate_syndicated_loan_flag :=
  Cellwise "Syndicated_Loan_Flag" "Syndicated_Loan_Flag" (isin [0; 1; 2; 3; 4]%Z).

(** [str(x).strip().upper() == 'NA' or re.match(r'^\d+(\.\d{1,4})?$', str(x))]:
    [True], a match object, or [None]. *)
Definition is_valid_target_hold (v : value) : result value :=
  Ok (Py.or_ (VBool (Py.is_na_stripped v)) (Py.re_match target_hold_pattern (Py.str v))).

Definition validate_target_hold := Cellwise "Target_Hold" "Target_Hold" is_valid_target_hold.
Definition validate_asc326_20 := Cellwise "ASC326_20" "ASC326_20" str_isdigit.

(** [x == '' or str(x).isdigit()] *)
Definition validate_pcd_noncredit_discount :=
  Cellwise "PCD_Noncredit_Discount" "PCD_Noncredit_Discount"
    (fun v => if Py.eq_text v "" then Ok (VBool true) else str_isdigit v).

(** [is_valid_date] of [validate_current_maturity_date]; the cell itself goes
    to [strptime], not its text. *)
Definition validate_current_maturity_date :=
  Cellwise "Current_Maturity_Date" "Current_Maturity_Date" (date_or_sentinel "9999-01-01").

Definition is_valid_committed_exposure : value -> result value := na_or_signed_integer.
Definition is_valid_utilized_exposure : value -> result value := na_or_signed_integer.
Definition is_valid_committed_fair : value -> result value := na_or_signed_integer.
Definition is_valid_utilized_fair : value -> result value := na_or_signed_integer.

Definition validate_committed_exposure_global_par :=
  Cellwise "Committed_Exposure_Global_Par" "Committed_Exposure_Global_Par"
    is_valid_committed_exposure.
Definition validate_utilized_exposure_global_par :=
  Cellwise "Utilized_Exposure_Global_Par" "Utilized_Exposure_Global_Par"
    is_valid_utilized_exposure.
Definition validate_committed_exposure_global_fair :=
  Cellwise "Committed_Exposure_Global_Fair" "Committed_Exposure_Global_Fair"
    is_valid_committed_fair.
Definition validate_utilized_exposure_global_fair :=
  Cellwise "Utilized_Exposure_Global_Fair" "Utilized_Exposure_Global_Fair"
    is_valid_utilized_fair.
Definition validate_obligor_lei := Cellwise "Obligor_LEI" "Obligor_LEI" lei_or_na.
Definition validate_psr_lei := Cellwise "PSR_LEI" "PSR_LEI" lei_or_na.

(** *** The registry, in the order of [CORPORATE_LOAN_RULES.extend([...])] *)

Definition CORPORATE_LOAN_RULES (E : Env) : list rule := [
  validate_target_hold;
  validate_asc326_20;
  validate_pcd_noncredit_discount;
  validate_current_maturity_date;
  validate_committed_exposure_global_par;
  validate_utilized_exposure_global_par;
  validate_committed_exposure_global_fair;
  validate_utilized_exposure_global_fair;
  validate_obligor_lei;
  validate_psr_lei;
  validate_country;
  validate_city;
  validate_accounts_payable_current;
  validate_accounts_payable_prior_year;
  validate_accounts_receivable_current;
  validate_accounts_receivable_prior_year;
  validate_capital_expenditures;
  validate_cash_marketable_securities;
  validate_collateral_market_value;
  validate_committed_exposure;
  validate_credit_facility_currency;
  validate_credit_facility_purpose;
  validate_credit_facility_type;
  validate_cumulative_chargeoffs;
  validate_current_assets_current;
  validate_current_assets_prior_year;
  validate_current_liabilities_current;
  validate_current_liabilities_prior_year;
  validate_current_maturities_long_term_debt;
  validate_cusip;
  validate_customer_id;
  validate_date_financials E;
  validate_date_last_audit E;
  validate_days_past_due;
  validate_depreciation_amortization;
  validate_disposition_flag;
  validate_disposition_schedule_shift;
  validate_entity_industry_code;
  validate_entity_internal_id;
  validate_entity_internal_risk_rating;
  validate_entity_name;
  validate_exposure_at_default;
  validate_fixed_assets;
  validate_guarantor_internal_id;
  validate_guarantor_internal_risk_rating;
  validate_guarantor_name;
  validate_guarantor_tin;
  validate_industry_code;
  validate_industry_code_type;
  validate_interest_expense;
  validate_interest_rate;
  validate_interest_rate_ceiling;
  validate_interest_rate_floor;
  validate_interest_rate_index;
  validate_interest_rate_spread;
  validate_interest_rate_variability;
  validate_internal_credit_facility_id;
  validate_internal_id;
  validate_internal_risk_rating;
  validate_inventory_current;
  validate_inventory_prior_year;
  validate_leveraged_loan_flag;
  validate_lien_position;
  validate_line_of_business;
  validate_line_reported_on_fry9c;
  validate_locom_flag;
  validate_long_term_debt;
  validate_loss_given_default;
  validate_maturity_date;
  validate_minority_interest;
  validate_net_income_current;
  validate_net_income_prior_year;
  validate_net_sales_current;
  validate_net_sales_prior_year;
  validate_non_accrual_date;
  validate_obligor_name;
  validate_operating_income;
  validate_original_credit_facility_id;
  validate_original_internal_id;
  validate_origination_date E;
  validate_other_credit_facility_purpose_desc;
  validate_other_credit_facility_type_desc;
  validate_participation_flag;
  validate_participation_interest;
  validate_prepayment_penalty_flag;
  validate_probability_of_default;
  validate_renewal_date;
  validate_retained_earnings;
  validate_security_type;
  validate_short_term_debt;
  validate_snc_internal_credit_id;
  validate_special_purpose_entity_flag;
  validate_stock_exchange;
  validate_syndicated_loan_flag;
  validate_tangible_assets;
  validate_tax_status;
  validate_ticker_symbol;
  validate_tin;
  validate_total_assets_current;
  validate_total_assets_prior_year;
  validate_total_liabilities;
  validate_utilized_exposure
].

(** [validate_zip_code] is defined in the file but not registered. *)

(** ** risk_scoring.py *)

Definition score (row : Row) : result value :=
  high <- Py.gt_int (row_get_default row "Transaction_Amount" (VInt 0)) 5000 ;;
  if high then Ok (VStr "HIGH")
  else if negb (Py.truthy (row_get_default row "Valid_Transaction" (VBool true)))
          || negb (Py.truthy (row_get_default row "Valid_Currency" (VBool true)))
  then Ok (VStr "MEDIUM")
  else Ok (VStr "LOW").

Definition assign_risk_score (df : DataFrame) : result DataFrame :=
  s <- df_apply_rows score df ;; Ok (df_set df "Risk_Score" s).

(** ** remediation.py *)

Definition get_remedy (row : Row) : string :=
  if negb (Py.truthy (row_get_default row "Valid_Currency" (VBool true)))
  then "Fix currency format to ISO 4217."
  else if negb (Py.truthy (row_get_default row "Valid_Transaction" (VBool true)))
  then "Adjust Transaction_Amount to match Reported_Amount."
  else if negb (Py.truthy (row_get_default row "Valid_Transaction_Date" (VBool true)))
  then "Correct the Transaction_Date (can't be in future)."
  else if Py.eq_text (row_get_default row "Risk_Score" VNone) "HIGH"
  then "Manual audit required due to high amount."
  else "No action needed.".

Definition suggest_remediation (df : DataFrame) : result DataFrame :=
  s <- df_apply_rows (fun row => Ok (VStr (get_remedy row))) df ;;
  Ok (df_set df "Remediation" s).

(** ** custom_rules.py *)

(** What the name [df] may be bound to in the upload branch. *)
Inductive pyobj :=
| PFrame (df : DataFrame)
| PText (s : string).

(** [df = ""; return df] *)
Definition apply_custom_rules (df : pyobj) : pyobj := PText "".

(** [df["Valid_Currency"] = df["Currency"].astype(str).apply(lambda x: bool(re.match(r"^[A-Z]{3}$", x)))],
    one of the three functions listed in [CUSTOM_RULES], which
    [apply_custom_rules] never calls. *)
Definition validate_currency_format :=
  Cellwise "Currency" "Valid_Currency" (str_match currency_pattern).

(** ** genai_data_profiling.py, the branch taken once a file is uploaded

    [df] is the table read from the file.  After the registry loop the name
    [df] is rebound to what [apply_custom_rules] returns, and the next statement
    is [df['Risk_Level'] = df.apply(score_risk, axis=1)]: text has no [apply],
    and the module binds no [score_risk]. *)
Definition profile_upload (E : Env) (uploaded : DataFrame) : result DataFrame :=
  df <- apply_rules (CORPORATE_LOAN_RULES E) uploaded ;;
  match apply_custom_rules (PFrame df) with
  | PText _ => Raise (AttributeError "'str' object has no attribute 'apply'")
  | PFrame _ => Raise (NameError "score_risk")
  end.

(** ** What the specification says, in its own words

    These definitions follow the specification, not the code; the theorems
    compare them with the code above. *)

Definition member (s : string) (allowed : list string) : bool :=
  existsb (String.eqb s) allowed.

(** "valid iff value's string form is a member of an explicit allowed set":
    the enumerated-code rules that compare text, each with its set. *)
Definition text_coded_rules : list (rule * list string) := [
  (validate_industry_code_type, ["1"; "2"; "3"]);
  (validate_credit_facility_type,
   ["0"; "1"; "2"; "3"; "4"; "5"; "6"; "7"; "8"; "9";
    "10"; "11"; "12"; "13"; "14"; "15"; "16"; "17"; "18"; "19"]);
  (validate_credit_facility_purpose,
   ["0"; "1"; "2"; "3"; "4"; "5"; "6"; "7"; "8"; "9";
    "10"; "11"; "12"; "13"; "14"; "15"; "16"; "17"; "18"; "19";
    "20"; "21"; "22"; "23"; "24"; "25"; "26"; "27"; "28"; "29"; "30"; "33"]);
  (validate_line_reported_on_fry9c,
   ["1"; "2"; "3"; "4"; "5"; "6"; "7"; "8"; "9"; "10"; "11"]);
  (validate_participation_flag, ["1"; "2"; "3"; "4"; "5"]);
  (validate_lien_position, ["1"; "2"; "3"; "4"]);
  (validate_security_type, ["0"; "1"; "2"; "3"; "4"; "5"; "6"]);
  (validate_interest_rate_variability, ["1"; "2"; "3"; "4"]);
  (validate_interest_rate_index, ["1"; "2"; "3"; "4"; "5"; "6"; "7"]);
  (validate_tax_status, ["1"; "2"])
].

(** The enumerated-code rules that compare the cell itself with ints. *)
Definition int_coded_rules : list (rule * list Z) := [
  (validate_special_purpose_entity_flag, [1; 2]%Z);
  (validate_locom_flag, [1; 2; 3]%Z);
  (validate_prepayment_penalty_flag, [1; 2; 3]%Z);
  (validate_leveraged_loan_flag, [1; 2]%Z);
  (validate_disposition_flag, [0; 1; 2; 3; 4; 5; 6; 7; 8]%Z);
  (validate_syndicated_loan_flag, [0; 1; 2; 3; 4]%Z)
].

(** The cell is a number equal to [k]: the int [k], a bool standing for [k],
    or a float of that value. *)
Definition number_equal (v : value) (k : Z) : Prop :=
  v = VInt k
  \/ (exists b, v = VBool b /\ Py.Z_of_bool b = k)
  \/ (exists x, v = VFloat x /\ Float.compare_Z x k = Some Eq).

(** A cell-by-cell rule whose verdict on every cell is the boolean [p]. *)
Definition decides (r : rule) (p : value -> bool) : Prop :=
  exists src out f, r = Cellwise src out f /\ forall v, f v = Ok (VBool (p v)).

(** "parses under YYYY-MM-DD" *)
Definition parses_ymd (s : string) : bool :=
  match Date.strptime_ymd s with Some _ => true | None => false end.

(** "parses under YYYY-MM-DD" and the date is not after [d] *)
Definition parses_not_after (d : Date.date) (s : string) : bool :=
  match Date.strptime_ymd s with Some x => Date.leb x d | None => false end.

(** "HIGH if a raw magnitude field exceeds a fixed threshold (5000); else
    MEDIUM if any of a designated subset of verdicts is false; else LOW" *)
Definition exceeds (v : value) (k : Z) : bool :=
  match Py.compare_int v k with Ok (Some Gt) => true | _ => false end.

Definition designated_verdicts : list string := ["Valid_Transaction"; "Valid_Currency"].

Definition verdict_is_false (row : Row) (name : string) : bool :=
  negb (Py.truthy (row_get_default row name (VBool true))).

Definition risk_tier (row : Row) : string :=
  if exceeds (row_get_default row "Transaction_Amount" (VInt 0)) 5000 then "HIGH"
  else if existsb (verdict_is_false row) designated_verdicts then "MEDIUM"
  else "LOW".

(** The amount is a number (or the field is missing, which counts as 0). *)
Definition amount_is_number (row : Row) : Prop :=
  Py.is_int_or_float (row_get_default row "Transaction_Amount" (VInt 0)) = true.

(** "First-match-wins ordered check over a fixed list of (condition, message)
    pairs; falls through to No action needed." *)
Definition remediation_conditions : list ((Row -> bool) * string) := [
  (fun row => verdict_is_false row "Valid_Currency",
   "Fix currency format to ISO 4217.");
  (fun row => verdict_is_false row "Valid_Transaction",
   "Adjust Transaction_Amount to match Reported_Amount.");
  (fun row => verdict_is_false row "Valid_Transaction_Date",
   "Correct the Transaction_Date (can't be in future).");
  (fun row => Py.eq_text (row_get_default row "Risk_Score" VNone) "HIGH",
   "Manual audit required due to high amount.")
].

Fixpoint first_match (conds : list ((Row -> bool) * string)) (fallback : string)
    (row : Row) : string :=
  match conds with
  | [] => fallback
  | (c, msg) :: rest => if c row then msg else first_match rest fallback row
  end.

(** ** Frames: what a rule leaves alone, what a pass computes *)

(** The column [c], empty when there is none. *)
Definition column (df : DataFrame) (c : string) : Series :=
  match lookup c (columns df) with Some s => s | None => [] end.

Definition has_fields (df : DataFrame) (fields : list string) : Prop :=
  Forall (fun c => has_column df c = true) fields.

(** The column names after [df[c] = ...]. *)
Definition names_with (names : list string) (c : string) : list string :=
  if existsb (String.eqb c) names then names else names ++ [c].

(** [df'] is [df] with the one column [out] written: same rows, same columns
    in the same places plus [out] if it is new, every other column untouched. *)
Definition writes_only (out : string) (df df' : DataFrame) : Prop :=
  nrows df' = nrows df
  /\ column_names df' = names_with (column_names df) out
  /\ (exists s, lookup out (columns df') = Some s /\ List.length s = nrows df)
  /\ forall c, c <> out -> lookup c (columns df') = lookup c (columns df).

(** The cells a rule function [f] that never raises writes for a column. *)
Definition verdict (f : value -> result value) (v : value) : value :=
  match f v with Ok b => b | Raise _ => VNone end.

(** The column a registered rule writes in a full pass, read off the raw table
    [raw]: its cell function over its raw source column; for the two
    conditional-description rules, [True] on every row. *)
Definition pass_column (raw : DataFrame) (r : rule) : Series :=
  match r with
  | Cellwise src _ f => map (verdict f) (column raw src)
  | Columnwise src _ f => map (f (column raw src)) (column raw src)
  | Rowwise _ _ _ => repeat (VBool true) (nrows raw)
  end.

Definition write_pass_column (raw : DataFrame) (df : DataFrame) (r : rule) : DataFrame :=
  df_set df (output_field r) (pass_column raw r).

(** The table a full pass produces, as a function of the raw table alone. *)
Definition annotated (rules : list rule) (raw : DataFrame) : DataFrame :=
  fold_left (write_pass_column raw) rules raw.

Definition registry_fields (E : Env) : list string :=
  flat_map source_fields (CORPORATE_LOAN_RULES E).

Definition registry_outputs (E : Env) : list string :=
  map output_field (CORPORATE_LOAN_RULES E).

(** The description cells of a conditional-description rule hold text. *)
Definition descriptions_are_text (r : rule) (df : DataFrame) : Prop :=
  match r with
  | Rowwise (_ :: description :: _) _ _ =>
      Forall (fun v => exists s, v = VStr s) (column df description)
  | _ => True
  end.

(** Every cell of the column has a text ([str] returns on it). *)
Definition legible_column (col : Series) : Prop :=
  Forall (fun v => Py.legible v = true) col.

Definition legible_table (df : DataFrame) : Prop :=
  Forall (fun cs => legible_column (snd cs)) (columns df).

(** ** Sample tables and environments *)

(** A date parser that accepts the text [%Y-%m-%d] accepts and nothing else;
    it stands for [pd.to_datetime] where a pass is run on a sample table. *)
Definition iso_dates_only (_ : Series) (v : value) : bool :=
  match Py.strptime v with Ok _ => true | Raise _ => false end.

Definition env_on (y m d : Z) : Env := mkEnv (Date.mk y m d) iso_dates_only.

Fixpoint dedupe (seen : list string) (xs : list string) : list string :=
  match xs with
  | [] => []
  | x :: rest =>
      if existsb (String.eqb x) seen then dedupe seen rest
      else x :: dedupe (x :: seen) rest
  end.

(** A table with every source field of the registry, each column holding
    [cells]. *)
Definition uniform_table (cells : Series) : DataFrame :=
  mkDataFrame (List.length cells)
    (map (fun c => (c, cells)) (dedupe [] (registry_fields (env_on 2024 1 1)))).

(** One row: every field ["0"], the description of the other facility type empty. *)
Definition other_type_without_description : DataFrame :=
  df_set (uniform_table [VStr "0"]) "Other_Credit_Facility_Type_Description" [VStr ""].

(** One row, originated on 1 June 2024. *)
Definition originated_june_first : DataFrame :=
  df_set (uniform_table [VStr "0"]) "Origination_Date" [VStr "2024-06-01"].

(** No rows. *)
Definition empty_table : DataFrame := uniform_table [].

(** The float 1.0. *)
Definition float_one : spec_float := S754_finite false 4503599627370496 (-52).

(** A table without the [Customer_ID] column. *)
Definition without_customer_id : DataFrame :=
  mkDataFrame 1 [("Zip_Code", [VStr "12345"])].

(** A table whose one [Customer_ID] cell is missing. *)
Definition missing_customer_id : DataFrame :=
  mkDataFrame 1 [("Customer_ID", [NaN])].

(** Facility type ["0"] with a missing description. *)
Definition code_zero_missing_description : DataFrame :=
  mkDataFrame 1 [("Credit_Facility_Type", [VStr "0"]);
                 ("Other_Credit_Facility_Type_Description", [NaN])].

Definition receivables : DataFrame :=
  mkDataFrame 2 [("Accounts_Receivable_Current", [VStr "100"; VStr "abc"]);
                 ("City", [VStr "Oslo"; VStr "Rome"])].

(** The flag as the text ["1"] and as the float 1.0. *)
Definition flags : DataFrame :=
  mkDataFrame 2 [("Special_Purpose_Entity_Flag", [VStr "1"; VFloat float_one])].

Definition originated_in_2030 : DataFrame :=
  mkDataFrame 1 [("Origination_Date", [VStr "2030-01-01"])].

Definition renewed_in_may : DataFrame :=
  mkDataFrame 1 [("Renewal_Date", [VStr "2024-05-01"])].

Definition large_amount_row : Row :=
  [("Transaction_Amount", VInt 6000); ("Valid_Transaction", VBool false);
   ("Valid_Currency", VBool true)].

(** The table of [test_rules_and_custom_apply]. *)
Definition custom_rules_test_table : DataFrame :=
  mkDataFrame 1 [("Transaction_Amount", [VInt 100]); ("Reported_Amount", [VInt 100]);
                 ("Currency", [VStr "USD"]); ("Transaction_Date", [VStr "2020-01-01"])].

(** The column [c] after the rules have run. *)
Definition column_after (rules : list rule) (df : DataFrame) (c : string) : result Series :=
  df' <- apply_rules rules df ;; Ok (column df' c).

(** ** Definitions used by the proofs *)

(** What a rule writes into a cell: [True], [False], [None] or a match object. *)
Definition is_verdict (b : value) : bool :=
  match b with
  | VBool _ | VNone | VMatch _ => true
  | _ => false
  end.

(** [f] returns on every value, and what it returns is a verdict. *)
Definition returns_verdict (f : value -> result value) : Prop :=
  forall v, exists b, f v = Ok b /\ is_verdict b = true.

(** A cell rule whose function returns a verdict on every value; a column rule
    that writes verdicts; or one of the conditional-description rules over a
    code and a description field. *)
Definition well_shaped (r : rule) : Prop :=
  match r with
  | Cellwise _ _ f => returns_verdict f
  | Columnwise _ _ f => forall col v, is_verdict (f col v) = true
  | Rowwise fields _ f =>
      exists code description,
        fields = [code; description] /\ f = other_description_required code description
  end.

(** "valid iff the governing code is not "0", or it is and the description is
    non-empty": the verdict of a conditional-description rule on a row. *)
Definition description_verdict (code description : string) (x : Row) : value :=
  VBool (negb (Py.eq_text (row_get_default x code NaN) "0")
         || match row_get_default x description NaN with
            | VStr s => negb (String.eqb (Text.strip s) "")
            | _ => false
            end).

(** A static check of a rule list, given the fields [written] so far: a cell
    or column rule reads a field nothing has written yet, a
    conditional-description rule reads a code field that has been written. *)
Fixpoint in_order (written : list string) (rules : list rule) : bool :=
  match rules with
  | [] => true
  | r :: rest =>
      match r with
      | Cellwise src _ _ | Columnwise src _ _ => negb (existsb (String.eqb src) written)
      | Rowwise (code :: _) _ _ => existsb (String.eqb code) written
      | Rowwise [] _ _ => false
      end
      && in_order (output_field r :: written) rest
  end.

(** The last rule of a list that writes [c]. *)
Fixpoint last_writer (c : string) (rules : list rule) : option rule :=
  match rules with
  | [] => None
  | r :: rest =>
      match last_writer c rest with
      | Some r' => Some r'
      | None => if String.eqb (output_field r) c then Some r else None
      end
  end.

Definition holds_no_text (col : Series) : Prop :=
  Forall (fun v => Py.eq_text v "0" = false) col.

(** Two rule lists that write the same fields, with the same cells except
    perhaps in the column [c0]. *)
Definition same_but_for (c0 : string) (raw : DataFrame) (r1 r2 : rule) : Prop :=
  output_field r1 = output_field r2
  /\ (output_field r1 <> c0 -> pass_column raw r1 = pass_column raw r2).

(** ** Further notions: what the rule functions accept, how they compose *)

(** A cell rule whose verdict on every cell that has a text is the boolean [p]. *)
Definition judges (r : rule) (p : value -> bool) : Prop :=
  exists src out f,
    r = Cellwise src out f
    /\ forall v, Py.legible v = true -> f v = Ok (VBool (p v)).

(** [f] returns [True] or [False] on every cell. *)
Definition returns_bool (f : value -> result value) : Prop :=
  forall v, exists t, f v = Ok (VBool t).

(** *** Character classes and shapes of text *)

(** No control character (0x00..0x1F, carriage return and line feed among
    them) and no DEL. *)
Definition is_printable (c : ascii) : bool :=
  negb (Text.between 0 31 c || Text.is_code 127 c).

(** Printable and no comma. *)
Definition is_id_char (c : ascii) : bool := is_printable c && negb (Text.is_code 44 c).

Definition is_capital (c : ascii) : bool := Text.between 65 90 c.

(** A text that is not empty, all of whose characters satisfy [p]. *)
Definition nonempty_of (p : ascii -> bool) (s : string) : bool :=
  negb (Text.is_empty s) && Text.forallb_str p s.

(** A text of exactly [n] characters that satisfy [p]. *)
Definition exactly (n : nat) (p : ascii -> bool) (s : string) : bool :=
  Nat.eqb (String.length s) n && Text.forallb_str p s.

(** [s] has the shape, or is a text of the shape followed by one line feed. *)
Definition up_to_newline (shape : string -> bool) (s : string) : Prop :=
  shape s = true \/ exists t, s = t ++ String Text.newline "" /\ shape t = true.

(** A character that [repr] of a float always has: the decimal point, the
    exponent mark, or the [n] of [inf] and [nan]. *)
Definition float_mark (c : ascii) : bool :=
  Ascii.eqb c "." || Ascii.eqb c "e" || Ascii.eqb c "n".

(** *** Groups of rules with one body *)

(** [.astype(str).str.match(r'^[^\r\n,\x00-\x1F\x7F]+$')] *)
Definition identifier_rules : list rule :=
  [validate_customer_id; validate_internal_id; validate_original_internal_id;
   validate_obligor_name; validate_internal_credit_facility_id].

(** [.astype(str).str.match(r'^[^\r\n,\x00-\x1F\x7F]*$')] *)
Definition entity_rules : list rule := [validate_entity_internal_id; validate_entity_name].

(** [.astype(str).str.strip().ne("")] *)
Definition free_text_rules : list rule :=
  [validate_city; validate_internal_risk_rating; validate_stock_exchange;
   validate_ticker_symbol; validate_line_of_business; validate_entity_internal_risk_rating].

(** [.apply(lambda x: str(x).isdigit())] *)
Definition digit_only_rules : list rule :=
  [validate_net_sales_current; validate_net_sales_prior_year; validate_operating_income;
   validate_depreciation_amortization; validate_interest_expense;
   validate_net_income_current; validate_net_income_prior_year;
   validate_cash_marketable_securities; validate_accounts_receivable_current;
   validate_accounts_receivable_prior_year; validate_inventory_current;
   validate_inventory_prior_year; validate_current_assets_current;
   validate_current_assets_prior_year; validate_tangible_assets; validate_fixed_assets;
   validate_total_assets_current; validate_total_assets_prior_year;
   validate_accounts_payable_current; validate_accounts_payable_prior_year;
   validate_short_term_debt; validate_current_maturities_long_term_debt;
   validate_current_liabilities_current; validate_current_liabilities_prior_year;
   validate_long_term_debt; validate_total_liabilities; validate_retained_earnings;
   validate_capital_expenditures; validate_asc326_20].

(** [isinstance(x, (int, float)) and x >= 0] *)
Definition exposure_rules : list rule :=
  [validate_committed_exposure; validate_utilized_exposure].

(** A float that is not below zero: a zero of either sign, a positive number,
    or plus infinity; not a NaN. *)
Definition float_nonnegative (x : spec_float) : bool :=
  match x with
  | S754_zero _ => true
  | S754_infinity s => negb s
  | S754_finite s _ _ => negb s
  | S754_nan => false
  end.

(** What [isinstance(x, (int, float)) and x >= 0] says of a cell. *)
Definition is_nonnegative_number (v : value) : bool :=
  match v with
  | VBool _ => true
  | VInt z => (0 <=? z)%Z
  | VFloat x => float_nonnegative x
  | _ => false
  end.

(** What [str(x).isdigit()] says of a cell. *)
Definition is_digit_text (v : value) : bool :=
  match v with
  | VInt z => (0 <=? z)%Z
  | VStr s => Text.isdigit s
  | _ => false
  end.

(** What [str(x).strip() != ""] says of a cell. *)
Definition is_not_blank (v : value) : bool :=
  match v with
  | VStr s => negb (Text.forallb_str Text.isspace_char s)
  | _ => true
  end.

(** *** Verdicts that are no booleans *)

(** The fields whose rule is [na_test or re.match(...)]. *)
Definition match_or_na_fields : list string :=
  ["Target_Hold"; "Committed_Exposure_Global_Par"; "Utilized_Exposure_Global_Par";
   "Committed_Exposure_Global_Fair"; "Utilized_Exposure_Global_Fair"].

(** The fields whose rule is [re.match(...) or na_test]. *)
Definition lei_fields : list string := ["Obligor_LEI"; "PSR_LEI"].

(** *** A rule applied to its own verdicts *)





(** *** The registry loop on any table *)

(** The field a cell or column rule indexes with [df[src]]; the
    conditional-description rules index the row inside their lambda. *)
Definition indexed_field (r : rule) : option string :=
  match r with
  | Cellwise src _ _ | Columnwise src _ _ => Some src
  | Rowwise _ _ _ => None
  end.

(** The indexed field of the first rule, in list order, that the table lacks. *)
Fixpoint first_missing (df : DataFrame) (rules : list rule) : option string :=
  match rules with
  | [] => None
  | r :: rest =>
      match indexed_field r with
      | Some src => if has_column df src then first_missing df rest else Some src
      | None => first_missing df rest
      end
  end.

(** The cell and column rules of a list: all but the conditional-description
    rules. *)
Definition columnar (rules : list rule) : list rule :=
  filter (fun r => negb (is_rowwise r)) rules.

(** Two tables with the same number of rows and the same cells under every
    column name (the columns may stand in a different order). *)
Definition same_cells (a b : DataFrame) : Prop :=
  nrows a = nrows b /\ forall c, lookup c (columns a) = lookup c (columns b).

(** No rule of the list reads a field that another rule of the list writes:
    a field that is read and written is written by its reader. *)
Definition reads_no_output (rules : list rule) : bool :=
  forallb (fun r =>
    forallb (fun r' =>
      forallb (fun c => negb (String.eqb (output_field r') c)
                        || String.eqb (output_field r') (output_field r))
              (source_fields r))
      rules)
    rules.

(** *** Scoring, then advice *)

(** The remedy for a row, read off the row before it is scored: the audit
    message is for an amount above 5000. *)
Definition advice (row : Row) : string :=
  if verdict_is_false row "Valid_Currency" then "Fix currency format to ISO 4217."
  else if verdict_is_false row "Valid_Transaction"
  then "Adjust Transaction_Amount to match Reported_Amount."
  else if verdict_is_false row "Valid_Transaction_Date"
  then "Correct the Transaction_Date (can't be in future)."
  else if exceeds (row_get_default row "Transaction_Amount" (VInt 0)) 5000
  then "Manual audit required due to high amount."
  else "No action needed.".

(** *** More sample tables *)

Definition countries : DataFrame :=
  mkDataFrame 3 [("Country", [VStr "US"; VStr "USA"; VStr "us"])].

(** An amount above the threshold beside clean verdicts, and a small amount
    beside a bad currency. *)
Definition two_transactions : DataFrame :=
  mkDataFrame 2 [("Transaction_Amount", [VInt 6000; VInt 100]);
                 ("Valid_Currency", [VBool true; VBool false])].

(** A well-formed currency beside a small amount, a malformed one beside a
    large amount. *)
Definition two_currencies : DataFrame :=
  mkDataFrame 2 [("Transaction_Amount", [VInt 100; VInt 6000]);
                 ("Currency", [VStr "USD"; VStr "usd"])].

(** * Properties *)

(** ** Results *)

Lemma bind_ok {A B} (m : result A) (k : A -> result B) (b : B) :
  bind m k = Ok b -> exists a, m = Ok a /\ k a = Ok b.
Proof.
  destruct m as [a | e]; simpl; intros H; [eauto | discriminate].
Qed.

Lemma map_result_ok {A B} (f : A -> result B) (g : A -> B) (xs : list A) :
  (forall x, In x xs -> f x = Ok (g x)) -> map_result f xs = Ok (map g xs).
Proof.
  induction xs as [| x xs IH]; intros H; simpl; [reflexivity |].
  rewrite (H x (or_introl eq_refl)); simpl.
  rewrite IH by (intros y Hy; apply H; now right).
  reflexivity.
Qed.

Lemma map_result_length {A B} (f : A -> result B) (xs : list A) (ys : list B) :
  map_result f xs = Ok ys -> List.length ys = List.length xs.
Proof.
  revert ys; induction xs as [| x xs IH]; simpl; intros ys H.
  - now inversion H.
  - apply bind_ok in H as (y & _ & H).
    apply bind_ok in H as (ys' & Hys & H).
    inversion H; subst; simpl; f_equal; now apply IH.
Qed.

Lemma map_result_nth {A B} (f : A -> result B) (xs : list A) (ys : list B) i a b :
  map_result f xs = Ok ys -> i < List.length xs -> f (nth i xs a) = Ok (nth i ys b).
Proof.
  revert ys i; induction xs as [| x xs IH]; simpl; intros ys i H Hi; [lia |].
  apply bind_ok in H as (y & Hy & H).
  apply bind_ok in H as (ys' & Hys & H).
  inversion H; subst; destruct i as [| i]; simpl; [exact Hy |].
  apply IH; [exact Hys | lia].
Qed.

(** When [e] is the only exception [f] raises on the list, and it does raise
    it somewhere, the loop ends with [e]. *)
Lemma map_result_raises {A B} (f : A -> result B) (xs : list A) e :
  (forall x, In x xs -> (exists b, f x = Ok b) \/ f x = Raise e) ->
  (exists x, In x xs /\ f x = Raise e) ->
  map_result f xs = Raise e.
Proof.
  induction xs as [| x xs IH]; intros Hall (x0 & Hin & Hx0); [destruct Hin |].
  simpl; destruct (Hall x (or_introl eq_refl)) as [(b & Hb) | Hb]; rewrite Hb; simpl;
    [| reflexivity].
  rewrite IH; [reflexivity | intros y Hy; apply Hall; now right |].
  destruct Hin as [-> | Hin]; [congruence | eauto].
Qed.

(** ** Named columns *)

Section Assoc.

Context {A : Type}.
Implicit Types (kvs : list (string * A)) (k c : string) (v : A).

Lemma lookup_assign_same kvs k v : lookup k (assign k v kvs) = Some v.
Proof.
  induction kvs as [| [k' w] kvs IH]; simpl.
  - now rewrite String.eqb_refl.
  - destruct (String.eqb k' k) eqn:E; simpl; rewrite E; [reflexivity | exact IH].
Qed.

Lemma lookup_assign_other kvs k c v :
  c <> k -> lookup c (assign k v kvs) = lookup c kvs.
Proof.
  intros Hne; induction kvs as [| [k' w] kvs IH]; simpl.
  - destruct (String.eqb k c) eqn:E; [apply String.eqb_eq in E; congruence | reflexivity].
  - destruct (String.eqb k' k) eqn:E; simpl.
    + apply String.eqb_eq in E; subst k'.
      destruct (String.eqb k c) eqn:E'; [apply String.eqb_eq in E'; congruence | reflexivity].
    + now rewrite IH.
Qed.

Lemma names_assign kvs k v :
  map fst (assign k v kvs) = names_with (map fst kvs) k.
Proof.
  unfold names_with; induction kvs as [| [k' w] kvs IH]; simpl; [reflexivity |].
  rewrite (String.eqb_sym k k').
  destruct (String.eqb k' k) eqn:E; simpl; [reflexivity |].
  rewrite IH; now destruct (existsb (String.eqb k) (map fst kvs)).
Qed.

End Assoc.

Lemma lookup_map_snd {A B} (g : A -> B) (kvs : list (string * A)) (k : string) :
  lookup k (map (fun kv => (fst kv, g (snd kv))) kvs) = option_map g (lookup k kvs).
Proof.
  induction kvs as [| [k' w] kvs IH]; simpl; [reflexivity |].
  now destruct (String.eqb k' k).
Qed.

Lemma has_column_lookup df c :
  has_column df c = true <-> exists s, lookup c (columns df) = Some s.
Proof.
  unfold has_column; destruct (lookup c (columns df)); split; eauto; try discriminate.
  intros (s & H); discriminate.
Qed.

Lemma df_get_present df c :
  has_column df c = true -> df_get df c = Ok (column df c).
Proof.
  unfold has_column, df_get, column; now destruct (lookup c (columns df)).
Qed.

Lemma df_get_absent df c :
  has_column df c = false -> df_get df c = Raise (KeyError c).
Proof.
  unfold has_column, df_get; now destruct (lookup c (columns df)).
Qed.

(** [df[out] = s] writes only [out], whatever [s] of the right length. *)
Lemma df_set_writes_only df out s :
  List.length s = nrows df -> writes_only out df (df_set df out s).
Proof.
  intros Hlen; unfold writes_only, column_names; simpl; repeat split.
  - apply names_assign.
  - exists s; split; [apply lookup_assign_same | exact Hlen].
  - intros c Hc; now apply lookup_assign_other.
Qed.

(** ** Rows *)

Lemma lookup_row_at df i c :
  lookup c (row_at df i) = option_map (fun s => nth i s NaN) (lookup c (columns df)).
Proof. unfold row_at; apply (lookup_map_snd (fun s => nth i s NaN)). Qed.

Lemma lookup_nan_row df c :
  lookup c (nan_row df) = option_map (fun _ => NaN) (lookup c (columns df)).
Proof. unfold nan_row; apply (lookup_map_snd (fun _ : Series => NaN)). Qed.

Lemma rows_length df : List.length (rows df) = nrows df.
Proof. unfold rows; now rewrite length_map, length_seq. Qed.

Lemma in_rows df x : In x (rows df) -> exists i, i < nrows df /\ x = row_at df i.
Proof.
  unfold rows; intros H; apply in_map_iff in H as (i & <- & Hi).
  apply in_seq in Hi; exists i; split; [lia | reflexivity].
Qed.

Lemma df_apply_rows_length f df s :
  df_apply_rows f df = Ok s -> List.length s = nrows df.
Proof.
  unfold df_apply_rows; destruct (nrows df) as [| n] eqn:En.
  - destruct (f (nan_row df)); [intros H; now inversion H |].
    destruct (columns df) as [| c [| c' cs]]; intros H; now inversion H.
  - destruct (columns df) as [| c cs] eqn:Ec.
    + destruct (f (nan_row df)); intros H; inversion H; subst.
      apply (repeat_length _ (S n)).
    + intros H; apply map_result_length in H; now rewrite rows_length, En in H.
Qed.

(** A frame without columns has empty rows. *)
Lemma rows_without_columns df :
  columns df = [] -> rows df = repeat (nan_row df) (nrows df).
Proof.
  intros Hc; unfold rows, row_at, nan_row; rewrite Hc; simpl.
  generalize 0; induction (nrows df) as [| n IH]; intros k; simpl; [reflexivity |].
  now rewrite IH.
Qed.

Lemma map_repeat {A B} (g : A -> B) (a : A) n : map g (repeat a n) = repeat (g a) n.
Proof. induction n; simpl; congruence. Qed.

(** When [f] returns on the probing row and on every row, so does
    [df.apply(f, axis=1)], with [f]'s value for each row in order. *)
Lemma df_apply_rows_ok f g df :
  f (nan_row df) = Ok (g (nan_row df)) ->
  (forall x, In x (rows df) -> f x = Ok (g x)) ->
  df_apply_rows f df = Ok (map g (rows df)).
Proof.
  intros Hprobe Hrows; unfold df_apply_rows.
  destruct (nrows df) as [| n] eqn:En.
  - rewrite Hprobe; unfold rows; now rewrite En.
  - destruct (columns df) as [| c cs] eqn:Ec.
    + rewrite Hprobe, (rows_without_columns df Ec), map_repeat, En; reflexivity.
    + now apply map_result_ok.
Qed.

(** ** The conditional-description predicate *)

Lemma other_description_not_required code description x v :
  row_get x code = Ok v -> Py.eq_text v "0" = false ->
  other_description_required code description x = Ok (VBool true).
Proof.
  intros Hc Hv; unfold other_description_required; rewrite Hc; simpl; now rewrite Hv.
Qed.

Lemma other_description_given code description x v s :
  row_get x code = Ok v -> row_get x description = Ok (VStr s) ->
  other_description_required code description x
  = Ok (VBool (negb (Py.eq_text v "0") || negb (String.eqb (Text.strip s) ""))).
Proof.
  intros Hc Hd; unfold other_description_required; rewrite Hc; simpl.
  destruct (Py.eq_text v "0"); simpl; [| reflexivity].
  rewrite Hd; reflexivity.
Qed.

Lemma other_description_not_text code description x v :
  row_get x code = Ok (VStr "0") -> row_get x description = Ok v ->
  (forall s, v <> VStr s) ->
  exists e, other_description_required code description x = Raise e.
Proof.
  intros Hc Hd Hv; unfold other_description_required; rewrite Hc; simpl.
  rewrite Hd; simpl.
  destruct v; simpl; eauto. now destruct (Hv s).
Qed.

(** ** The shape of the registered rules *)

Lemma verdict_ok f v : returns_verdict f -> f v = Ok (verdict f v).
Proof. intros H; unfold verdict; destruct (H v) as (b & -> & _); reflexivity. Qed.

Lemma verdict_is_verdict f v : returns_verdict f -> is_verdict (verdict f v) = true.
Proof. intros H; unfold verdict; destruct (H v) as (b & -> & Hb); exact Hb. Qed.

Lemma verdict_not_text b s : is_verdict b = true -> Py.eq_text b s = false.
Proof. destruct b; simpl; try discriminate; reflexivity. Qed.

Lemma ge_int_number v k :
  Py.is_int_or_float v = true -> exists b, Py.ge_int v k = Ok b.
Proof. unfold Py.ge_int; destruct v; simpl; try discriminate; intros _; eauto. Qed.

Lemma try_except_verdict (body : result value) (a : value) :
  (forall b, body = Ok b -> is_verdict b = true) -> is_verdict a = true ->
  exists b, try_except body (Ok a) = Ok b /\ is_verdict b = true.
Proof. destruct body; simpl; eauto. Qed.

Lemma bind_bool_verdict {A} (m : result A) (k : A -> bool) b :
  (x <- m ;; Ok (VBool (k x))) = Ok b -> is_verdict b = true.
Proof. destruct m; simpl; intros H; inversion H; reflexivity. Qed.

Lemma or_verdict a b :
  is_verdict a = true -> is_verdict b = true -> is_verdict (Py.or_ a b) = true.
Proof. unfold Py.or_; now destruct (Py.truthy a). Qed.

Lemma re_match_verdict p s : is_verdict (Py.re_match p s) = true.
Proof. unfold Py.re_match; now destruct (Re.match_anchored p s). Qed.

Lemma nonnegative_number_returns : returns_verdict nonnegative_number.
Proof.
  intros v; unfold nonnegative_number.
  destruct (Py.is_int_or_float v) eqn:E; [| eauto].
  destruct (ge_int_number v 0 E) as (b & ->); simpl; eauto.
Qed.

Lemma float_in_unit_interval_returns : returns_verdict float_in_unit_interval.
Proof.
  intros v; apply try_except_verdict; [| reflexivity].
  intros b; apply (bind_bool_verdict (Py.to_float v) Py.in_unit_interval).
Qed.

Lemma float_parses_returns : returns_verdict float_parses.
Proof.
  intros v; apply try_except_verdict; [| reflexivity].
  intros b; apply (bind_bool_verdict (Py.to_float v) (fun _ => true)).
Qed.

Lemma date_or_sentinel_returns s : returns_verdict (date_or_sentinel s).
Proof.
  intros v; apply try_except_verdict; [| reflexivity].
  intros b; apply (bind_bool_verdict (Py.strptime v) (fun _ => true)).
Qed.

Lemma is_valid_origination_returns E : returns_verdict (is_valid_origination E).
Proof.
  intros v; apply try_except_verdict; [| reflexivity].
  intros b; apply (bind_bool_verdict _ (fun d => Date.leb d (today E))).
Qed.

Ltac rule_returns :=
  lazymatch goal with
  | |- returns_verdict ?f =>
      first
        [ apply nonnegative_number_returns
        | apply is_valid_origination_returns
        | let g := eval hnf in f in
          change (returns_verdict g);
          cbv beta delta [str_match str_nonblank str_isin isin str_isdigit
                          str_isdigit_or_na number_or_none na_or_signed_integer
                          lei_or_na na_or_match is_valid_rate is_valid_spread
                          is_valid_pd is_valid_renewal_date is_valid_target_hold
                          is_valid is_valid_maturity is_valid_non_accrual];
          intros v; cbv beta zeta;
          repeat match goal with
                 | |- exists b, (if ?c then _ else _) = Ok b /\ _ => destruct c eqn:?
                 end;
          first
            [ eexists; split; reflexivity
            | eexists; split;
              [ reflexivity
              | apply or_verdict; first [ reflexivity | apply re_match_verdict ] ]
            | apply float_in_unit_interval_returns
            | apply float_parses_returns
            | apply date_or_sentinel_returns
            | apply nonnegative_number_returns
            | match goal with
              | H : Py.is_int v = true |- _ =>
                  destruct v; try discriminate; simpl; eauto
              end ] ]
  end.

(** Every registered rule has one of the three shapes, and no cell function of
    the registry raises, whatever the cell holds. *)
Lemma registry_well_shaped E : Forall well_shaped (CORPORATE_LOAN_RULES E).
Proof.
  unfold CORPORATE_LOAN_RULES.
  repeat (apply Forall_cons;
          [ lazymatch goal with
            | |- well_shaped ?r =>
                let r' := eval hnf in r in
                change (well_shaped r'); cbv beta iota delta [well_shaped]
            end;
            lazymatch goal with
            | |- forall _ _, _ => reflexivity
            | |- returns_verdict _ => rule_returns
            | |- exists _, _ => do 2 eexists; split; reflexivity
            end | ]).
  apply Forall_nil.
Qed.

(** ** One rule on one table *)

Lemma lookup_In {A} (kvs : list (string * A)) k v : lookup k kvs = Some v -> In (k, v) kvs.
Proof.
  induction kvs as [| [k' w] kvs IH]; simpl; [discriminate |].
  destruct (String.eqb k' k) eqn:E.
  - apply String.eqb_eq in E; intros H; inversion H; subst; now left.
  - intros H; right; now apply IH.
Qed.

Lemma Forall_assign {A} (P : string * A -> Prop) kvs k v :
  Forall P kvs -> P (k, v) -> Forall P (assign k v kvs).
Proof.
  intros H Hkv; induction H as [| [k' w] kvs Hx Hkvs IH]; simpl.
  - now constructor.
  - destruct (String.eqb k' k) eqn:E.
    + apply String.eqb_eq in E; subst; now constructor.
    + now constructor.
Qed.

Lemma existsb_eqb_In c names : existsb (String.eqb c) names = true <-> In c names.
Proof.
  rewrite existsb_exists; split.
  - intros (x & Hx & E); apply String.eqb_eq in E; now subst.
  - intros H; exists c; split; [exact H | apply String.eqb_refl].
Qed.

Lemma NoDup_names_with names c : NoDup names -> NoDup (names_with names c).
Proof.
  intros H; unfold names_with.
  destruct (existsb (String.eqb c) names) eqn:E; [exact H |].
  apply NoDup_app; [exact H | repeat constructor; simpl; tauto |].
  intros x Hx [<- | []].
  apply existsb_eqb_In in Hx; congruence.
Qed.

Lemma column_length df c s :
  well_formed df -> lookup c (columns df) = Some s -> List.length s = nrows df.
Proof.
  intros [Hlen _] H; apply lookup_In in H.
  rewrite Forall_forall in Hlen; exact (Hlen _ H).
Qed.

Lemma well_formed_df_set df out s :
  well_formed df -> List.length s = nrows df -> well_formed (df_set df out s).
Proof.
  intros [Hlen Hnd] Hs; split; simpl.
  - now apply Forall_assign.
  - unfold column_names; simpl; rewrite names_assign; now apply NoDup_names_with.
Qed.

(** The column a rule that returns has written. *)
Lemma apply_rule_ok r df df' :
  apply_rule r df = Ok df' ->
  exists s, df' = df_set df (output_field r) s
            /\ (well_formed df -> List.length s = nrows df).
Proof.
  destruct r as [src out f | src out f | fields out f]; simpl; intros H.
  - apply bind_ok in H as (s & Hs & H); apply bind_ok in H as (t & Ht & H).
    inversion H; subst; exists t; split; [reflexivity |].
    intros Hwf; apply map_result_length in Ht; rewrite Ht.
    unfold df_get in Hs; destruct (lookup src (columns df)) eqn:E; inversion Hs; subst.
    now apply (column_length df src).
  - apply bind_ok in H as (s & Hs & H).
    inversion H; subst; eexists; split; [reflexivity |].
    intros Hwf; rewrite length_map.
    unfold df_get in Hs; destruct (lookup src (columns df)) eqn:E; inversion Hs; subst.
    now apply (column_length df src).
  - apply bind_ok in H as (s & Hs & H).
    inversion H; subst; exists s; split; [reflexivity |].
    intros _; now apply df_apply_rows_length in Hs.
Qed.

(** A rule that returns has written its output field and nothing else. *)
Lemma apply_rule_writes_only r df df' :
  well_formed df -> apply_rule r df = Ok df' ->
  writes_only (output_field r) df df' /\ well_formed df'.
Proof.
  intros Hwf H; apply apply_rule_ok in H as (s & -> & Hlen).
  split; [apply df_set_writes_only | apply well_formed_df_set]; auto.
Qed.

Lemma apply_cellwise src out f df :
  returns_verdict f -> has_column df src = true ->
  apply_rule (Cellwise src out f) df
  = Ok (df_set df out (map (verdict f) (column df src))).
Proof.
  intros Hf Hsrc; simpl; rewrite (df_get_present _ _ Hsrc); simpl.
  rewrite (map_result_ok f (verdict f)); [reflexivity |].
  intros v _; now apply verdict_ok.
Qed.

Lemma apply_columnwise src out f df :
  has_column df src = true ->
  apply_rule (Columnwise src out f) df
  = Ok (df_set df out (map (f (column df src)) (column df src))).
Proof. intros Hsrc; simpl; now rewrite (df_get_present _ _ Hsrc). Qed.

Lemma row_get_present x c v : lookup c x = Some v -> row_get x c = Ok v.
Proof. unfold row_get; now intros ->. Qed.

Lemma map_const_repeat {A B} (b : B) (xs : list A) :
  map (fun _ => b) xs = repeat b (List.length xs).
Proof. induction xs; simpl; congruence. Qed.

(** On raw fields whose descriptions are text, a conditional-description rule
    returns the verdict the specification gives. *)
Lemma apply_rowwise_text code description fields out df :
  well_formed df ->
  has_column df code = true -> has_column df description = true ->
  Forall (fun v => exists s, v = VStr s) (column df description) ->
  apply_rule (Rowwise fields out (other_description_required code description)) df
  = Ok (df_set df out (map (description_verdict code description) (rows df))).
Proof.
  intros Hwf Hc Hd Htext; simpl.
  apply has_column_lookup in Hc as (ccol & Hc).
  pose proof Hd as Hd'; apply has_column_lookup in Hd as (dcol & Hd).
  assert (Hdcol : column df description = dcol) by (unfold column; now rewrite Hd).
  rewrite Hdcol in Htext.
  rewrite (df_apply_rows_ok _ (description_verdict code description)); [reflexivity | |].
  - assert (H : lookup code (nan_row df) = Some NaN)
      by (rewrite lookup_nan_row, Hc; reflexivity).
    rewrite (other_description_not_required _ _ _ NaN (row_get_present _ _ _ H) eq_refl).
    unfold description_verdict, row_get_default; now rewrite H.
  - intros x Hx; apply in_rows in Hx as (i & Hi & ->).
    assert (Hci : lookup code (row_at df i) = Some (nth i ccol NaN))
      by (rewrite lookup_row_at, Hc; reflexivity).
    assert (Hdi : lookup description (row_at df i) = Some (nth i dcol NaN))
      by (rewrite lookup_row_at, Hd; reflexivity).
    assert (Hs : exists s, nth i dcol NaN = VStr s).
    { rewrite Forall_forall in Htext; apply Htext, nth_In.
      now rewrite (column_length df description dcol Hwf Hd). }
    destruct Hs as (s & Hs); rewrite Hs in Hdi.
    rewrite (other_description_given _ _ _ _ s (row_get_present _ _ _ Hci)
               (row_get_present _ _ _ Hdi)).
    unfold description_verdict, row_get_default; now rewrite Hci, Hdi.
Qed.

(** Once the code column holds no text ["0"] (verdicts, say), the rule says
    [True] on every row and never looks at the description. *)
Lemma apply_rowwise_overwritten code description fields out df col :
  lookup code (columns df) = Some col ->
  Forall (fun v => Py.eq_text v "0" = false) col ->
  apply_rule (Rowwise fields out (other_description_required code description)) df
  = Ok (df_set df out (repeat (VBool true) (nrows df))).
Proof.
  intros Hc Hcol; simpl.
  rewrite (df_apply_rows_ok _ (fun _ => VBool true)).
  - simpl; now rewrite map_const_repeat, rows_length.
  - assert (H : lookup code (nan_row df) = Some NaN)
      by (rewrite lookup_nan_row, Hc; reflexivity).
    exact (other_description_not_required _ _ _ NaN (row_get_present _ _ _ H) eq_refl).
  - intros x Hx; apply in_rows in Hx as (i & Hi & ->).
    assert (Hci : lookup code (row_at df i) = Some (nth i col NaN))
      by (rewrite lookup_row_at, Hc; reflexivity).
    apply (other_description_not_required _ _ _ _ (row_get_present _ _ _ Hci)).
    destruct (nth_in_or_default i col NaN) as [Hin | ->]; [| reflexivity].
    rewrite Forall_forall in Hcol; now apply Hcol.
Qed.

(** ** A full pass *)

Lemma pass_column_no_text raw r : well_shaped r -> holds_no_text (pass_column raw r).
Proof.
  unfold holds_no_text; destruct r as [src out f | src out f | fields out f]; simpl; intros H.
  - apply Forall_map, Forall_forall; intros v _.
    apply verdict_not_text, verdict_is_verdict, H.
  - apply Forall_map, Forall_forall; intros v _; apply verdict_not_text, H.
  - apply Forall_forall; intros v Hv; apply repeat_spec in Hv; now subst.
Qed.

(** Running a rule list that is in order on a table [df] that agrees with the
    raw table outside the written fields, and holds no text in them, writes
    each rule's column as computed from the raw table. *)
Lemma apply_rules_in_order raw rules :
  forall written df,
    Forall well_shaped rules ->
    has_fields raw (flat_map source_fields rules) ->
    in_order written rules = true ->
    nrows df = nrows raw ->
    (forall c, ~ In c written -> lookup c (columns df) = lookup c (columns raw)) ->
    (forall c, In c written ->
               exists col, lookup c (columns df) = Some col /\ holds_no_text col) ->
    apply_rules rules df = Ok (fold_left (write_pass_column raw) rules df).
Proof.
  induction rules as [| r rules IH]; intros written df Hshape Hfields Hord Hn Hraw Hwritten;
    [reflexivity |].
  inversion Hshape as [| ? ? Hr Hrules]; subst.
  unfold has_fields in Hfields; simpl in Hfields; apply Forall_app in Hfields as [Hsrc Hrest].
  simpl in Hord; apply andb_true_iff in Hord as [Hread Hord].
  assert (Hstep : apply_rule r df = Ok (write_pass_column raw df r)).
  { unfold write_pass_column.
    destruct r as [src out f | src out f | fields out f]; simpl in Hr, Hread, Hsrc |- *.
    - apply negb_true_iff in Hread.
      assert (Hnot : ~ In src written)
        by (intros Hin; apply existsb_eqb_In in Hin; congruence).
      inversion Hsrc as [| ? ? Hhas _]; subst.
      assert (Hcol : column df src = column raw src)
        by (unfold column; now rewrite (Hraw src Hnot)).
      rewrite <- Hcol; apply (apply_cellwise src out f df Hr).
      unfold has_column in *; now rewrite (Hraw src Hnot).
    - apply negb_true_iff in Hread.
      assert (Hnot : ~ In src written)
        by (intros Hin; apply existsb_eqb_In in Hin; congruence).
      inversion Hsrc as [| ? ? Hhas _]; subst.
      assert (Hcol : column df src = column raw src)
        by (unfold column; now rewrite (Hraw src Hnot)).
      rewrite <- Hcol; apply (apply_columnwise src out f df).
      unfold has_column in *; now rewrite (Hraw src Hnot).
    - destruct Hr as (code & description & -> & ->).
      apply existsb_eqb_In in Hread.
      destruct (Hwritten code Hread) as (col & Hcol & Hno).
      rewrite <- Hn.
      exact (apply_rowwise_overwritten code description [code; description] out df col
               Hcol Hno). }
  simpl; rewrite Hstep; simpl.
  apply (IH (output_field r :: written)); auto.
  - intros c Hc; unfold write_pass_column; simpl.
    rewrite lookup_assign_other; [apply Hraw |]; simpl in Hc; intuition congruence.
  - intros c [<- | Hc]; unfold write_pass_column; simpl.
    + exists (pass_column raw r); split;
        [apply lookup_assign_same | now apply pass_column_no_text].
    + destruct (string_dec c (output_field r)) as [-> | Hne].
      * exists (pass_column raw r); split;
          [apply lookup_assign_same | now apply pass_column_no_text].
      * rewrite lookup_assign_other by exact Hne; now apply Hwritten.
Qed.

Lemma registry_in_order E : in_order [] (CORPORATE_LOAN_RULES E) = true.
Proof. reflexivity. Qed.

(** On a table with every source field, the registry returns, and the table it
    returns is [annotated]: each verdict column computed from the raw input. *)
Lemma registry_pass E raw :
  has_fields raw (registry_fields E) ->
  apply_rules (CORPORATE_LOAN_RULES E) raw = Ok (annotated (CORPORATE_LOAN_RULES E) raw).
Proof.
  intros Hfields; unfold annotated.
  apply (apply_rules_in_order raw _ []);
    [ apply registry_well_shaped | exact Hfields | apply registry_in_order
    | reflexivity | reflexivity | intros c [] ].
Qed.

Lemma nrows_fold raw rules df :
  nrows (fold_left (write_pass_column raw) rules df) = nrows df.
Proof. revert df; induction rules as [| r rules IH]; intros df; simpl; [| rewrite IH]; reflexivity. Qed.

Lemma lookup_fold raw rules df c :
  lookup c (columns (fold_left (write_pass_column raw) rules df))
  = match last_writer c rules with
    | Some r => Some (pass_column raw r)
    | None => lookup c (columns df)
    end.
Proof.
  revert df; induction rules as [| r rules IH]; intros df; simpl; [reflexivity |].
  rewrite IH; destruct (last_writer c rules); [reflexivity |].
  unfold write_pass_column; simpl.
  destruct (String.eqb (output_field r) c) eqn:E.
  - apply String.eqb_eq in E; subst; apply lookup_assign_same.
  - apply String.eqb_neq in E; apply lookup_assign_other; congruence.
Qed.

Lemma last_writer_none c rules :
  ~ In c (map output_field rules) -> last_writer c rules = None.
Proof.
  induction rules as [| r rules IH]; simpl; [reflexivity |]; intros H.
  rewrite IH by tauto.
  destruct (String.eqb (output_field r) c) eqn:E; [| reflexivity].
  apply String.eqb_eq in E; tauto.
Qed.

Lemma last_writer_unique r rules :
  NoDup (map output_field rules) -> In r rules ->
  last_writer (output_field r) rules = Some r.
Proof.
  induction rules as [| r' rules IH]; simpl; [tauto |].
  intros Hnd [-> | Hin]; inversion Hnd as [| ? ? Hnot Hnd']; subst.
  - rewrite (last_writer_none _ _ Hnot); now rewrite String.eqb_refl.
  - now rewrite (IH Hnd' Hin).
Qed.

Lemma dedupe_NoDup xs :
  forall seen, NoDup (dedupe seen xs) /\ forall x, In x (dedupe seen xs) -> ~ In x seen.
Proof.
  induction xs as [| x xs IH]; intros seen; simpl; [split; [constructor | tauto] |].
  destruct (existsb (String.eqb x) seen) eqn:E; [apply IH |].
  destruct (IH (x :: seen)) as [IH1 IH2]; split.
  - constructor; [| exact IH1]. intros Hin; apply (IH2 x Hin); now left.
  - intros y [<- | Hy].
    + intros Hin; apply existsb_eqb_In in Hin; congruence.
    + intros Hin; apply (IH2 y Hy); now right.
Qed.

Lemma registry_outputs_distinct E : NoDup (registry_outputs E).
Proof.
  assert (H : dedupe [] (registry_outputs E) = registry_outputs E) by reflexivity.
  rewrite <- H; apply dedupe_NoDup.
Qed.

Lemma has_fields_check df fields :
  forallb (has_column df) fields = true -> has_fields df fields.
Proof. intros H; apply Forall_forall; intros c Hc; rewrite forallb_forall in H; auto. Qed.

Lemma well_formed_check df :
  forallb (fun cs => Nat.eqb (List.length (snd cs)) (nrows df)) (columns df) = true ->
  dedupe [] (column_names df) = column_names df ->
  well_formed df.
Proof.
  intros Hlen Hnd; split.
  - apply Forall_forall; intros cs Hcs; rewrite forallb_forall in Hlen.
    now apply Nat.eqb_eq, Hlen.
  - rewrite <- Hnd; apply dedupe_NoDup.
Qed.

(** ** C9: one rule writes one column *)

(** On a row with the code ["0"] beside a description that is no text, the
    conditional-description predicate raises: only text has [strip]. *)
Lemma other_description_on_row code description df i :
  has_column df code = true -> has_column df description = true ->
  let x := row_at df i in
  (exists b, other_description_required code description x = Ok b)
  \/ other_description_required code description x
     = Raise (AttributeError "object has no attribute 'strip'").
Proof.
  intros Hc Hd x.
  apply has_column_lookup in Hc as (ccol & Hc); apply has_column_lookup in Hd as (dcol & Hd).
  assert (Hci : row_get x code = Ok (nth i ccol NaN))
    by (apply row_get_present; unfold x; rewrite lookup_row_at, Hc; reflexivity).
  assert (Hdi : row_get x description = Ok (nth i dcol NaN))
    by (apply row_get_present; unfold x; rewrite lookup_row_at, Hd; reflexivity).
  unfold other_description_required; rewrite Hci; simpl.
  destruct (Py.eq_text (nth i ccol NaN) "0"); simpl; [| eauto].
  rewrite Hdi; simpl; destruct (nth i dcol NaN); simpl; eauto.
Qed.

Lemma other_description_raises code description df i :
  has_column df code = true -> has_column df description = true ->
  nth i (column df code) NaN = VStr "0" ->
  (forall s, nth i (column df description) NaN <> VStr s) ->
  other_description_required code description (row_at df i)
  = Raise (AttributeError "object has no attribute 'strip'").
Proof.
  intros Hc Hd Hcode Hdesc.
  apply has_column_lookup in Hc as (ccol & Hc); apply has_column_lookup in Hd as (dcol & Hd).
  unfold column in Hcode, Hdesc; rewrite Hc in Hcode; rewrite Hd in Hdesc.
  assert (Hci : row_get (row_at df i) code = Ok (VStr "0"))
    by (apply row_get_present; rewrite lookup_row_at, Hc; simpl; now rewrite Hcode).
  assert (Hdi : row_get (row_at df i) description = Ok (nth i dcol NaN))
    by (apply row_get_present; rewrite lookup_row_at, Hd; reflexivity).
  unfold other_description_required; rewrite Hci; simpl; rewrite Hdi; simpl.
  destruct (nth i dcol NaN) as [| | | | s |]; try reflexivity. now destruct (Hdesc s).
Qed.

(** C9. For every registered rule and every table that has the fields the rule
    reads: whenever the rule returns, the returned table is the input with
    exactly the rule's output field written (which may be a new column, as
    [AR_Current] for [Accounts_Receivable_Current]) and every other column
    unchanged at every row; every cell and column rule does return, on cells
    that have a text; and a conditional-description rule returns when its
    description cells are text.  But the conditional-description rules call
    [strip] on the description cell itself: on a table with a row whose code
    is ["0"] and whose description is no text (a missing cell, a number) the
    rule raises [AttributeError] and writes no column at all. *)
Theorem rule_writes_exactly_its_output_field E r df :
  In r (CORPORATE_LOAN_RULES E) ->
  well_formed df ->
  has_fields df (source_fields r) ->
  (forall df', apply_rule r df = Ok df' -> writes_only (output_field r) df df')
  /\ (is_rowwise r = false ->
      Forall (fun c => legible_column (column df c)) (source_fields r) ->
      exists df', apply_rule r df = Ok df')
  /\ (descriptions_are_text r df -> exists df', apply_rule r df = Ok df')
  /\ (forall code description out f i,
        r = Rowwise [code; description] out f ->
        i < nrows df ->
        nth i (column df code) NaN = VStr "0" ->
        (forall s, nth i (column df description) NaN <> VStr s) ->
        apply_rule r df = Raise (AttributeError "object has no attribute 'strip'")).
Proof.
  intros Hin Hwf Hfields.
  pose proof (registry_well_shaped E) as Hshape.
  rewrite Forall_forall in Hshape; specialize (Hshape r Hin).
  split; [intros df' H; now apply (apply_rule_writes_only r df df') |].
  destruct r as [src out f | src out f | fields out f]; simpl in *.
  - inversion Hfields as [| ? ? Hsrc _]; subst.
    pose proof (apply_cellwise src out f df Hshape Hsrc) as H; simpl in H.
    split; [intros _ _; eexists; exact H |].
    split; [intros _; eexists; exact H | intros; discriminate].
  - inversion Hfields as [| ? ? Hsrc _]; subst.
    pose proof (apply_columnwise src out f df Hsrc) as H; simpl in H.
    split; [intros _ _; eexists; exact H |].
    split; [intros _; eexists; exact H | intros; discriminate].
  - split; [discriminate |].
    destruct Hshape as (code & description & -> & ->).
    inversion Hfields as [| ? ? Hc Hrest]; subst.
    inversion Hrest as [| ? ? Hd _]; subst.
    split.
    { intros Htext.
      pose proof (apply_rowwise_text code description [code; description] out df
                    Hwf Hc Hd Htext) as H; simpl in H.
      eexists; exact H. }
    intros code' description' out' f' i Hr Hi Hcode Hdesc.
    inversion Hr; subst code' description' out' f'.
    unfold df_apply_rows.
    destruct (nrows df) as [| n] eqn:En; [lia |].
    destruct (columns df) as [| c0 cs] eqn:Ec;
      [unfold has_column in Hc; rewrite Ec in Hc; discriminate |].
    rewrite (map_result_raises _ (rows df)
               (AttributeError "object has no attribute 'strip'")); [reflexivity | |].
    + intros x Hx; apply in_rows in Hx as (j & _ & ->).
      now apply other_description_on_row.
    + exists (row_at df i); split.
      * unfold rows; apply in_map, in_seq; lia.
      * now apply other_description_raises.
Qed.

(** ** C1: what raises and what does not *)

Lemma apply_columnar_absent r df c :
  is_rowwise r = false -> source_fields r = [c] -> has_column df c = false ->
  apply_rule r df = Raise (KeyError c).
Proof.
  destruct r as [src out f | src out f | fields out f]; simpl; try discriminate;
    intros _ Hc Habs; inversion Hc; subst; now rewrite (df_get_absent _ _ Habs).
Qed.

Lemma apply_columnar_present r df :
  well_shaped r -> is_rowwise r = false -> has_fields df (source_fields r) ->
  apply_rule r df = Ok (df_set df (output_field r) (pass_column df r)).
Proof.
  destruct r as [src out f | src out f | fields out f]; try discriminate;
    intros Hshape _ Hfields; inversion Hfields as [| ? ? Hsrc _]; subst.
  - now apply apply_cellwise.
  - now apply apply_columnwise.
Qed.

Lemma try_except_failed {A B} (m : result A) (k : A -> result B) (handler : result B) :
  (forall a, m <> Ok a) -> try_except (x <- m ;; k x) handler = handler.
Proof. destruct m as [a | e]; intros H; [now destruct (H a) | reflexivity]. Qed.

Lemma registered_cell_rule_returns E src out f :
  In (Cellwise src out f) (CORPORATE_LOAN_RULES E) -> returns_verdict f.
Proof.
  intros Hin; pose proof (registry_well_shaped E) as Hshape.
  rewrite Forall_forall in Hshape; exact (Hshape _ Hin).
Qed.

(** The cell a cell rule that returns has written at row [i] is its function
    of the input cell at row [i]. *)
Lemma apply_cellwise_nth src out f df df' i :
  apply_rule (Cellwise src out f) df = Ok df' ->
  i < List.length (column df src) ->
  f (nth i (column df src) NaN) = Ok (nth i (column df' out) NaN).
Proof.
  simpl; intros H Hi.
  apply bind_ok in H as (s & Hs & H); apply bind_ok in H as (t & Ht & H).
  inversion H; subst; clear H.
  unfold df_get in Hs; unfold column in Hi |- *; simpl.
  rewrite lookup_assign_same.
  destruct (lookup src (columns df)); inversion Hs; subst.
  now apply map_result_nth.
Qed.

(** C1 (as amended). The cell function of a registered cell rule raises on no
    cell that has a text (every cell but an int of more than 4300 digits): it
    returns a verdict.  So a cell rule applied to a table that has its source
    column, with such cells, returns; the verdict of each row is the rule's
    function of that row's cell alone, so that two tables that agree on the
    cell of a row get the same verdict in that row, whatever their other rows
    hold.  The two rules that hand their column to [pd.to_datetime] return
    too, with the parser's verdict, which may depend on the whole column.  The
    whole registry returns on a table that has every source field and cells
    with a text.  A cell the float tests cannot convert, or the date tests
    cannot parse, gets [False], unless it is the rule's [NA] token or
    sentinel.  A missing source column is not a [False] verdict: the rule
    raises [KeyError]. *)
Theorem rules_total_on_present_fields E :
  (forall src out f v,
     In (Cellwise src out f) (CORPORATE_LOAN_RULES E) -> Py.legible v = true ->
     exists b, f v = Ok b /\ is_verdict b = true)
  /\ (forall src out f df,
        In (Cellwise src out f) (CORPORATE_LOAN_RULES E) ->
        has_column df src = true -> legible_column (column df src) ->
        apply_rule (Cellwise src out f) df
        = Ok (df_set df out (map (verdict f) (column df src))))
  /\ (forall src out f df1 df2 out1 out2 i,
        In (Cellwise src out f) (CORPORATE_LOAN_RULES E) ->
        apply_rule (Cellwise src out f) df1 = Ok out1 ->
        apply_rule (Cellwise src out f) df2 = Ok out2 ->
        i < List.length (column df1 src) -> i < List.length (column df2 src) ->
        nth i (column df1 src) NaN = nth i (column df2 src) NaN ->
        nth i (column out1 out) NaN = nth i (column out2 out) NaN)
  /\ (forall src out f df,
        In (Columnwise src out f) (CORPORATE_LOAN_RULES E) ->
        has_column df src = true ->
        apply_rule (Columnwise src out f) df
        = Ok (df_set df out (map (f (column df src)) (column df src))))
  /\ (forall r df c,
        In r (CORPORATE_LOAN_RULES E) -> is_rowwise r = false ->
        source_fields r = [c] -> has_column df c = false ->
        apply_rule r df = Raise (KeyError c))
  /\ (forall df,
        has_fields df (registry_fields E) -> legible_table df ->
        exists df', apply_rules (CORPORATE_LOAN_RULES E) df = Ok df')
  /\ (forall v,
        (forall x, Py.to_float v <> Ok x) ->
        float_in_unit_interval v = Ok (VBool false)
        /\ float_parses v = Ok (VBool false))
  /\ (forall sentinel v,
        (forall d, Py.strptime v <> Ok d) ->
        date_or_sentinel sentinel v = Ok (VBool (Py.eq_text v sentinel)))
  /\ (forall v,
        (forall d, Py.strptime (VStr (Py.str v)) <> Ok d) ->
        is_valid_origination E v = Ok (VBool false))
  /\ (forall v,
        Py.is_na_stripped v = true ->
        is_valid_rate v = Ok (VBool true) /\ is_valid_spread v = Ok (VBool true)).
Proof.
  split; [intros src out f v Hin _; exact (registered_cell_rule_returns E src out f Hin v) |].
  split.
  { intros src out f df Hin Hsrc _.
    exact (apply_cellwise src out f df (registered_cell_rule_returns E src out f Hin) Hsrc). }
  split.
  { intros src out f df1 df2 out1 out2 i _ H1 H2 Hi1 Hi2 Hcell.
    pose proof (apply_cellwise_nth src out f df1 out1 i H1 Hi1) as E1.
    pose proof (apply_cellwise_nth src out f df2 out2 i H2 Hi2) as E2.
    rewrite Hcell in E1; congruence. }
  split; [intros src out f df _ Hsrc; now apply apply_columnwise |].
  split; [intros r df c _; apply apply_columnar_absent |].
  split; [intros df H _; eexists; now apply registry_pass |].
  split; [intros v H; split; now apply try_except_failed |].
  split; [intros; now apply try_except_failed |].
  split; [intros; now apply try_except_failed |].
  intros v H; unfold is_valid_rate, is_valid_spread; now rewrite H.
Qed.

(** ** C10: rows stay where they are *)

Lemma pass_column_length raw r :
  well_formed raw -> has_fields raw (source_fields r) ->
  List.length (pass_column raw r) = nrows raw.
Proof.
  intros Hwf Hfields.
  destruct r as [src out f | src out f | fields out f]; simpl.
  - inversion Hfields as [| ? ? Hsrc _]; subst.
    apply has_column_lookup in Hsrc as (s & Hs).
    rewrite length_map; unfold column; rewrite Hs; now apply (column_length raw src).
  - inversion Hfields as [| ? ? Hsrc _]; subst.
    apply has_column_lookup in Hsrc as (s & Hs).
    rewrite length_map; unfold column; rewrite Hs; now apply (column_length raw src).
  - apply repeat_length.
Qed.

Lemma registry_field_present E raw r :
  has_fields raw (registry_fields E) -> In r (CORPORATE_LOAN_RULES E) ->
  has_fields raw (source_fields r).
Proof.
  unfold has_fields, registry_fields; rewrite !Forall_forall; intros H Hin c Hc.
  apply H, in_flat_map; eauto.
Qed.

(** What a full pass leaves in each column. *)
Lemma annotated_lookup E raw :
  (forall r, In r (CORPORATE_LOAN_RULES E) ->
             lookup (output_field r) (columns (annotated (CORPORATE_LOAN_RULES E) raw))
             = Some (pass_column raw r))
  /\ (forall c, ~ In c (registry_outputs E) ->
                lookup c (columns (annotated (CORPORATE_LOAN_RULES E) raw))
                = lookup c (columns raw)).
Proof.
  unfold annotated; split.
  - intros r Hin; rewrite lookup_fold.
    now rewrite (last_writer_unique r _ (registry_outputs_distinct E) Hin).
  - intros c Hc; rewrite lookup_fold; now rewrite (last_writer_none c _ Hc).
Qed.

Lemma nth_map_in {A B} (g : A -> B) (l : list A) (i : nat) (a : A) (b : B) :
  i < List.length l -> nth i (map g l) b = g (nth i l a).
Proof.
  intros Hi; rewrite (nth_indep (map g l) b (g a)) by (now rewrite length_map).
  apply map_nth.
Qed.

(** Whatever the table, rules that return leave the row count and every field
    they do not write as they were. *)
Lemma apply_rules_frame rules df out :
  apply_rules rules df = Ok out ->
  nrows out = nrows df
  /\ forall c, ~ In c (map output_field rules) ->
                lookup c (columns out) = lookup c (columns df).
Proof.
  revert df; induction rules as [| r rules IH]; simpl; intros df H.
  - inversion H; subst; auto.
  - apply bind_ok in H as (df1 & H1 & H).
    apply apply_rule_ok in H1 as (s & -> & _).
    destruct (IH _ H) as [Hn Hc]; split; [exact Hn |].
    intros c Hnot; rewrite Hc by tauto; simpl.
    apply lookup_assign_other; intros ->; tauto.
Qed.

(** C10. On every table that has the registry's source fields, the empty table
    included, validation returns a table with the same number of rows; each
    verdict column is there with one cell per row, the cell at position [i]
    being the rule's verdict on the input cell at position [i]; the columns no
    rule writes are carried over as they were; and with no rows every verdict
    column is there and empty.  On any table at all, a validation that returns
    has kept the row count. *)
Theorem validation_keeps_rows_in_place E raw :
  well_formed raw ->
  has_fields raw (registry_fields E) ->
  exists out,
    apply_rules (CORPORATE_LOAN_RULES E) raw = Ok out
    /\ nrows out = nrows raw
    /\ (forall r, In r (CORPORATE_LOAN_RULES E) ->
                  exists s, lookup (output_field r) (columns out) = Some s
                            /\ List.length s = nrows raw)
    /\ (forall src o f i,
          In (Cellwise src o f) (CORPORATE_LOAN_RULES E) -> i < nrows raw ->
          nth i (column out o) NaN = verdict f (nth i (column raw src) NaN))
    /\ (forall src o f i,
          In (Columnwise src o f) (CORPORATE_LOAN_RULES E) -> i < nrows raw ->
          nth i (column out o) NaN = f (column raw src) (nth i (column raw src) NaN))
    /\ (forall c, ~ In c (registry_outputs E) ->
                  lookup c (columns out) = lookup c (columns raw))
    /\ (nrows raw = 0 ->
        forall r, In r (CORPORATE_LOAN_RULES E) ->
                  lookup (output_field r) (columns out) = Some [])
    /\ (forall df out',
          apply_rules (CORPORATE_LOAN_RULES E) df = Ok out' -> nrows out' = nrows df).
Proof.
  intros Hwf Hfields.
  exists (annotated (CORPORATE_LOAN_RULES E) raw).
  destruct (annotated_lookup E raw) as [Hout Hraw].
  assert (Hlen : forall r, In r (CORPORATE_LOAN_RULES E) ->
                           List.length (pass_column raw r) = nrows raw).
  { intros r Hin; apply pass_column_length; [exact Hwf |].
    now apply (registry_field_present E). }
  split; [now apply registry_pass |].
  split; [apply nrows_fold |].
  split; [intros r Hin; exists (pass_column raw r); auto |].
  split.
  { intros src o f i Hin Hi.
    pose proof (Hout _ Hin) as Ho; cbn [output_field pass_column] in Ho.
    unfold column at 1; rewrite Ho.
    apply nth_map_in. specialize (Hlen _ Hin); cbn [pass_column] in Hlen.
    rewrite length_map in Hlen; lia. }
  split.
  { intros src o f i Hin Hi.
    pose proof (Hout _ Hin) as Ho; cbn [output_field pass_column] in Ho.
    unfold column at 1; rewrite Ho.
    apply nth_map_in. specialize (Hlen _ Hin); cbn [pass_column] in Hlen.
    rewrite length_map in Hlen; lia. }
  split; [exact Hraw |].
  split; [| intros df out' H; now apply (apply_rules_frame _ _ _ H)].
  intros Hzero r Hin; rewrite (Hout r Hin); f_equal.
  apply length_zero_iff_nil; rewrite (Hlen r Hin); exact Hzero.
Qed.

(** ** C2: the conditional-description rule in registry order *)

(** The rules that run before [validate_other_credit_facility_type_desc]. *)
Lemma registry_split E :
  CORPORATE_LOAN_RULES E
  = (firstn 81 (CORPORATE_LOAN_RULES E)
     ++ validate_other_credit_facility_type_desc :: skipn 82 (CORPORATE_LOAN_RULES E))%list.
Proof. reflexivity. Qed.

Lemma verdicts_of_str_isin allowed col :
  Forall (fun v => exists b, v = VBool b) (map (verdict (str_isin allowed)) col).
Proof. apply Forall_map, Forall_forall; intros v _; unfold verdict, str_isin; eauto. Qed.

(** C2. Applied in registry order to a table that has every source field, the
    rules before [validate_other_credit_facility_type_desc] include
    [validate_credit_facility_type], so when the description rule runs the
    [Credit_Facility_Type] column holds verdicts, not raw codes; the rule then
    writes [True] on every row, whatever the raw code and description were. *)
Theorem other_description_verdict_in_registry_order E raw :
  has_fields raw (registry_fields E) ->
  exists pre post seen out,
    CORPORATE_LOAN_RULES E
    = (pre ++ validate_other_credit_facility_type_desc :: post)%list
    /\ apply_rules pre raw = Ok seen
    /\ column seen "Credit_Facility_Type"
       = map (verdict (str_isin (str_range 0 20))) (column raw "Credit_Facility_Type")
    /\ Forall (fun v => exists b, v = VBool b) (column seen "Credit_Facility_Type")
    /\ apply_rules (CORPORATE_LOAN_RULES E) raw = Ok out
    /\ column out "Other_Credit_Facility_Desc" = repeat (VBool true) (nrows raw).
Proof.
  intros Hfields.
  pose proof (registry_well_shaped E) as Hshape.
  pose proof Hfields as Hfields'; unfold has_fields, registry_fields in Hfields'.
  rewrite (registry_split E) in Hshape, Hfields'.
  apply Forall_app in Hshape as [Hpre _].
  rewrite flat_map_app in Hfields'; apply Forall_app in Hfields' as [Hfpre _].
  exists (firstn 81 (CORPORATE_LOAN_RULES E)), (skipn 82 (CORPORATE_LOAN_RULES E)),
    (fold_left (write_pass_column raw) (firstn 81 (CORPORATE_LOAN_RULES E)) raw),
    (annotated (CORPORATE_LOAN_RULES E) raw).
  assert (Hseen : column (fold_left (write_pass_column raw)
                            (firstn 81 (CORPORATE_LOAN_RULES E)) raw) "Credit_Facility_Type"
                  = map (verdict (str_isin (str_range 0 20)))
                        (column raw "Credit_Facility_Type")).
  { unfold column at 1; rewrite lookup_fold.
    change (last_writer "Credit_Facility_Type" (firstn 81 (CORPORATE_LOAN_RULES E)))
      with (Some validate_credit_facility_type).
    reflexivity. }
  split; [apply registry_split |].
  split.
  { apply (apply_rules_in_order raw _ []);
      [ exact Hpre | exact Hfpre | reflexivity | reflexivity | reflexivity | intros c [] ]. }
  split; [exact Hseen |].
  split; [rewrite Hseen; apply verdicts_of_str_isin |].
  split; [now apply registry_pass |].
  destruct (annotated_lookup E raw) as [Hout _].
  assert (Hin : In validate_other_credit_facility_type_desc (CORPORATE_LOAN_RULES E))
    by (rewrite (registry_split E); apply in_elt).
  specialize (Hout _ Hin); cbn [output_field pass_column validate_other_credit_facility_type_desc] in Hout.
  unfold column; now rewrite Hout.
Qed.

(** ** C5: two passes *)

Lemma last_writer_same_but_for c0 raw rules1 rules2 c :
  Forall2 (same_but_for c0 raw) rules1 rules2 -> c <> c0 ->
  option_map (pass_column raw) (last_writer c rules1)
  = option_map (pass_column raw) (last_writer c rules2).
Proof.
  intros H Hc; induction H as [| r1 r2 rules1 rules2 [Hout Hcol] _ IH]; simpl; [reflexivity |].
  destruct (last_writer c rules1) as [w1 |], (last_writer c rules2) as [w2 |];
    try exact IH; try discriminate.
  rewrite <- Hout; destruct (String.eqb (output_field r1) c) eqn:E; [| reflexivity].
  apply String.eqb_eq in E; simpl; rewrite Hcol; [reflexivity | congruence].
Qed.

Lemma fold_same raw rules1 rules2 df :
  Forall2 (fun r1 r2 => output_field r1 = output_field r2
                        /\ pass_column raw r1 = pass_column raw r2) rules1 rules2 ->
  fold_left (write_pass_column raw) rules1 df = fold_left (write_pass_column raw) rules2 df.
Proof.
  intros H; revert df; induction H as [| r1 r2 rules1 rules2 [Hout Hcol] _ IH]; intros df;
    simpl; [reflexivity |].
  unfold write_pass_column at 2 4; rewrite Hout, Hcol; apply IH.
Qed.

Lemma names_fold raw rules df :
  column_names (fold_left (write_pass_column raw) rules df)
  = fold_left names_with (map output_field rules) (column_names df).
Proof.
  revert df; induction rules as [| r rules IH]; intros df; simpl; [reflexivity |].
  rewrite IH; unfold write_pass_column, column_names at 1; simpl; now rewrite names_assign.
Qed.

Ltac same_rules :=
  repeat (apply Forall2_cons;
          [ split; [reflexivity | first [ reflexivity | intros H; now destruct H ] ] | ]);
  apply Forall2_nil.

Lemma registry_same_but_for_origination parser t1 t2 raw :
  Forall2 (same_but_for "Origination_Date" raw)
    (CORPORATE_LOAN_RULES (mkEnv t1 parser)) (CORPORATE_LOAN_RULES (mkEnv t2 parser)).
Proof. unfold CORPORATE_LOAN_RULES, same_but_for; same_rules. Qed.

Lemma origination_column parser t raw :
  pass_column raw (validate_origination_date (mkEnv t parser))
  = map (verdict (is_valid_origination (mkEnv t parser))) (column raw "Origination_Date").
Proof. reflexivity. Qed.

Lemma registry_same parser t1 t2 raw :
  pass_column raw (validate_origination_date (mkEnv t1 parser))
  = pass_column raw (validate_origination_date (mkEnv t2 parser)) ->
  Forall2 (fun r1 r2 => output_field r1 = output_field r2
                        /\ pass_column raw r1 = pass_column raw r2)
    (CORPORATE_LOAN_RULES (mkEnv t1 parser)) (CORPORATE_LOAN_RULES (mkEnv t2 parser)).
Proof.
  intros H; unfold CORPORATE_LOAN_RULES.
  repeat (apply Forall2_cons;
          [ split; [reflexivity | first [ reflexivity | exact H ] ] | ]).
  apply Forall2_nil.
Qed.

(** C5 (as amended). Two passes over the same raw table that has every source
    field, run with the clock at [t1] and at [t2], both return; the two tables
    have the same rows and the same columns, and every column other than
    [Origination_Date] holds the same cells; if the origination verdicts agree
    too (as they do when both passes run on the same day) the two tables are
    identical. *)
Theorem passes_agree_but_for_the_clock parser t1 t2 raw :
  has_fields raw (registry_fields (mkEnv t1 parser)) ->
  exists out1 out2,
    apply_rules (CORPORATE_LOAN_RULES (mkEnv t1 parser)) raw = Ok out1
    /\ apply_rules (CORPORATE_LOAN_RULES (mkEnv t2 parser)) raw = Ok out2
    /\ nrows out1 = nrows out2
    /\ column_names out1 = column_names out2
    /\ (forall c, c <> "Origination_Date" ->
                  lookup c (columns out1) = lookup c (columns out2))
    /\ ((forall v, In v (column raw "Origination_Date") ->
                   Date.leb_opt (Date.strptime_ymd (Py.str v)) t1
                   = Date.leb_opt (Date.strptime_ymd (Py.str v)) t2) ->
        out1 = out2)
    /\ (t1 = t2 -> out1 = out2).
Proof.
  intros Hfields.
  exists (annotated (CORPORATE_LOAN_RULES (mkEnv t1 parser)) raw),
    (annotated (CORPORATE_LOAN_RULES (mkEnv t2 parser)) raw).
  split; [now apply registry_pass |].
  split; [now apply registry_pass |].
  unfold annotated.
  split; [now rewrite !nrows_fold |].
  split; [rewrite !names_fold; reflexivity |].
  split.
  { intros c Hc; rewrite !lookup_fold.
    pose proof (last_writer_same_but_for "Origination_Date" raw _ _ c
                  (registry_same_but_for_origination parser t1 t2 raw) Hc) as H.
    destruct (last_writer c (CORPORATE_LOAN_RULES (mkEnv t1 parser))),
      (last_writer c (CORPORATE_LOAN_RULES (mkEnv t2 parser)));
      simpl in H; congruence. }
  split.
  { intros Hsame; apply fold_same, registry_same.
    rewrite !origination_column; apply map_ext_in; intros v Hv.
    specialize (Hsame v Hv).
    unfold verdict, is_valid_origination, Py.strptime; cbn [today].
    unfold Date.leb_opt in Hsame.
    destruct (Date.strptime_ymd (Py.str v)); simpl; [now rewrite Hsame | reflexivity]. }
  intros ->; reflexivity.
Qed.

(** ** C3: enumerated codes *)

Lemma decides_on_table r p df :
  decides r p -> has_fields df (source_fields r) ->
  exists src,
    source_fields r = [src]
    /\ apply_rule r df
       = Ok (df_set df (output_field r) (map (fun v => VBool (p v)) (column df src))).
Proof.
  intros (src & out & f & -> & Hf) Hfields; exists src; split; [reflexivity |].
  inversion Hfields as [| ? ? Hsrc _]; subst.
  simpl; rewrite (df_get_present _ _ Hsrc); simpl.
  rewrite (map_result_ok f (fun v => VBool (p v))); [reflexivity | auto].
Qed.

Lemma eq_int_number_equal v k : Py.eq_int v k = true <-> number_equal v k.
Proof.
  unfold number_equal; destruct v; simpl; split;
    try discriminate;
    try (intros [H | [(b0 & H & _) | (x0 & H & _)]]; discriminate).
  - intros H; right; left; exists b; split; [reflexivity | now apply Z.eqb_eq].
  - intros [H | [(b0 & H & Hb) | (x0 & H & _)]]; try discriminate.
    inversion H; subst; now apply Z.eqb_eq.
  - intros H; left; f_equal; now apply Z.eqb_eq.
  - intros [H | [(b0 & H & _) | (x0 & H & _)]]; try discriminate.
    inversion H; subst; apply Z.eqb_refl.
  - intros H; right; right; exists x; split; [reflexivity |].
    destruct (Float.compare_Z x k) as [[| |] |]; try discriminate; reflexivity.
  - intros [H | [(b0 & H & _) | (x0 & H & Hx)]]; try discriminate.
    inversion H; subst; now rewrite Hx.
Qed.

Ltac registered := simpl; repeat first [ left; reflexivity | right ].

(** C3 (as amended). The enumerated-code rules that compare text
    ([Credit_Facility_Type] over 0..19, [Tax_Status] over 1, 2, ...) say
    [True] exactly when the cell's text is a member of the rule's allowed set.
    The flag rules that compare numbers ([Special_Purpose_Entity_Flag] over
    1, 2, ...) do not look at the text: they say [True] exactly when the cell
    is a number equal to an allowed code. *)
Theorem enumerated_codes_by_text_or_by_number E :
  (forall r allowed,
     In (r, allowed) text_coded_rules ->
     In r (CORPORATE_LOAN_RULES E)
     /\ decides r (fun v => member (Py.str v) allowed))
  /\ (forall r allowed,
        In (r, allowed) int_coded_rules ->
        In r (CORPORATE_LOAN_RULES E)
        /\ decides r (fun v => existsb (Py.eq_int v) allowed))
  /\ (forall v k, Py.eq_int v k = true <-> number_equal v k)
  /\ (forall r p df,
        decides r p -> has_fields df (source_fields r) ->
        exists src,
          source_fields r = [src]
          /\ apply_rule r df
             = Ok (df_set df (output_field r) (map (fun v => VBool (p v)) (column df src)))).
Proof.
  split.
  { intros r allowed H; simpl in H.
    repeat (destruct H as [H | H]; [inversion H; subst; clear H |]); try contradiction;
      (split; [registered | do 3 eexists; split; [reflexivity | intros v; reflexivity]]). }
  split.
  { intros r allowed H; simpl in H.
    repeat (destruct H as [H | H]; [inversion H; subst; clear H |]); try contradiction;
      (split; [registered | do 3 eexists; split; [reflexivity | intros v; reflexivity]]). }
  split; [apply eq_int_number_equal | apply decides_on_table].
Qed.

(** ** C4: date rules *)

Lemma date_or_sentinel_text sentinel s :
  date_or_sentinel sentinel (VStr s) = Ok (VBool (parses_ymd s || String.eqb s sentinel)).
Proof.
  unfold date_or_sentinel, parses_ymd, Py.strptime; simpl.
  destruct (Date.strptime_ymd s); reflexivity.
Qed.

Lemma date_or_sentinel_not_text sentinel v :
  (forall s, v <> VStr s) -> date_or_sentinel sentinel v = Ok (VBool false).
Proof. destruct v; intros H; try reflexivity; now destruct (H s). Qed.

(** C4 (as amended). The maturity and non-accrual rules say [True] exactly when
    the cell's text parses under [%Y-%m-%d] or is the rule's sentinel
    ([9999-01-01], [9999-12-31]; both are such dates themselves), the
    current-maturity rule likewise on a text cell and [False] on any other;
    the origination rule says [True] exactly when the text parses and the date
    is not after today; the renewal rule says [True] for its sentinel
    [9999-12-31], with or without blanks around it; the two financial-date
    rules, [Date_Financials] and [Date_Last_Audit], say for each cell whatever
    pandas' date parser says of it in its column. *)
Theorem date_rules_accept E :
  (In validate_maturity_date (CORPORATE_LOAN_RULES E)
   /\ decides validate_maturity_date
        (fun v => parses_ymd (Py.str v) || String.eqb (Py.str v) "9999-01-01"))
  /\ (In validate_non_accrual_date (CORPORATE_LOAN_RULES E)
      /\ decides validate_non_accrual_date
           (fun v => parses_ymd (Py.str v) || String.eqb (Py.str v) "9999-12-31"))
  /\ (In validate_current_maturity_date (CORPORATE_LOAN_RULES E)
      /\ decides validate_current_maturity_date
           (fun v => match v with
                     | VStr s => parses_ymd s || String.eqb s "9999-01-01"
                     | _ => false
                     end))
  /\ (In (validate_origination_date E) (CORPORATE_LOAN_RULES E)
      /\ decides (validate_origination_date E)
           (fun v => parses_not_after (today E) (Py.str v)))
  /\ (parses_ymd "9999-01-01" = true /\ parses_ymd "9999-12-31" = true)
  /\ (In validate_renewal_date (CORPORATE_LOAN_RULES E)
      /\ forall v, Text.strip (Py.str v) = "9999-12-31" ->
                   is_valid_renewal_date v = Ok (VBool true))
  /\ (In (validate_date_financials E) (CORPORATE_LOAN_RULES E)
      /\ forall df,
           has_column df "Date_Financials" = true ->
           apply_rule (validate_date_financials E) df
           = Ok (df_set df "Date_Financials"
                   (map (fun v => VBool (to_datetime_notna E (column df "Date_Financials") v))
                        (column df "Date_Financials"))))
  /\ (In (validate_date_last_audit E) (CORPORATE_LOAN_RULES E)
      /\ forall df,
           has_column df "Date_Last_Audit" = true ->
           apply_rule (validate_date_last_audit E) df
           = Ok (df_set df "Date_Last_Audit"
                   (map (fun v => VBool (to_datetime_notna E (column df "Date_Last_Audit") v))
                        (column df "Date_Last_Audit")))).
Proof.
  split.
  { split; [registered |]; do 3 eexists; split; [reflexivity |].
    intros v; apply date_or_sentinel_text. }
  split.
  { split; [registered |]; do 3 eexists; split; [reflexivity |].
    intros v; apply date_or_sentinel_text. }
  split.
  { split; [registered |]; do 3 eexists; split; [reflexivity |].
    intros v; destruct v;
      first [ apply date_or_sentinel_text
            | apply date_or_sentinel_not_text; intros s; discriminate ]. }
  split.
  { split; [registered |]; do 3 eexists; split; [reflexivity |].
    intros v; unfold is_valid_origination, parses_not_after, Py.strptime.
    destruct (Date.strptime_ymd (Py.str v)); reflexivity. }
  split; [split; reflexivity |].
  split.
  { split; [registered |].
    intros v Hv; unfold is_valid_renewal_date; rewrite Hv; reflexivity. }
  split; (split; [registered | intros df H; now apply apply_columnwise]).
Qed.

(** ** C6: risk scoring *)

Lemma gt_int_exceeds v k :
  Py.is_int_or_float v = true -> Py.gt_int v k = Ok (exceeds v k).
Proof.
  unfold Py.gt_int, exceeds; destruct v; simpl; try discriminate; intros _.
  - now destruct (Py.Z_of_bool b ?= k)%Z.
  - now destruct (z ?= k)%Z.
  - now destruct (Float.compare_Z x k) as [[| |] |].
Qed.

Lemma score_follows_policy row :
  amount_is_number row -> score row = Ok (VStr (risk_tier row)).
Proof.
  unfold amount_is_number, score, risk_tier; intros Hnum.
  rewrite (gt_int_exceeds _ 5000 Hnum); simpl.
  unfold verdict_is_false; rewrite orb_false_r.
  destruct (exceeds (row_get_default row "Transaction_Amount" (VInt 0)) 5000);
    [reflexivity |].
  now destruct (negb (Py.truthy (row_get_default row "Valid_Transaction" (VBool true)))
                || negb (Py.truthy (row_get_default row "Valid_Currency" (VBool true)))).
Qed.

(** C6. For every row whose [Transaction_Amount] is a number (a missing field
    counts as 0), the scorer returns the tier of the reference policy: [HIGH]
    iff the amount exceeds 5000, whatever the verdicts; otherwise [MEDIUM] iff
    [Valid_Transaction] or [Valid_Currency] is false; otherwise [LOW]. *)
Theorem risk_score_decision row :
  amount_is_number row ->
  let amount := row_get_default row "Transaction_Amount" (VInt 0) in
  score row = Ok (VStr (risk_tier row))
  /\ (score row = Ok (VStr "HIGH") <-> exceeds amount 5000 = true)
  /\ (exceeds amount 5000 = false ->
      (score row = Ok (VStr "MEDIUM")
       <-> verdict_is_false row "Valid_Transaction" = true
           \/ verdict_is_false row "Valid_Currency" = true))
  /\ (exceeds amount 5000 = false ->
      verdict_is_false row "Valid_Transaction" = false ->
      verdict_is_false row "Valid_Currency" = false ->
      score row = Ok (VStr "LOW")).
Proof.
  intros Hnum amount.
  pose proof (score_follows_policy row Hnum) as Hscore.
  rewrite Hscore; unfold risk_tier; fold amount; simpl; rewrite orb_false_r.
  destruct (exceeds amount 5000);
    destruct (verdict_is_false row "Valid_Transaction");
    destruct (verdict_is_false row "Valid_Currency"); simpl;
    repeat split; intros; try discriminate; try reflexivity; try tauto;
    try (now left); try (now right);
    match goal with H : _ \/ _ |- _ => destruct H; discriminate end.
Qed.

(** On an amount that is no number the comparison with 5000 raises. *)
Lemma score_raises_on_non_number row :
  Py.is_int_or_float (row_get_default row "Transaction_Amount" (VInt 0)) = false ->
  exists e, score row = Raise e.
Proof.
  unfold score, Py.gt_int.
  destruct (row_get_default row "Transaction_Amount" (VInt 0)); simpl;
    try discriminate; eauto.
Qed.

(** [assign_risk_score] writes the policy's tier for every row of a table whose
    amounts are numbers. *)
Lemma assign_risk_score_by_policy df :
  (forall x, In x (rows df) -> amount_is_number x) ->
  amount_is_number (nan_row df) ->
  assign_risk_score df
  = Ok (df_set df "Risk_Score" (map (fun x => VStr (risk_tier x)) (rows df))).
Proof.
  intros Hrows Hprobe; unfold assign_risk_score.
  rewrite (df_apply_rows_ok _ (fun x => VStr (risk_tier x))); [reflexivity | |].
  - now apply score_follows_policy.
  - intros x Hx; now apply score_follows_policy, Hrows.
Qed.

(** ** C7: remediation *)

(** C7. The suggestion for a row is the message of the first condition that
    holds in the order [Valid_Currency] false, [Valid_Transaction] false,
    [Valid_Transaction_Date] false, [Risk_Score] is [HIGH], and
    [No action needed.] when none holds; so a false [Valid_Currency] gives the
    currency message, and a [HIGH] score with no false verdict gives the audit
    message.  [suggest_remediation] writes that suggestion for every row. *)
Theorem remediation_first_match row :
  get_remedy row = first_match remediation_conditions "No action needed." row
  /\ (verdict_is_false row "Valid_Currency" = true ->
      get_remedy row = "Fix currency format to ISO 4217.")
  /\ (verdict_is_false row "Valid_Currency" = false ->
      verdict_is_false row "Valid_Transaction" = false ->
      verdict_is_false row "Valid_Transaction_Date" = false ->
      Py.eq_text (row_get_default row "Risk_Score" VNone) "HIGH" = true ->
      get_remedy row = "Manual audit required due to high amount.")
  /\ (Forall (fun c => fst c row = false) remediation_conditions ->
      get_remedy row = "No action needed.")
  /\ (forall df,
        suggest_remediation df
        = Ok (df_set df "Remediation" (map (fun x => VStr (get_remedy x)) (rows df)))).
Proof.
  split; [reflexivity |].
  split; [unfold get_remedy, verdict_is_false; now intros -> |].
  split; [unfold get_remedy, verdict_is_false; now intros -> -> -> -> |].
  split.
  { intros H; unfold remediation_conditions in H.
    repeat match goal with H : Forall _ (_ :: _) |- _ => inversion H; subst; clear H end.
    cbn [fst] in *; unfold get_remedy, verdict_is_false in *.
    repeat match goal with Hc : _ = false |- _ => rewrite Hc; clear Hc end.
    reflexivity. }
  intros df; unfold suggest_remediation.
  now rewrite (df_apply_rows_ok _ (fun x => VStr (get_remedy x))).
Qed.

(** ** C8: the upload pipeline *)

(** C8. Whatever table it is given, [apply_custom_rules] returns the empty
    text, not a table: no custom rule is applied and no [Valid_...] column
    exists afterwards; the upload branch then fails on its next statement, so
    no table with a risk or a remediation column is ever produced. *)
Theorem custom_rules_discard_the_table E df :
  apply_custom_rules (PFrame df) = PText ""
  /\ (forall df', apply_custom_rules (PFrame df) <> PFrame df')
  /\ (forall validated,
        apply_rules (CORPORATE_LOAN_RULES E) df = Ok validated ->
        profile_upload E df = Raise (AttributeError "'str' object has no attribute 'apply'"))
  /\ exists e, profile_upload E df = Raise e.
Proof.
  split; [reflexivity |].
  split; [intros df'; discriminate |].
  unfold profile_upload; split.
  - now intros validated ->.
  - destruct (apply_rules (CORPORATE_LOAN_RULES E) df); simpl; eauto.
Qed.

(** * Sample runs *)

(** On the table of the repository's test, [apply_custom_rules] returns the
    empty text; the currency rule it could have applied adds [Valid_Currency]. *)
Lemma custom_rules_on_the_test_table :
  apply_custom_rules (PFrame custom_rules_test_table) = PText ""
  /\ column_after [validate_currency_format] custom_rules_test_table "Valid_Currency"
     = Ok [VBool true].
Proof. split; reflexivity. Qed.

(** C1, as stated, fails: a rule applied to a table without its source column
    raises [KeyError] instead of writing [False], and a missing [Customer_ID]
    cell gets [True]. *)
Lemma missing_field_raises_missing_cell_passes :
  In validate_customer_id (CORPORATE_LOAN_RULES (env_on 2024 1 1))
  /\ apply_rule validate_customer_id without_customer_id = Raise (KeyError "Customer_ID")
  /\ apply_rule validate_customer_id missing_customer_id
     = Ok (mkDataFrame 1 [("Customer_ID", [VBool true])]).
Proof.
  split; [registered |].
  split; [reflexivity | vm_compute; reflexivity].
Qed.

(** Applied to raw data, the conditional-description rule calls [strip] on the
    description cell itself: beside the code ["0"] a missing description
    raises. *)
Lemma missing_description_raises :
  apply_rule validate_other_credit_facility_type_desc code_zero_missing_description
  = Raise (AttributeError "object has no attribute 'strip'").
Proof. reflexivity. Qed.

(** C2 at a table where the raw code is ["0"] and the description is empty:
    the specification's verdict is [False], the rule applied to the raw table
    says [False], and the registry writes [True]. *)
Lemma other_description_verdict_in_registry_order_witness :
  has_fields other_type_without_description (registry_fields (env_on 2024 1 1))
  /\ column other_type_without_description "Credit_Facility_Type" = [VStr "0"]
  /\ column other_type_without_description "Other_Credit_Facility_Type_Description"
     = [VStr ""]
  /\ column_after [validate_other_credit_facility_type_desc] other_type_without_description
       "Other_Credit_Facility_Desc" = Ok [VBool false]
  /\ exists out,
       apply_rules (CORPORATE_LOAN_RULES (env_on 2024 1 1)) other_type_without_description
       = Ok out
       /\ column out "Other_Credit_Facility_Desc" = [VBool true].
Proof.
  assert (Hfields : has_fields other_type_without_description
                      (registry_fields (env_on 2024 1 1)))
    by (apply has_fields_check; vm_compute; reflexivity).
  split; [exact Hfields |].
  split; [vm_compute; reflexivity |].
  split; [vm_compute; reflexivity |].
  split; [vm_compute; reflexivity |].
  destruct (other_description_verdict_in_registry_order (env_on 2024 1 1)
              other_type_without_description Hfields)
    as (pre & post & seen & out & _ & _ & _ & _ & Hrun & Hout).
  exists out; split; [exact Hrun | exact Hout].
Defined.

(** C3, as stated, fails for the flag rules: the text ["1"] is in the allowed
    set and gets [False]; the float 1.0 has the text ["1.0"], which is not, and
    gets [True]. *)
Lemma flag_rule_ignores_the_text :
  In validate_special_purpose_entity_flag (CORPORATE_LOAN_RULES (env_on 2024 1 1))
  /\ apply_rule validate_special_purpose_entity_flag flags
     = Ok (mkDataFrame 2 [("Special_Purpose_Entity_Flag", [VBool false; VBool true])])
  /\ member (Py.str (VStr "1")) ["1"; "2"] = true
  /\ Py.str (VFloat float_one) = "1.0"
  /\ member (Py.str (VFloat float_one)) ["1"; "2"] = false.
Proof.
  split; [registered |].
  repeat split; vm_compute; reflexivity.
Qed.

(** C4, as stated, fails: on 1 January 2024 the origination rule says [False]
    for [2030-01-01], which parses under [%Y-%m-%d]; and the renewal rule says
    [False] for [2024-05-01], which parses too. *)
Lemma parsed_dates_rejected :
  parses_ymd "2030-01-01" = true
  /\ apply_rule (validate_origination_date (env_on 2024 1 1)) originated_in_2030
     = Ok (mkDataFrame 1 [("Origination_Date", [VBool false])])
  /\ parses_ymd "2024-05-01" = true
  /\ apply_rule validate_renewal_date renewed_in_may
     = Ok (mkDataFrame 1 [("Renewal_Date", [VBool false])]).
Proof. repeat split; vm_compute; reflexivity. Qed.

(** C5, as stated, fails: the same raw table validated on 31 May 2024 and on
    1 June 2024 gets different [Origination_Date] verdicts. *)
Lemma verdicts_change_overnight :
  column_after (CORPORATE_LOAN_RULES (env_on 2024 5 31)) originated_june_first
    "Origination_Date" = Ok [VBool false]
  /\ column_after (CORPORATE_LOAN_RULES (env_on 2024 6 1)) originated_june_first
       "Origination_Date" = Ok [VBool true].
Proof. split; vm_compute; reflexivity. Qed.

(** The same table on the two days: both passes return, with the same columns,
    and agree outside [Origination_Date]. *)
Lemma passes_agree_but_for_the_clock_witness :
  has_fields originated_june_first (registry_fields (env_on 2024 5 31))
  /\ exists out1 out2,
       apply_rules (CORPORATE_LOAN_RULES (env_on 2024 5 31)) originated_june_first = Ok out1
       /\ apply_rules (CORPORATE_LOAN_RULES (env_on 2024 6 1)) originated_june_first = Ok out2
       /\ column_names out1 = column_names out2
       /\ forall c, c <> "Origination_Date" ->
                    lookup c (columns out1) = lookup c (columns out2).
Proof.
  assert (Hfields : has_fields originated_june_first (registry_fields (env_on 2024 5 31)))
    by (apply has_fields_check; vm_compute; reflexivity).
  split; [exact Hfields |].
  destruct (passes_agree_but_for_the_clock iso_dates_only (Date.mk 2024 5 31)
              (Date.mk 2024 6 1) originated_june_first Hfields)
    as (out1 & out2 & H1 & H2 & _ & Hnames & Hcols & _).
  exists out1, out2; auto.
Defined.

(** An amount of 6000 with a false verdict scores [HIGH]. *)
Lemma risk_score_decision_witness :
  amount_is_number large_amount_row
  /\ score large_amount_row = Ok (VStr "HIGH")
  /\ risk_tier large_amount_row = "HIGH".
Proof.
  assert (Hnum : amount_is_number large_amount_row) by reflexivity.
  split; [exact Hnum |].
  destruct (risk_score_decision large_amount_row Hnum) as (Hscore & _).
  split; [rewrite Hscore |]; reflexivity.
Defined.

(** C9 at work and at fault.  [validate_accounts_receivable_current] reads one
    field and writes another: the table gains [AR_Current] and keeps the rest.
    [validate_other_credit_facility_type_desc] on a table that has both its
    fields, with the code ["0"] beside a missing description, raises and
    writes nothing. *)
Lemma rule_writes_exactly_its_output_field_witness :
  (In validate_accounts_receivable_current (CORPORATE_LOAN_RULES (env_on 2024 1 1))
   /\ well_formed receivables
   /\ has_fields receivables (source_fields validate_accounts_receivable_current)
   /\ exists df',
        apply_rule validate_accounts_receivable_current receivables = Ok df'
        /\ writes_only "AR_Current" receivables df'
        /\ column df' "AR_Current" = [VBool true; VBool false])
  /\ (In validate_other_credit_facility_type_desc (CORPORATE_LOAN_RULES (env_on 2024 1 1))
      /\ well_formed code_zero_missing_description
      /\ has_fields code_zero_missing_description
           (source_fields validate_other_credit_facility_type_desc)
      /\ column code_zero_missing_description "Credit_Facility_Type" = [VStr "0"]
      /\ column code_zero_missing_description "Other_Credit_Facility_Type_Description"
         = [NaN]
      /\ apply_rule validate_other_credit_facility_type_desc code_zero_missing_description
         = Raise (AttributeError "object has no attribute 'strip'")).
Proof.
  split.
  - assert (Hin : In validate_accounts_receivable_current
                    (CORPORATE_LOAN_RULES (env_on 2024 1 1))) by registered.
    assert (Hwf : well_formed receivables) by (apply well_formed_check; reflexivity).
    assert (Hfields : has_fields receivables
                        (source_fields validate_accounts_receivable_current))
      by (apply has_fields_check; reflexivity).
    repeat (split; [assumption |]).
    destruct (rule_writes_exactly_its_output_field (env_on 2024 1 1)
                validate_accounts_receivable_current receivables Hin Hwf Hfields)
      as (Hframe & Hreturns & _).
    assert (Hleg : Forall (fun c => legible_column (column receivables c))
                     (source_fields validate_accounts_receivable_current))
      by (repeat constructor).
    destruct (Hreturns eq_refl Hleg) as (df' & Hdf').
    exists df'; split; [exact Hdf' |]; split; [exact (Hframe df' Hdf') |].
    vm_compute in Hdf'; inversion Hdf'; reflexivity.
  - assert (Hin : In validate_other_credit_facility_type_desc
                    (CORPORATE_LOAN_RULES (env_on 2024 1 1))) by registered.
    assert (Hwf : well_formed code_zero_missing_description)
      by (apply well_formed_check; reflexivity).
    assert (Hfields : has_fields code_zero_missing_description
                        (source_fields validate_other_credit_facility_type_desc))
      by (apply has_fields_check; reflexivity).
    repeat (split; [first [assumption | reflexivity] |]).
    destruct (rule_writes_exactly_its_output_field (env_on 2024 1 1)
                validate_other_credit_facility_type_desc code_zero_missing_description
                Hin Hwf Hfields)
      as (_ & _ & _ & Hraises).
    apply (Hraises "Credit_Facility_Type" "Other_Credit_Facility_Type_Description"
             "Other_Credit_Facility_Desc"
             (other_description_required "Credit_Facility_Type"
                "Other_Credit_Facility_Type_Description") 0);
      [reflexivity | simpl; lia | reflexivity | intros s; discriminate].
Defined.

(** The table with every source field and no rows: validation returns no rows
    and every verdict column, empty. *)
Lemma validation_keeps_rows_in_place_witness :
  well_formed empty_table
  /\ has_fields empty_table (registry_fields (env_on 2024 1 1))
  /\ exists out,
       apply_rules (CORPORATE_LOAN_RULES (env_on 2024 1 1)) empty_table = Ok out
       /\ nrows out = 0
       /\ forall r, In r (CORPORATE_LOAN_RULES (env_on 2024 1 1)) ->
                    lookup (output_field r) (columns out) = Some [].
Proof.
  assert (Hwf : well_formed empty_table) by (apply well_formed_check; vm_compute; reflexivity).
  assert (Hfields : has_fields empty_table (registry_fields (env_on 2024 1 1)))
    by (apply has_fields_check; vm_compute; reflexivity).
  repeat (split; [assumption |]).
  destruct (validation_keeps_rows_in_place (env_on 2024 1 1) empty_table Hwf Hfields)
    as (out & Hrun & Hn & _ & _ & _ & _ & Hzero & _).
  exists out; split; [exact Hrun |]; split; [exact Hn | exact (Hzero eq_refl)].
Defined.

(** * The rule functions in detail *)

(** ** Text: append, reversal, blanks *)
Lemma append_nil_r (s : string) : s ++ "" = s.
Proof. induction s; simpl; congruence. Qed.

Lemma append_assoc (a b c : string) : (a ++ b) ++ c = a ++ (b ++ c).
Proof. induction a; simpl; congruence. Qed.

Lemma forallb_str_app p a b :
  Text.forallb_str p (a ++ b) = Text.forallb_str p a && Text.forallb_str p b.
Proof. induction a as [| c a IH]; simpl; [reflexivity |]. now rewrite IH, andb_assoc. Qed.

Lemma existsb_str_app p a b :
  Text.existsb_str p (a ++ b) = Text.existsb_str p a || Text.existsb_str p b.
Proof. induction a as [| c a IH]; simpl; [reflexivity |]. now rewrite IH, orb_assoc. Qed.

(** A character that fails [p] refutes [forallb_str p]. *)
Lemma forallb_str_refuted p q s :
  Text.existsb_str q s = true -> (forall c, q c = true -> p c = false) ->
  Text.forallb_str p s = false.
Proof.
  intros Hq Hpq; induction s as [| c s IH]; simpl in *; [discriminate |].
  destruct (q c) eqn:E; [now rewrite (Hpq c E) |].
  rewrite IH by exact Hq; apply andb_false_r.
Qed.

Lemma rev_onto_app s acc : Text.rev_onto s acc = Text.rev s ++ acc.
Proof.
  unfold Text.rev; revert acc; induction s as [| c s IH]; intros acc; simpl; [reflexivity |].
  rewrite (IH (String c acc)), (IH (String c "")), append_assoc; reflexivity.
Qed.

Lemma rev_cons c s : Text.rev (String c s) = Text.rev s ++ String c "".
Proof. unfold Text.rev at 1; simpl; apply rev_onto_app. Qed.

Lemma rev_app a b : Text.rev (a ++ b) = Text.rev b ++ Text.rev a.
Proof.
  induction a as [| c a IH]; simpl; [now rewrite append_nil_r |].
  now rewrite !rev_cons, IH, append_assoc.
Qed.

Lemma rev_involutive s : Text.rev (Text.rev s) = s.
Proof.
  induction s as [| c s IH]; [reflexivity |].
  now rewrite rev_cons, rev_app, IH.
Qed.

Lemma rev_snoc s c : Text.rev (s ++ String c "") = String c (Text.rev s).
Proof. now rewrite rev_app. Qed.

(** A text ends with a line feed when it is some text followed by one. *)
Lemma ends_with_newline_iff s :
  Re.ends_with_newline s = true <-> exists t, s = t ++ String Text.newline "".
Proof.
  unfold Re.ends_with_newline; split.
  - destruct (Text.rev s) as [| c r] eqn:E; [discriminate |].
    intros H; apply Ascii.eqb_eq in H; subst c.
    exists (Text.rev r); rewrite <- (rev_involutive s), E; apply rev_cons.
  - intros (t & ->); rewrite rev_snoc; apply Ascii.eqb_refl.
Qed.

Lemma without_last_snoc t c : Re.without_last (t ++ String c "") = t.
Proof. unfold Re.without_last; rewrite rev_snoc; apply rev_involutive. Qed.

(** [re.match("^body$", s)] succeeds on the texts of [body] and on those
    followed by one line feed. *)
Lemma matches_iff body s :
  Re.matches body s = true
  <-> Re.fullmatch body s = true
      \/ exists t, s = t ++ String Text.newline "" /\ Re.fullmatch body t = true.
Proof.
  unfold Re.matches, Re.match_anchored.
  destruct (Re.fullmatch body s) eqn:Hs; [tauto |].
  destruct (Re.ends_with_newline s) eqn:Hn; simpl.
  - apply ends_with_newline_iff in Hn as (t & ->); rewrite without_last_snoc.
    destruct (Re.fullmatch body t) eqn:Ht; split; auto; try discriminate.
    + intros _; right; eauto.
    + intros [H | (t' & Ht' & H)]; [discriminate |].
      assert (t' = t); [| congruence].
      apply (f_equal Text.rev) in Ht'; rewrite !rev_snoc in Ht'.
      inversion Ht' as [Hrev]; apply (f_equal Text.rev) in Hrev.
      now rewrite !rev_involutive in Hrev.
  - split; [discriminate |].
    intros [H | (t & -> & _)]; [discriminate |].
    assert (H : Re.ends_with_newline (t ++ String Text.newline "") = true)
      by (apply ends_with_newline_iff; eauto).
    congruence.
Qed.

(** ** Patterns over one character class *)

Lemma fullmatch_Void s : Re.fullmatch Re.Void s = false.
Proof. induction s; simpl; auto. Qed.

Lemma cat_Eps r : Re.cat Re.Eps r = r.
Proof. now destruct r. Qed.

Lemma fullmatch_star_class p s :
  Re.fullmatch (Re.Star (Re.Class p)) s = Text.forallb_str p s.
Proof.
  induction s as [| c s IH]; simpl; [reflexivity |].
  destruct (p c); simpl; [exact IH | apply fullmatch_Void].
Qed.

Lemma fullmatch_plus_class p s :
  Re.fullmatch (Re.plus (Re.Class p)) s = negb (Text.is_empty s) && Text.forallb_str p s.
Proof.
  destruct s as [| c s]; simpl; [reflexivity |].
  destruct (p c); simpl; [apply fullmatch_star_class | apply fullmatch_Void].
Qed.

Lemma fullmatch_times_class p n s :
  Re.fullmatch (Re.times n (Re.Class p)) s
  = Nat.eqb (String.length s) n && Text.forallb_str p s.
Proof.
  revert s; induction n as [| n IH]; intros [| c s]; simpl; try reflexivity.
  - apply fullmatch_Void.
  - destruct (p c); simpl.
    + rewrite <- IH; now destruct (Re.times n (Re.Class p)).
    + rewrite fullmatch_Void; now rewrite andb_false_r.
Qed.
(** ** The text of a number *)

Lemma string_of_uint_digits d :
  Text.forallb_str Text.is_decimal (NilEmpty.string_of_uint d) = true.
Proof. induction d; simpl; auto. Qed.

Lemma string_of_uint_nonempty d : Text.is_empty (NilZero.string_of_uint d) = false.
Proof. destruct d; reflexivity. Qed.

Lemma string_of_uint_all_digits d :
  Text.forallb_str Text.is_decimal (NilZero.string_of_uint d) = true.
Proof. destruct d; try reflexivity; apply (string_of_uint_digits (_ _)). Qed.

Lemma is_decimal_isdigit c : Text.is_decimal c = true -> Text.isdigit_char c = true.
Proof. unfold Text.isdigit_char; now intros ->. Qed.

Lemma forallb_str_impl (p q : ascii -> bool) s :
  (forall c, p c = true -> q c = true) ->
  Text.forallb_str p s = true -> Text.forallb_str q s = true.
Proof.
  intros Hpq; induction s as [| c s IH]; simpl; [reflexivity |].
  intros H; apply andb_true_iff in H as [Hc Hs]; now rewrite (Hpq c Hc), IH.
Qed.

(** [str(z).isdigit()] for an int [z]: the text of a negative int starts with
    its sign. *)
Lemma isdigit_of_Z z : Text.isdigit (Text.of_Z z) = (0 <=? z)%Z.
Proof.
  unfold Text.of_Z, Text.isdigit; destruct z as [| p | p]; try reflexivity.
  simpl Z.to_int; unfold NilZero.string_of_int.
  rewrite string_of_uint_nonempty; simpl.
  apply (forallb_str_impl Text.is_decimal); [apply is_decimal_isdigit |].
  apply string_of_uint_all_digits.
Qed.

(** The text of an int has a character that is no blank. *)
Lemma of_Z_not_blank z : Text.forallb_str Text.isspace_char (Text.of_Z z) = false.
Proof.
  unfold Text.of_Z; destruct z as [| p | p]; try reflexivity.
  simpl Z.to_int; unfold NilZero.string_of_int.
  pose proof (string_of_uint_nonempty (Pos.to_uint p)) as Hne.
  pose proof (string_of_uint_all_digits (Pos.to_uint p)) as Hd.
  destruct (NilZero.string_of_uint (Pos.to_uint p)) as [| c s]; [discriminate |].
  simpl in Hd |- *; apply andb_true_iff in Hd as [Hc _].
  replace (Text.isspace_char c) with false; [reflexivity |].
  unfold Text.is_decimal, Text.isspace_char, Text.between, Text.is_code in *.
  apply andb_true_iff in Hc as [H1 H2]; apply N.leb_le in H1, H2.
  symmetry; repeat (apply orb_false_iff; split);
    first [ apply andb_false_iff; first [ left; apply N.leb_gt; lia | right; apply N.leb_gt; lia ]
          | apply N.eqb_neq; lia ].
Qed.

Lemma layout_has_mark ds decpt : Text.existsb_str float_mark (Float.layout ds decpt) = true.
Proof.
  unfold Float.layout.
  repeat match goal with |- context [if ?b then _ else _] => destruct b end;
    rewrite ?existsb_str_app; simpl; rewrite ?orb_true_r; reflexivity.
Qed.

Lemma repr_has_mark x : Text.existsb_str float_mark (Float.repr x) = true.
Proof.
  destruct x as [s | s | | s m e]; try (destruct s; reflexivity); [reflexivity |].
  unfold Float.repr.
  destruct (Float.shortest_digits _ _ _ _ _ _) as [ds decpt].
  rewrite existsb_str_app, layout_has_mark; apply orb_true_r.
Qed.

Lemma float_mark_not_digit c : float_mark c = true -> Text.isdigit_char c = false.
Proof.
  unfold float_mark; intros H.
  repeat (apply orb_true_iff in H as [H | H]); apply Ascii.eqb_eq in H; subst; reflexivity.
Qed.

Lemma float_mark_not_blank c : float_mark c = true -> Text.isspace_char c = false.
Proof.
  unfold float_mark; intros H.
  repeat (apply orb_true_iff in H as [H | H]); apply Ascii.eqb_eq in H; subst; reflexivity.
Qed.

(** [str(x).isdigit()] is false for every float [x]. *)
Lemma isdigit_repr x : Text.isdigit (Float.repr x) = false.
Proof.
  unfold Text.isdigit.
  rewrite (forallb_str_refuted _ float_mark _ (repr_has_mark x) float_mark_not_digit).
  apply andb_false_r.
Qed.

Lemma repr_not_blank x : Text.forallb_str Text.isspace_char (Float.repr x) = false.
Proof. exact (forallb_str_refuted _ float_mark _ (repr_has_mark x) float_mark_not_blank). Qed.

(** ** Blanks *)

Lemma lstrip_by_empty blank s :
  Text.is_empty (Text.lstrip_by blank s) = Text.forallb_str blank s.
Proof.
  induction s as [| c s IH]; simpl; [reflexivity |].
  destruct (blank c); simpl; [exact IH | reflexivity].
Qed.

Lemma is_empty_rev s : Text.is_empty (Text.rev s) = Text.is_empty s.
Proof.
  destruct s as [| c s]; [reflexivity |].
  rewrite rev_cons; now destruct (Text.rev s).
Qed.

Lemma forallb_str_rev p s : Text.forallb_str p (Text.rev s) = Text.forallb_str p s.
Proof.
  induction s as [| c s IH]; [reflexivity |].
  rewrite rev_cons, forallb_str_app, IH; simpl.
  rewrite andb_true_r; apply andb_comm.
Qed.

Lemma lstrip_by_blank_prefix blank s :
  Text.forallb_str blank (Text.lstrip_by blank s) = Text.forallb_str blank s.
Proof.
  induction s as [| c s IH]; simpl; [reflexivity |].
  destruct (blank c) eqn:E; simpl; [exact IH | now rewrite E].
Qed.

(** [s.strip()] is empty exactly when every character of [s] is a blank. *)
Lemma strip_by_empty blank s :
  Text.is_empty (Text.strip_by blank s) = Text.forallb_str blank s.
Proof.
  unfold Text.strip_by.
  now rewrite is_empty_rev, lstrip_by_empty, forallb_str_rev, lstrip_by_blank_prefix.
Qed.

Lemma eqb_empty s : String.eqb s "" = Text.is_empty s.
Proof. now destruct s. Qed.

(** ** What a rule says of the cells of a table *)

Lemma judges_on_table r p df :
  judges r p -> has_fields df (source_fields r) ->
  Forall (fun c => legible_column (column df c)) (source_fields r) ->
  exists src,
    source_fields r = [src]
    /\ apply_rule r df
       = Ok (df_set df (output_field r) (map (fun v => VBool (p v)) (column df src))).
Proof.
  intros (src & out & f & -> & Hf) Hfields Hleg; exists src; split; [reflexivity |].
  inversion Hfields as [| ? ? Hsrc _]; subst.
  inversion Hleg as [| ? ? Hcol _]; subst.
  simpl; rewrite (df_get_present _ _ Hsrc); simpl.
  rewrite (map_result_ok f (fun v => VBool (p v))); [reflexivity |].
  intros v Hv; apply Hf.
  unfold legible_column in Hcol; rewrite Forall_forall in Hcol; auto.
Qed.

Lemma forallb_str_ext (p q : ascii -> bool) s :
  (forall c, p c = q c) -> Text.forallb_str p s = Text.forallb_str q s.
Proof. intros H; induction s as [| c s IH]; simpl; [reflexivity |]. now rewrite H, IH. Qed.

(** ** Identifiers and names *)

Lemma fullmatch_id_pattern s : Re.fullmatch id_pattern s = nonempty_of is_id_char s.
Proof.
  unfold id_pattern, id_char; rewrite fullmatch_plus_class; unfold nonempty_of; f_equal.
  apply forallb_str_ext; intros c; unfold is_id_char, is_printable.
  destruct c as [[] [] [] [] [] [] [] []]; reflexivity.
Qed.

Lemma fullmatch_id_list_pattern s :
  Re.fullmatch id_list_pattern s = nonempty_of is_printable s.
Proof.
  unfold id_list_pattern, id_char_or_comma; rewrite fullmatch_plus_class.
  unfold nonempty_of; f_equal.
  apply forallb_str_ext; intros c; unfold is_printable.
  destruct c as [[] [] [] [] [] [] [] []]; reflexivity.
Qed.

Lemma fullmatch_entity_pattern s :
  Re.fullmatch entity_pattern s = Text.forallb_str is_id_char s.
Proof.
  unfold entity_pattern, id_char; rewrite fullmatch_star_class.
  apply forallb_str_ext; intros c; unfold is_id_char, is_printable.
  destruct c as [[] [] [] [] [] [] [] []]; reflexivity.
Qed.

Lemma matches_up_to_newline body shape s :
  (forall t, Re.fullmatch body t = shape t) ->
  Re.matches body s = true <-> up_to_newline shape s.
Proof.
  intros H; rewrite matches_iff; unfold up_to_newline; rewrite (H s).
  split; (intros [Hs | (t & Ht & Hs)]; [now left | right; exists t; split; auto]);
    [rewrite <- H | rewrite H]; exact Hs.
Qed.

Ltac judges_by_definition :=
  do 3 eexists; split; [reflexivity | intros v _; reflexivity].

(** X5. The identifier and name rules look at the text of the cell.  The five
    [^[^\r\n,\x00-\x1F\x7F]+$] rules say [True] exactly of a text that is not
    empty and has no control character, DEL or comma, and of such a text
    followed by one line feed ([$] matches before a final line feed, although
    the class excludes it); [Original_Credit_Facility_ID] allows commas too;
    the two entity rules allow the empty text too. *)
Theorem identifier_rules_accept E :
  (forall r, In r identifier_rules ->
             In r (CORPORATE_LOAN_RULES E)
             /\ judges r (fun v => Re.matches id_pattern (Py.str v)))
  /\ (In validate_original_credit_facility_id (CORPORATE_LOAN_RULES E)
      /\ judges validate_original_credit_facility_id
           (fun v => Re.matches id_list_pattern (Py.str v)))
  /\ (forall r, In r entity_rules ->
                In r (CORPORATE_LOAN_RULES E)
                /\ judges r (fun v => Re.matches entity_pattern (Py.str v)))
  /\ (forall s, Re.matches id_pattern s = true <-> up_to_newline (nonempty_of is_id_char) s)
  /\ (forall s, Re.matches id_list_pattern s = true
                <-> up_to_newline (nonempty_of is_printable) s)
  /\ (forall s, Re.matches entity_pattern s = true
                <-> up_to_newline (Text.forallb_str is_id_char) s).
Proof.
  split.
  { intros r H; simpl in H.
    repeat (destruct H as [H | H]; [subst r |]); try contradiction;
      (split; [registered | judges_by_definition]). }
  split; [split; [registered | judges_by_definition] |].
  split.
  { intros r H; simpl in H.
    repeat (destruct H as [H | H]; [subst r |]); try contradiction;
      (split; [registered | judges_by_definition]). }
  split; [intros s; apply matches_up_to_newline, fullmatch_id_pattern |].
  split; [intros s; apply matches_up_to_newline, fullmatch_id_list_pattern |].
  intros s; apply matches_up_to_newline, fullmatch_entity_pattern.
Qed.

(** ** Codes of a fixed length *)

Lemma not_registered_check c names :
  existsb (String.eqb c) names = false -> ~ In c names.
Proof. intros H Hin; apply existsb_eqb_In in Hin; congruence. Qed.

(** X6. [validate_country] says [True] exactly of two capital letters A..Z
    (and of two capitals followed by a line feed); [validate_zip_code] exactly
    of five decimal digits (and of five digits followed by a line feed).  The
    registry holds the country rule but not the zip-code rule: no registered
    rule reads or writes [Zip_Code]. *)
Theorem country_and_zip_code_accept E :
  (In validate_country (CORPORATE_LOAN_RULES E)
   /\ judges validate_country (fun v => Re.matches country_pattern (Py.str v)))
  /\ judges validate_zip_code (fun v => Re.matches zip_pattern (Py.str v))
  /\ (forall s, Re.matches country_pattern s = true
                <-> up_to_newline (exactly 2 is_capital) s)
  /\ (forall s, Re.matches zip_pattern s = true
                <-> up_to_newline (exactly 5 Text.is_decimal) s)
  /\ ~ In "Zip_Code" (registry_fields E)
  /\ ~ In "Zip_Code" (registry_outputs E).
Proof.
  split; [split; [registered | judges_by_definition] |].
  split; [judges_by_definition |].
  split.
  { intros s; apply matches_up_to_newline; intros t.
    unfold country_pattern, upper_AZ; apply fullmatch_times_class. }
  split.
  { intros s; apply matches_up_to_newline; intros t.
    unfold zip_pattern, Re.digit; apply fullmatch_times_class. }
  split; apply not_registered_check; reflexivity.
Qed.

(** ** Amounts as digits, free text, amounts as numbers *)

Lemma isdigit_str v : Text.isdigit (Py.str v) = is_digit_text v.
Proof.
  destruct v as [| b | z | x | s | m]; try reflexivity.
  - now destruct b.
  - apply isdigit_of_Z.
  - apply isdigit_repr.
Qed.

Lemma not_blank_str v :
  negb (String.eqb (Text.strip (Py.str v)) "") = is_not_blank v.
Proof.
  rewrite eqb_empty; unfold Text.strip; rewrite strip_by_empty.
  destruct v as [| b | z | x | s | m]; try reflexivity.
  - now destruct b.
  - simpl; now rewrite of_Z_not_blank.
  - simpl; now rewrite repr_not_blank.
Qed.

(** X7. Each of the 29 rules whose test is [str(x).isdigit()] says [True] of an
    int cell exactly when it is not negative, [False] of every float cell
    (the text of a float has a point, an exponent or letters), of every bool
    and of [None], and of a text cell what [isdigit] says of the text. *)
Theorem digit_only_rules_accept E :
  (forall r, In r digit_only_rules ->
             In r (CORPORATE_LOAN_RULES E) /\ judges r is_digit_text)
  /\ (forall r df,
        In r digit_only_rules -> has_fields df (source_fields r) ->
        Forall (fun c => legible_column (column df c)) (source_fields r) ->
        exists src,
          source_fields r = [src]
          /\ apply_rule r df
             = Ok (df_set df (output_field r)
                     (map (fun v => VBool (is_digit_text v)) (column df src))))
  /\ (forall x, str_isdigit (VFloat x) = Ok (VBool false))
  /\ (forall z, Py.legible (VInt z) = true ->
                str_isdigit (VInt z) = Ok (VBool (0 <=? z)%Z))
  /\ (forall b, str_isdigit (VBool b) = Ok (VBool false))
  /\ str_isdigit VNone = Ok (VBool false).
Proof.
  assert (H : forall r, In r digit_only_rules ->
                        In r (CORPORATE_LOAN_RULES E) /\ judges r is_digit_text).
  { intros r H; simpl in H.
    repeat (destruct H as [H | H]; [subst r |]); try contradiction;
      (split; [registered |]);
      (do 3 eexists; split; [reflexivity |]; intros v _; unfold str_isdigit;
       now rewrite isdigit_str). }
  split; [exact H |].
  split; [intros r df Hr; apply judges_on_table, H, Hr |].
  unfold str_isdigit.
  split; [intros x; now rewrite isdigit_str |].
  split; [intros z _; now rewrite isdigit_str |].
  split; [intros b; now rewrite isdigit_str | now rewrite isdigit_str].
Qed.

(** X8. Each of the six free-text rules, [.astype(str).str.strip().ne("")],
    says [True] of every cell that is not text (a number, a bool, [None], a
    missing cell: its text is never blank), and of a text cell exactly when
    it has a character that is no blank. *)
Theorem free_text_rules_accept E :
  (forall r, In r free_text_rules ->
             In r (CORPORATE_LOAN_RULES E) /\ judges r is_not_blank)
  /\ (forall r df,
        In r free_text_rules -> has_fields df (source_fields r) ->
        Forall (fun c => legible_column (column df c)) (source_fields r) ->
        exists src,
          source_fields r = [src]
          /\ apply_rule r df
             = Ok (df_set df (output_field r)
                     (map (fun v => VBool (is_not_blank v)) (column df src))))
  /\ (forall v, (forall s, v <> VStr s) -> Py.legible v = true ->
                str_nonblank v = Ok (VBool true))
  /\ (forall s, str_nonblank (VStr s)
                = Ok (VBool (negb (Text.forallb_str Text.isspace_char s)))).
Proof.
  assert (H : forall r, In r free_text_rules ->
                        In r (CORPORATE_LOAN_RULES E) /\ judges r is_not_blank).
  { intros r H; simpl in H.
    repeat (destruct H as [H | H]; [subst r |]); try contradiction;
      (split; [registered |]);
      (do 3 eexists; split; [reflexivity |]; intros v _; unfold str_nonblank;
       now rewrite not_blank_str). }
  split; [exact H |].
  split; [intros r df Hr; apply judges_on_table, H, Hr |].
  unfold str_nonblank.
  split; [| intros s; now rewrite not_blank_str].
  intros v Hv _; rewrite not_blank_str.
  destruct v; try reflexivity; now destruct (Hv s).
Qed.

Lemma float_nonnegative_ge x :
  match Float.compare_Z x 0 with Some (Gt | Eq) => true | _ => false end
  = float_nonnegative x.
Proof.
  destruct x as [s | s | | s m e]; try reflexivity; try (now destruct s).
  unfold Float.compare_Z, float_nonnegative.
  destruct (0 <=? e)%Z eqn:He.
  - apply Z.leb_le in He.
    assert (Hp : (0 < 2 ^ e)%Z) by (apply Z.pow_pos_nonneg; lia).
    destruct s.
    + assert (Hlt : (Z.neg m * 2 ^ e < 0)%Z) by nia.
      apply Z.compare_lt_iff in Hlt; now rewrite Hlt.
    + assert (Hgt : (0 < Z.pos m * 2 ^ e)%Z) by nia.
      apply Z.compare_gt_iff in Hgt; now rewrite Hgt.
  - now destruct s.
Qed.

Lemma nonnegative_number_accepts v :
  nonnegative_number v = Ok (VBool (is_nonnegative_number v)).
Proof.
  unfold nonnegative_number, Py.ge_int.
  destruct v as [| b | z | x | s | m]; simpl; try reflexivity.
  - now destruct b.
  - do 2 f_equal; destruct (Z.compare_spec z 0), (Z.leb_spec 0 z); try reflexivity; lia.
  - now rewrite float_nonnegative_ge.
Qed.

(** X9. The exposure rules, [isinstance(x, (int, float)) and x >= 0], accept a
    cell only if it is a number: an int that is not negative, a bool, a
    float that is zero, positive or plus infinity; text is never accepted,
    numerals included, nor is a missing cell.  [validate_cumulative_chargeoffs]
    accepts the text [NA] besides; [validate_days_past_due] accepts ints and
    bools only, no float whatever its value. *)
Theorem number_rules_accept E :
  (forall r, In r exposure_rules ->
             In r (CORPORATE_LOAN_RULES E) /\ decides r is_nonnegative_number)
  /\ (In validate_cumulative_chargeoffs (CORPORATE_LOAN_RULES E)
      /\ decides validate_cumulative_chargeoffs
           (fun v => Py.eq_text v "NA" || is_nonnegative_number v))
  /\ (In validate_days_past_due (CORPORATE_LOAN_RULES E)
      /\ decides validate_days_past_due
           (fun v => match v with
                     | VBool _ => true
                     | VInt z => (0 <=? z)%Z
                     | _ => false
                     end))
  /\ (forall s, nonnegative_number (VStr s) = Ok (VBool false))
  /\ nonnegative_number NaN = Ok (VBool false).
Proof.
  split.
  { intros r H; simpl in H.
    repeat (destruct H as [H | H]; [subst r |]); try contradiction;
      (split; [registered |]);
      (do 3 eexists; split; [reflexivity | exact nonnegative_number_accepts]). }
  split.
  { split; [registered |].
    do 3 eexists; split; [reflexivity |].
    intros v; unfold is_valid; destruct (Py.eq_text v "NA"); [reflexivity |].
    apply nonnegative_number_accepts. }
  split.
  { split; [registered |].
    do 3 eexists; split; [reflexivity |].
    intros v; destruct v as [| b | z | x | s | m]; simpl; try reflexivity.
    - now destruct b.
    - unfold Py.ge_int; simpl; do 2 f_equal.
      destruct (Z.compare_spec z 0), (Z.leb_spec 0 z); try reflexivity; lia. }
  split; reflexivity.
Qed.

(** ** Verdicts that are booleans, and verdicts that are not *)

Lemma try_except_bool {A} (m : result A) (k : A -> bool) (t : bool) :
  exists b, try_except (x <- m ;; Ok (VBool (k x))) (Ok (VBool t)) = Ok (VBool b).
Proof. destruct m; simpl; eauto. Qed.

Lemma nonnegative_number_bool : returns_bool nonnegative_number.
Proof. intros v; rewrite nonnegative_number_accepts; eauto. Qed.

Lemma float_in_unit_interval_bool : returns_bool float_in_unit_interval.
Proof. intros v; apply try_except_bool. Qed.

Lemma float_parses_bool : returns_bool float_parses.
Proof. intros v; apply (try_except_bool (Py.to_float v) (fun _ => true)). Qed.

Lemma date_or_sentinel_bool s : returns_bool (date_or_sentinel s).
Proof. intros v; apply (try_except_bool (Py.strptime v) (fun _ => true)). Qed.

Lemma is_valid_origination_bool E : returns_bool (is_valid_origination E).
Proof. intros v; apply (try_except_bool _ (fun d => Date.leb d (today E))). Qed.

Ltac rule_returns_bool :=
  lazymatch goal with
  | |- returns_bool ?f =>
      first
        [ apply nonnegative_number_bool
        | apply is_valid_origination_bool
        | let g := eval hnf in f in
          change (returns_bool g);
          cbv beta delta [str_match str_nonblank str_isin isin str_isdigit
                          str_isdigit_or_na number_or_none na_or_match is_valid_rate
                          is_valid_spread is_valid_pd is_valid_renewal_date
                          is_valid is_valid_maturity is_valid_non_accrual];
          intros v; cbv beta zeta;
          repeat match goal with
                 | |- exists t, (if ?c then _ else _) = Ok (VBool t) => destruct c eqn:?
                 end;
          first
            [ eexists; reflexivity
            | apply float_in_unit_interval_bool
            | apply float_parses_bool
            | apply date_or_sentinel_bool
            | apply nonnegative_number_bool
            | match goal with
              | H : Py.is_int v = true |- _ =>
                  destruct v; try discriminate; simpl; eauto
              end ] ]
  end.

(** The verdict kinds of a registered rule, by its output field. *)
Lemma registry_verdict_kinds E :
  Forall (fun r => match r with
                   | Cellwise _ out f =>
                       (existsb (String.eqb out) (match_or_na_fields ++ lei_fields) = false ->
                        returns_bool f)
                       /\ (existsb (String.eqb out) match_or_na_fields = true ->
                           f = is_valid_target_hold \/ f = na_or_signed_integer)
                       /\ (existsb (String.eqb out) lei_fields = true -> f = lei_or_na)
                   | _ => True
                   end) (CORPORATE_LOAN_RULES E).
Proof.
  unfold CORPORATE_LOAN_RULES.
  repeat (apply Forall_cons;
          [ lazymatch goal with
            | |- match ?r with _ => _ end =>
                let r' := eval hnf in r in
                change (match r' with
                        | Cellwise _ out f =>
                            (existsb (String.eqb out) (match_or_na_fields ++ lei_fields) = false ->
                             returns_bool f)
                            /\ (existsb (String.eqb out) match_or_na_fields = true ->
                                f = is_valid_target_hold \/ f = na_or_signed_integer)
                            /\ (existsb (String.eqb out) lei_fields = true -> f = lei_or_na)
                        | _ => True
                        end); cbv beta iota
            end;
            lazymatch goal with
            | |- True => exact I
            | |- _ /\ _ =>
                split; [| split];
                (intros H;
                 first [ discriminate H
                       | left; reflexivity | right; reflexivity | reflexivity
                       | clear H; rule_returns_bool ])
            end | ]).
  apply Forall_nil.
Qed.

Lemma target_hold_verdict v :
  is_valid_target_hold v
  = Ok (if Py.is_na_stripped v then VBool true
        else Py.re_match target_hold_pattern (Py.str v)).
Proof. unfold is_valid_target_hold, Py.or_; simpl; now destruct (Py.is_na_stripped v). Qed.

Lemma signed_integer_verdict v :
  na_or_signed_integer v
  = Ok (if Py.is_na v then VBool true
        else Py.re_match signed_integer_pattern (Py.str v)).
Proof. unfold na_or_signed_integer, Py.or_; simpl; now destruct (Py.is_na v). Qed.

Lemma lei_verdict v :
  lei_or_na v
  = Ok (match Re.match_anchored lei_pattern (Py.str v) with
        | Some m => VMatch m
        | None => VBool (Py.is_na v)
        end).
Proof.
  unfold lei_or_na, Py.or_, Py.re_match.
  now destruct (Re.match_anchored lei_pattern (Py.str v)).
Qed.

(** X3. The cell function of a registered rule returns [True] or [False],
    except for seven fields whose rule hands back what [re.match] gives.
    [Target_Hold] and the four global exposure fields, [na_test or
    re.match(...)], get [True], a match object, or [None] where nothing
    matches: never [False].  The two LEI fields, [re.match(...) or na_test],
    get a match object, [True] or [False]: never [None]. *)
Theorem verdicts_are_booleans_but_for_seven_fields E :
  (forall src out f v,
     In (Cellwise src out f) (CORPORATE_LOAN_RULES E) ->
     ~ In out (match_or_na_fields ++ lei_fields) -> Py.legible v = true ->
     exists t, f v = Ok (VBool t))
  /\ (forall src out f v,
        In (Cellwise src out f) (CORPORATE_LOAN_RULES E) ->
        In out match_or_na_fields -> Py.legible v = true ->
        f v = Ok (VBool true) \/ (exists m, f v = Ok (VMatch m)) \/ f v = Ok VNone)
  /\ (forall src out f v,
        In (Cellwise src out f) (CORPORATE_LOAN_RULES E) ->
        In out lei_fields -> Py.legible v = true ->
        (exists m, f v = Ok (VMatch m)) \/ (exists t, f v = Ok (VBool t)))
  /\ (forall v,
        Py.legible v = true ->
        is_valid_target_hold v
        = Ok (if Py.is_na_stripped v then VBool true
              else Py.re_match target_hold_pattern (Py.str v)))
  /\ (forall v,
        Py.legible v = true ->
        na_or_signed_integer v
        = Ok (if Py.is_na v then VBool true
              else Py.re_match signed_integer_pattern (Py.str v)))
  /\ (forall v,
        Py.legible v = true ->
        lei_or_na v
        = Ok (match Re.match_anchored lei_pattern (Py.str v) with
              | Some m => VMatch m
              | None => VBool (Py.is_na v)
              end))
  /\ (forall src out f,
        In (Cellwise src out f) (CORPORATE_LOAN_RULES E) ->
        (In out match_or_na_fields ->
         f = is_valid_target_hold \/ f = na_or_signed_integer)
        /\ (In out lei_fields -> f = lei_or_na)).
Proof.
  pose proof (registry_verdict_kinds E) as Hkinds; rewrite Forall_forall in Hkinds.
  split.
  { intros src out f v Hin Hout _.
    destruct (Hkinds _ Hin) as (Hbool & _).
    apply Hbool.
    destruct (existsb (String.eqb out) (match_or_na_fields ++ lei_fields)%list) eqn:Ex;
      [| reflexivity].
    apply existsb_eqb_In in Ex; contradiction. }
  split.
  { intros src out f v Hin Hout _.
    destruct (Hkinds _ Hin) as (_ & Hmatch & _).
    apply existsb_eqb_In in Hout; destruct (Hmatch Hout) as [-> | ->].
    - rewrite target_hold_verdict; destruct (Py.is_na_stripped v); [now left |].
      unfold Py.re_match; destruct (Re.match_anchored _ _); eauto.
    - rewrite signed_integer_verdict; destruct (Py.is_na v); [now left |].
      unfold Py.re_match; destruct (Re.match_anchored _ _); eauto. }
  split.
  { intros src out f v Hin Hout _.
    destruct (Hkinds _ Hin) as (_ & _ & Hlei).
    apply existsb_eqb_In in Hout; rewrite (Hlei Hout), lei_verdict.
    destruct (Re.match_anchored _ _); eauto. }
  split; [intros v _; apply target_hold_verdict |].
  split; [intros v _; apply signed_integer_verdict |].
  split; [intros v _; apply lei_verdict |].
  intros src out f Hin; destruct (Hkinds _ Hin) as (_ & Hmatch & Hlei).
  split; intros Hout; apply existsb_eqb_In in Hout; auto.
Qed.

(** ** A rule applied to its own verdicts *)














(** ** The registry loop on any table *)

Lemma in_order_firstn n : forall written rules,
  in_order written rules = true -> in_order written (firstn n rules) = true.
Proof.
  induction n as [| n IH]; intros written [| r rules]; simpl; auto.
  intros H; apply andb_true_iff in H as [H1 H2]; rewrite H1; simpl; now apply IH.
Qed.

Lemma Forall_firstn_of {A} (P : A -> Prop) n (l : list A) : Forall P l -> Forall P (firstn n l).
Proof.
  intros H; revert n; induction H as [| x l Hx Hl IH]; intros [| n]; simpl; auto.
Qed.

(** A rule list that is in order, run on a table that agrees with the raw
    table outside the written fields: it stops with [KeyError] at the first
    rule whose indexed field the raw table lacks, and otherwise writes each
    rule's column as computed from the raw table. *)
Lemma apply_rules_stops raw rules :
  forall written df,
    Forall well_shaped rules ->
    in_order written rules = true ->
    nrows df = nrows raw ->
    (forall c, ~ In c written -> lookup c (columns df) = lookup c (columns raw)) ->
    (forall c, In c written ->
               exists col, lookup c (columns df) = Some col /\ holds_no_text col) ->
    apply_rules rules df
    = match first_missing raw rules with
      | Some c => Raise (KeyError c)
      | None => Ok (fold_left (write_pass_column raw) rules df)
      end.
Proof.
  induction rules as [| r rules IH]; intros written df Hshape Hord Hn Hraw Hwritten;
    [reflexivity |].
  inversion Hshape as [| ? ? Hr Hrules]; subst.
  simpl in Hord; apply andb_true_iff in Hord as [Hread Hord].
  assert (Hnext : apply_rules rules (write_pass_column raw df r)
                  = match first_missing raw rules with
                    | Some c => Raise (KeyError c)
                    | None => Ok (fold_left (write_pass_column raw) rules
                                    (write_pass_column raw df r))
                    end).
  { apply (IH (output_field r :: written)); auto.
    - intros c Hc; unfold write_pass_column; simpl.
      rewrite lookup_assign_other; [apply Hraw |]; simpl in Hc; intuition congruence.
    - intros c [<- | Hc]; unfold write_pass_column; simpl.
      + exists (pass_column raw r); split;
          [apply lookup_assign_same | now apply pass_column_no_text].
      + destruct (string_dec c (output_field r)) as [-> | Hne].
        * exists (pass_column raw r); split;
            [apply lookup_assign_same | now apply pass_column_no_text].
        * rewrite lookup_assign_other by exact Hne; now apply Hwritten. }
  destruct r as [src out f | src out f | fields out f]; simpl in Hr, Hread.
  - apply negb_true_iff in Hread.
    assert (Hnot : ~ In src written)
      by (intros Hin; apply existsb_eqb_In in Hin; congruence).
    assert (Hhas : has_column df src = has_column raw src)
      by (unfold has_column; now rewrite (Hraw src Hnot)).
    cbn [first_missing indexed_field apply_rules].
    destruct (has_column raw src) eqn:Hsrc.
    + assert (Hcol : column df src = column raw src)
        by (unfold column; now rewrite (Hraw src Hnot)).
      rewrite (apply_cellwise src out f df Hr Hhas), Hcol; exact Hnext.
    + cbn [apply_rule]; now rewrite (df_get_absent _ _ Hhas).
  - apply negb_true_iff in Hread.
    assert (Hnot : ~ In src written)
      by (intros Hin; apply existsb_eqb_In in Hin; congruence).
    assert (Hhas : has_column df src = has_column raw src)
      by (unfold has_column; now rewrite (Hraw src Hnot)).
    cbn [first_missing indexed_field apply_rules].
    destruct (has_column raw src) eqn:Hsrc.
    + assert (Hcol : column df src = column raw src)
        by (unfold column; now rewrite (Hraw src Hnot)).
      rewrite (apply_columnwise src out f df Hhas), Hcol; exact Hnext.
    + cbn [apply_rule]; now rewrite (df_get_absent _ _ Hhas).
  - destruct Hr as (code & description & -> & ->).
    apply existsb_eqb_In in Hread.
    destruct (Hwritten code Hread) as (col & Hcol & Hno).
    cbn [first_missing indexed_field apply_rules].
    rewrite (apply_rowwise_overwritten code description [code; description] out df col
               Hcol Hno).
    cbn [bind]; rewrite Hn; exact Hnext.
Qed.

(** The first [n] rules of the registry, on any table. *)
Lemma registry_run E n raw :
  apply_rules (firstn n (CORPORATE_LOAN_RULES E)) raw
  = match first_missing raw (firstn n (CORPORATE_LOAN_RULES E)) with
    | Some c => Raise (KeyError c)
    | None => Ok (annotated (firstn n (CORPORATE_LOAN_RULES E)) raw)
    end.
Proof.
  unfold annotated; apply (apply_rules_stops raw _ []);
    [ apply Forall_firstn_of, registry_well_shaped
    | apply in_order_firstn, registry_in_order
    | reflexivity | reflexivity | intros c [] ].
Qed.

Lemma first_missing_none df rules :
  first_missing df rules = None
  <-> forall r c, In r rules -> indexed_field r = Some c -> has_column df c = true.
Proof.
  induction rules as [| r rules IH]; simpl; [split; [intros _ r c [] | reflexivity] |].
  destruct (indexed_field r) as [src |] eqn:Er.
  - destruct (has_column df src) eqn:Hsrc.
    + rewrite IH; split.
      * intros H r' c [<- | Hin] Hc; [congruence | eauto].
      * intros H r' c Hin; apply H; now right.
    + split; [discriminate |].
      intros H; specialize (H r src (or_introl eq_refl) Er); congruence.
  - rewrite IH; split.
    + intros H r' c [<- | Hin] Hc; [congruence | eauto].
    + intros H r' c Hin; apply H; now right.
Qed.

Lemma first_missing_absent df rules c :
  first_missing df rules = Some c -> has_column df c = false.
Proof.
  induction rules as [| r rules IH]; simpl; [discriminate |].
  destruct (indexed_field r) as [src |]; [| exact IH].
  destruct (has_column df src) eqn:Hsrc; [exact IH |].
  intros H; inversion H; subst; exact Hsrc.
Qed.


(** X1. The loop [for rule in rules: df = rule(df)] over the first [n] rules of
    the registry ([n] = 102 is the whole registry), on any table whose cells
    have a text: it stops with [KeyError] at the first rule, in registry
    order, whose indexed field the table lacks, and names that field;
    otherwise it returns the table with every verdict column computed from
    the raw input.  Only the fields that cell and column rules index are
    needed: the description fields of the two conditional-description rules
    need not be there, since in registry order those rules never read them. *)
Theorem registry_stops_at_first_missing_field E n raw :
  legible_table raw ->
  let rules := firstn n (CORPORATE_LOAN_RULES E) in
  apply_rules rules raw
  = match first_missing raw rules with
    | Some c => Raise (KeyError c)
    | None => Ok (annotated rules raw)
    end
  /\ (forall c, first_missing raw rules = Some c -> has_column raw c = false)
  /\ (first_missing raw rules = None
      <-> forall r c, In r rules -> indexed_field r = Some c -> has_column raw c = true)
  /\ firstn 102 (CORPORATE_LOAN_RULES E) = CORPORATE_LOAN_RULES E.
Proof.
  intros _ rules; split; [apply registry_run |].
  split; [apply first_missing_absent |].
  split; [apply first_missing_none | reflexivity].
Qed.

(** ** The order of the cell and column rules *)

Lemma reads_no_output_spec rules r r' c :
  reads_no_output rules = true -> In r rules -> In r' rules ->
  In c (source_fields r) -> output_field r' = c -> output_field r' = output_field r.
Proof.
  unfold reads_no_output; intros H Hr Hr' Hc Hout.
  rewrite forallb_forall in H; specialize (H r Hr).
  rewrite forallb_forall in H; specialize (H r' Hr').
  rewrite forallb_forall in H; specialize (H c Hc).
  apply orb_true_iff in H as [H | H]; [| now apply String.eqb_eq].
  apply negb_true_iff, String.eqb_neq in H; congruence.
Qed.

(** Cell and column rules that read no output but their own are in order,
    whatever their order. *)
Lemma independent_in_order all rules :
  forall written,
    incl rules all ->
    Forall (fun r => is_rowwise r = false) rules ->
    (forall r r' c, In r all -> In r' all -> In c (source_fields r) ->
                    output_field r' = c -> output_field r' = output_field r) ->
    (forall c, In c written -> exists r', In r' all /\ output_field r' = c) ->
    NoDup (written ++ map output_field rules) ->
    in_order written rules = true.
Proof.
  induction rules as [| r rules IH]; intros written Hincl Hcol Hown Hwritten Hnd;
    [reflexivity |].
  inversion Hcol as [| ? ? Hr Hrest]; subst.
  assert (Hin : In r all) by (apply Hincl; now left).
  assert (Hread : forall c, In c (source_fields r) -> ~ In c written).
  { intros c Hc Hw; destruct (Hwritten c Hw) as (r' & Hr' & Hout).
    pose proof (Hown r r' c Hin Hr' Hc Hout) as Hsame.
    apply NoDup_remove_2 in Hnd; apply Hnd, in_or_app; left; congruence. }
  cbn [in_order]; apply andb_true_iff; split.
  - destruct r as [src out f | src out f | fields out f]; try discriminate;
      apply negb_true_iff; destruct (existsb (String.eqb src) written) eqn:Ex; auto;
      apply existsb_eqb_In in Ex; destruct (Hread src (or_introl eq_refl) Ex).
  - apply IH; auto.
    + intros x Hx; apply Hincl; now right.
    + intros c [<- | Hc]; eauto.
    + cbn [app]; constructor.
      * apply NoDup_remove_2 in Hnd; exact Hnd.
      * apply NoDup_remove_1 in Hnd; exact Hnd.
Qed.

Lemma columnar_In rules r : In r (columnar rules) <-> In r rules /\ is_rowwise r = false.
Proof. unfold columnar; rewrite filter_In, negb_true_iff; reflexivity. Qed.

Lemma columnar_not_rowwise rules : Forall (fun r => is_rowwise r = false) (columnar rules).
Proof. apply Forall_forall; intros r Hr; now apply columnar_In in Hr. Qed.

Lemma registry_reads_no_output E : reads_no_output (columnar (CORPORATE_LOAN_RULES E)) = true.
Proof. vm_compute; reflexivity. Qed.

Lemma columnar_outputs_distinct E :
  NoDup (map output_field (columnar (CORPORATE_LOAN_RULES E))).
Proof.
  assert (H : dedupe [] (map output_field (columnar (CORPORATE_LOAN_RULES E)))
              = map output_field (columnar (CORPORATE_LOAN_RULES E))) by reflexivity.
  rewrite <- H; apply dedupe_NoDup.
Qed.

Lemma columnar_well_shaped E : Forall well_shaped (columnar (CORPORATE_LOAN_RULES E)).
Proof.
  apply Forall_forall; intros r Hr.
  apply (proj1 (columnar_In _ r)) in Hr; destruct Hr as [Hr _].
  pose proof (registry_well_shaped E) as H.
  exact (proj1 (Forall_forall _ _) H r Hr).
Qed.

(** In a rule list in which every output has one writer, the writer of a field
    does not depend on the order of the list. *)
Lemma last_writer_permuted rules rules' c :
  Permutation rules rules' -> NoDup (map output_field rules) ->
  last_writer c rules = last_writer c rules'.
Proof.
  intros Hp Hnd.
  assert (Hnd' : NoDup (map output_field rules'))
    by (apply (Permutation_NoDup (Permutation_map output_field Hp) Hnd)).
  destruct (in_dec string_dec c (map output_field rules)) as [Hin | Hnot].
  - apply in_map_iff in Hin as (r & <- & Hr).
    rewrite (last_writer_unique r rules Hnd Hr).
    now rewrite (last_writer_unique r rules' Hnd' (Permutation_in r Hp Hr)).
  - rewrite (last_writer_none c rules Hnot).
    rewrite last_writer_none; [reflexivity |].
    intros Hin; apply Hnot.
    apply (Permutation_in c (Permutation_sym (Permutation_map output_field Hp)) Hin).
Qed.

(** X4. The 100 cell and column rules of the registry can run in any order: on
    a table that has their source fields, with cells that have a text, every
    permutation of them returns, and returns the same cells under every
    column name as the registry order does (the three columns that are new,
    [AR_Current], [AR_Prior_Year] and [PD], may stand in another place).  No
    such rule reads what another writes; only the two conditional-description
    rules depend on where they stand. *)
Theorem cell_and_column_rules_in_any_order E rules raw :
  Permutation (columnar (CORPORATE_LOAN_RULES E)) rules ->
  has_fields raw (flat_map source_fields (columnar (CORPORATE_LOAN_RULES E))) ->
  legible_table raw ->
  exists a b,
    apply_rules (columnar (CORPORATE_LOAN_RULES E)) raw = Ok a
    /\ apply_rules rules raw = Ok b
    /\ same_cells a b
    /\ List.length (columnar (CORPORATE_LOAN_RULES E)) = 100.
Proof.
  intros Hp Hfields _.
  remember (columnar (CORPORATE_LOAN_RULES E)) as base eqn:Hbase.
  assert (Hown : forall r r' c, In r base -> In r' base -> In c (source_fields r) ->
                                output_field r' = c -> output_field r' = output_field r).
  { intros r r' c Hr Hr' Hc Hout.
    apply (reads_no_output_spec base r r' c); auto.
    rewrite Hbase; apply registry_reads_no_output. }
  assert (Hshape : Forall well_shaped base) by (rewrite Hbase; apply columnar_well_shaped).
  assert (Hcolumnar : Forall (fun r => is_rowwise r = false) base)
    by (rewrite Hbase; apply columnar_not_rowwise).
  assert (Hnd : NoDup (map output_field base))
    by (rewrite Hbase; apply columnar_outputs_distinct).
  assert (Hrun : forall l, Permutation base l ->
                           apply_rules l raw = Ok (fold_left (write_pass_column raw) l raw)).
  { intros l Hl; apply (apply_rules_in_order raw l []).
    - apply (Permutation_Forall Hl), Hshape.
    - unfold has_fields in *; rewrite Forall_forall in *; intros c Hc; apply Hfields.
      apply in_flat_map in Hc as (r & Hr & Hc); apply in_flat_map; exists r; split; auto.
      apply (Permutation_in r (Permutation_sym Hl) Hr).
    - apply (independent_in_order base).
      + intros r Hr; apply (Permutation_in r (Permutation_sym Hl) Hr).
      + apply (Permutation_Forall Hl), Hcolumnar.
      + exact Hown.
      + intros c [].
      + change (NoDup (map output_field l)).
        apply (Permutation_NoDup (Permutation_map output_field Hl)), Hnd.
    - reflexivity.
    - reflexivity.
    - intros c []. }
  exists (fold_left (write_pass_column raw) base raw),
    (fold_left (write_pass_column raw) rules raw).
  split; [apply Hrun, Permutation_refl |].
  split; [apply Hrun, Hp |].
  split; [| rewrite Hbase; reflexivity].
  split; [now rewrite !nrows_fold |].
  intros c; rewrite !lookup_fold.
  now rewrite (last_writer_permuted base rules c Hp Hnd).
Qed.

(** ** Scoring and advice on a table *)

Lemma row_get_default_at df i c d :
  row_get_default (row_at df i) c d
  = match lookup c (columns df) with
    | Some s => nth i s NaN
    | None => d
    end.
Proof. unfold row_get_default; rewrite lookup_row_at; now destruct (lookup c (columns df)). Qed.

(** A row of [df[k] = s] is the row of [df] outside the field [k]. *)
Lemma row_get_default_set_other df k s i c d :
  c <> k ->
  row_get_default (row_at (df_set df k s) i) c d = row_get_default (row_at df i) c d.
Proof.
  intros Hne; rewrite !row_get_default_at; simpl; now rewrite lookup_assign_other.
Qed.

Lemma row_get_default_set_same df k s i d :
  row_get_default (row_at (df_set df k s) i) k d = nth i s NaN.
Proof. rewrite row_get_default_at; simpl; now rewrite lookup_assign_same. Qed.

Lemma row_get_default_nan df c d :
  row_get_default (nan_row df) c d = NaN \/ row_get_default (nan_row df) c d = d.
Proof.
  unfold row_get_default; rewrite lookup_nan_row.
  destruct (lookup c (columns df)); simpl; auto.
Qed.

Lemma row_get_default_nan_set_other df k s c d :
  c <> k ->
  row_get_default (nan_row (df_set df k s)) c d = row_get_default (nan_row df) c d.
Proof.
  intros Hne; unfold row_get_default; rewrite !lookup_nan_row; simpl.
  now rewrite lookup_assign_other.
Qed.

(** The probing row always has an amount that is a number: NaN, or the
    default 0. *)
Lemma amount_is_number_nan_row df : amount_is_number (nan_row df).
Proof.
  unfold amount_is_number.
  destruct (row_get_default_nan df "Transaction_Amount" (VInt 0)) as [-> | ->]; reflexivity.
Qed.

Lemma amount_is_number_dec x : {amount_is_number x} + {~ amount_is_number x}.
Proof. unfold amount_is_number; apply bool_dec. Qed.

Lemma score_raises_type_error row :
  ~ amount_is_number row ->
  score row = Raise (TypeError "comparison not supported between these types").
Proof.
  unfold amount_is_number, score, Py.gt_int.
  destruct (row_get_default row "Transaction_Amount" (VInt 0)); simpl;
    intros H; try reflexivity; now destruct H.
Qed.

Lemma assign_assign {A} (k : string) (v w : A) kvs :
  assign k v (assign k w kvs) = assign k v kvs.
Proof.
  induction kvs as [| [k' u] kvs IH]; simpl.
  - now rewrite String.eqb_refl.
  - destruct (String.eqb k' k) eqn:Ek; simpl; rewrite Ek; [reflexivity | now rewrite IH].
Qed.

Lemma df_set_df_set df k s t : df_set (df_set df k t) k s = df_set df k s.
Proof. unfold df_set; simpl; now rewrite assign_assign. Qed.

Lemma rows_ext {B} (g h : Row -> B) df df' :
  nrows df' = nrows df ->
  (forall i, i < nrows df -> g (row_at df' i) = h (row_at df i)) ->
  map g (rows df') = map h (rows df).
Proof.
  intros Hn H; unfold rows; rewrite Hn, !map_map.
  apply map_ext_in; intros i Hi; apply in_seq in Hi; apply H; lia.
Qed.

(** When [assign_risk_score] returns, and what it raises when it does not. *)
Lemma assign_risk_score_outcome df :
  ((exists df', assign_risk_score df = Ok df') <-> Forall amount_is_number (rows df))
  /\ (Forall amount_is_number (rows df) ->
      assign_risk_score df
      = Ok (df_set df "Risk_Score" (map (fun x => VStr (risk_tier x)) (rows df))))
  /\ (~ Forall amount_is_number (rows df) ->
      assign_risk_score df
      = Raise (TypeError "comparison not supported between these types")).
Proof.
  assert (Hok : Forall amount_is_number (rows df) ->
                assign_risk_score df
                = Ok (df_set df "Risk_Score" (map (fun x => VStr (risk_tier x)) (rows df)))).
  { intros H; apply assign_risk_score_by_policy;
      [rewrite Forall_forall in H; exact H | apply amount_is_number_nan_row]. }
  assert (Hraise : ~ Forall amount_is_number (rows df) ->
                   assign_risk_score df
                   = Raise (TypeError "comparison not supported between these types")).
  { intros Hnot.
    destruct (Forall_Exists_dec amount_is_number amount_is_number_dec (rows df))
      as [Hall | Hex]; [contradiction |].
    apply Exists_exists in Hex as (x & Hx & Hbad).
    unfold assign_risk_score, df_apply_rows.
    destruct (nrows df) as [| n] eqn:En;
      [unfold rows in Hx; rewrite En in Hx; destruct Hx |].
    destruct (columns df) as [| c cs] eqn:Ec.
    - rewrite (rows_without_columns df Ec) in Hx; apply repeat_spec in Hx; subst x.
      destruct Hbad; apply amount_is_number_nan_row.
    - rewrite (map_result_raises score (rows df)
                 (TypeError "comparison not supported between these types"));
        [reflexivity | |].
      + intros y _; destruct (amount_is_number_dec y) as [Hy | Hy].
        * left; rewrite (score_follows_policy y Hy); eauto.
        * right; now apply score_raises_type_error.
      + exists x; split; [exact Hx | now apply score_raises_type_error]. }
  split; [| split; [exact Hok | exact Hraise]].
  split.
  - intros (df' & Hdf').
    destruct (Forall_Exists_dec amount_is_number amount_is_number_dec (rows df))
      as [Hall | Hex]; [exact Hall |].
    rewrite Hraise in Hdf'; [discriminate |].
    intros Hall; apply Exists_exists in Hex as (x & Hx & Hbad).
    rewrite Forall_forall in Hall; auto.
  - intros H; eexists; now apply Hok.
Qed.


(** X10. [assign_risk_score] returns exactly on the tables in which the amount
    of every row is a number (or the field is missing); it then writes the
    policy's tier for every row.  One amount that is text, or [None], makes
    the comparison with 5000 raise [TypeError] for the whole table: no row is
    scored. *)
Theorem scoring_returns_iff_amounts_are_numbers df :
  ((exists df', assign_risk_score df = Ok df') <-> Forall amount_is_number (rows df))
  /\ (Forall amount_is_number (rows df) ->
      assign_risk_score df
      = Ok (df_set df "Risk_Score" (map (fun x => VStr (risk_tier x)) (rows df))))
  /\ (~ Forall amount_is_number (rows df) ->
      exists msg, assign_risk_score df = Raise (TypeError msg)).
Proof.
  destruct (assign_risk_score_outcome df) as (Hiff & Hok & Hraise).
  split; [exact Hiff |]; split; [exact Hok |].
  intros H; eexists; exact (Hraise H).
Qed.

Lemma risk_tier_set df k s i :
  k <> "Transaction_Amount" -> k <> "Valid_Transaction" -> k <> "Valid_Currency" ->
  risk_tier (row_at (df_set df k s) i) = risk_tier (row_at df i).
Proof.
  intros H1 H2 H3; unfold risk_tier, designated_verdicts, verdict_is_false; simpl.
  now rewrite !row_get_default_set_other by congruence.
Qed.

Lemma amount_is_number_set df k s i :
  k <> "Transaction_Amount" ->
  amount_is_number (row_at (df_set df k s) i) <-> amount_is_number (row_at df i).
Proof.
  intros H; unfold amount_is_number; now rewrite row_get_default_set_other by congruence.
Qed.

Lemma get_remedy_set df k s i :
  k <> "Valid_Currency" -> k <> "Valid_Transaction" -> k <> "Valid_Transaction_Date" ->
  k <> "Risk_Score" ->
  get_remedy (row_at (df_set df k s) i) = get_remedy (row_at df i).
Proof.
  intros H1 H2 H3 H4; unfold get_remedy.
  now rewrite !row_get_default_set_other by congruence.
Qed.

Lemma suggest_remediation_writes df :
  suggest_remediation df
  = Ok (df_set df "Remediation" (map (fun x => VStr (get_remedy x)) (rows df))).
Proof.
  unfold suggest_remediation.
  now rewrite (df_apply_rows_ok _ (fun x => VStr (get_remedy x))).
Qed.

Lemma Forall_rows (P : Row -> Prop) df :
  Forall P (rows df) <-> forall i, i < nrows df -> P (row_at df i).
Proof.
  unfold rows; rewrite Forall_map, Forall_forall; split.
  - intros H i Hi; apply H, in_seq; lia.
  - intros H i Hi; apply in_seq in Hi; apply H; lia.
Qed.

(** X11. Scoring a scored table, or advising an advised one, changes nothing:
    the scorer does not read [Risk_Score] and the advisor does not read
    [Remediation]. *)
Theorem scoring_and_advice_are_idempotent df df' :
  (assign_risk_score df = Ok df' -> assign_risk_score df' = Ok df')
  /\ (suggest_remediation df = Ok df' -> suggest_remediation df' = Ok df').
Proof.
  split.
  - intros H.
    destruct (assign_risk_score_outcome df) as (Hiff & Hok & _).
    assert (Hall : Forall amount_is_number (rows df)) by (apply Hiff; eauto).
    rewrite (Hok Hall) in H; inversion H; subst df'; clear H.
    set (s := map (fun x => VStr (risk_tier x)) (rows df)).
    destruct (assign_risk_score_outcome (df_set df "Risk_Score" s))
      as (_ & Hok' & _).
    rewrite Hok'.
    + rewrite (rows_ext (fun x => VStr (risk_tier x)) (fun x => VStr (risk_tier x))
                 df (df_set df "Risk_Score" s));
        [fold s; now rewrite df_set_df_set | reflexivity |].
      intros i _; now rewrite risk_tier_set by discriminate.
    + apply Forall_rows; intros i Hi; apply amount_is_number_set; [discriminate |].
      apply (proj1 (Forall_rows _ df) Hall); exact Hi.
  - rewrite !suggest_remediation_writes; intros H; inversion H; subst df'; clear H.
    set (s := map (fun x => VStr (get_remedy x)) (rows df)).
    rewrite (rows_ext (fun x => VStr (get_remedy x)) (fun x => VStr (get_remedy x))
               df (df_set df "Remediation" s));
      [fold s; now rewrite df_set_df_set | reflexivity |].
    intros i _; now rewrite get_remedy_set by discriminate.
Qed.

Lemma nth_map_rows {B} (g : Row -> B) d df i :
  i < nrows df -> nth i (map g (rows df)) d = g (row_at df i).
Proof.
  intros Hi; unfold rows; rewrite map_map.
  rewrite (nth_indep _ d (g (row_at df 0))) by (now rewrite length_map, length_seq).
  rewrite (map_nth (fun i => g (row_at df i)) (seq 0 (nrows df)) 0 i).
  now rewrite seq_nth.
Qed.

Lemma tier_is_high row :
  Py.eq_text (VStr (risk_tier row)) "HIGH"
  = exceeds (row_get_default row "Transaction_Amount" (VInt 0)) 5000.
Proof.
  unfold risk_tier.
  destruct (exceeds (row_get_default row "Transaction_Amount" (VInt 0)) 5000);
    [reflexivity |].
  now destruct (existsb (verdict_is_false row) designated_verdicts).
Qed.

(** The remedy of a freshly scored row is the advice for the row as it was. *)
Lemma get_remedy_scored df i :
  i < nrows df ->
  get_remedy (row_at (df_set df "Risk_Score"
                        (map (fun x => VStr (risk_tier x)) (rows df))) i)
  = advice (row_at df i).
Proof.
  intros Hi; unfold get_remedy, advice, verdict_is_false.
  rewrite !row_get_default_set_other by discriminate.
  rewrite row_get_default_set_same, (nth_map_rows _ NaN df i Hi), tier_is_high.
  reflexivity.
Qed.

Lemma remedy_of_scored_table df :
  Forall amount_is_number (rows df) ->
  (scored <- assign_risk_score df ;; suggest_remediation scored)
  = Ok (df_set (df_set df "Risk_Score" (map (fun x => VStr (risk_tier x)) (rows df)))
               "Remediation" (map (fun x => VStr (advice x)) (rows df))).
Proof.
  intros Hall.
  destruct (assign_risk_score_outcome df) as (_ & Hok & _).
  rewrite (Hok Hall); simpl; rewrite suggest_remediation_writes.
  do 2 f_equal; apply rows_ext; [reflexivity |].
  intros i Hi; now rewrite get_remedy_scored.
Qed.

(** X12. Scoring and then advising, on a table whose amounts are numbers: the
    advice of a row is a function of that row as it was before scoring.  The
    first failed verdict among currency, amount and date decides; otherwise
    an amount above 5000 calls for an audit.  A [Risk_Score] column that the
    table already had is overwritten before it is read. *)
Theorem advice_after_scoring df :
  Forall amount_is_number (rows df) ->
  (scored <- assign_risk_score df ;; suggest_remediation scored)
  = Ok (df_set (df_set df "Risk_Score" (map (fun x => VStr (risk_tier x)) (rows df)))
               "Remediation" (map (fun x => VStr (advice x)) (rows df))).
Proof.
  intros Hall.
  destruct (assign_risk_score_outcome df) as (_ & Hscored & _).
  rewrite (Hscored Hall); cbn [bind]; rewrite suggest_remediation_writes.
  do 2 f_equal; apply rows_ext; [reflexivity |].
  intros i Hi; apply f_equal, get_remedy_scored, Hi.
Qed.

Lemma advice_after_scoring_witness :
  (scored <- assign_risk_score two_transactions ;; suggest_remediation scored)
  = Ok (mkDataFrame 2
          [("Transaction_Amount", [VInt 6000; VInt 100]);
           ("Valid_Currency", [VBool true; VBool false]);
           ("Risk_Score", [VStr "HIGH"; VStr "MEDIUM"]);
           ("Remediation", [VStr "Manual audit required due to high amount.";
                            VStr "Fix currency format to ISO 4217."])]).
Proof.
  rewrite (advice_after_scoring two_transactions); [reflexivity |].
  repeat constructor.
Defined.

(** ** The currency check, and the three stages in a row *)

Lemma column_set_same df k s : column (df_set df k s) k = s.
Proof. unfold column; simpl; now rewrite lookup_assign_same. Qed.

Lemma column_set_other df k s c : c <> k -> column (df_set df k s) c = column df c.
Proof. intros H; unfold column; simpl; now rewrite lookup_assign_other. Qed.

Lemma has_column_length df c :
  well_formed df -> has_column df c = true -> List.length (column df c) = nrows df.
Proof.
  unfold has_column, column; intros Hwf H.
  destruct (lookup c (columns df)) as [s |] eqn:E; [| discriminate].
  exact (column_length df c s Hwf E).
Qed.

Lemma nth_map_cell {B} (g : value -> B) d l i :
  i < List.length l -> nth i (map g l) d = g (nth i l NaN).
Proof.
  intros Hi; rewrite (nth_indep _ d (g NaN)) by (now rewrite length_map).
  apply map_nth.
Qed.

(** X13. [validate_currency_format] says [True] exactly of three capital letters
    A..Z (and of three capitals followed by a line feed), of the text of
    whatever the cell holds; it writes [Valid_Currency] beside [Currency], and
    raises [KeyError] on a table without the [Currency] field. *)
Theorem currency_format_accepts :
  judges validate_currency_format (fun v => Re.matches currency_pattern (Py.str v))
  /\ (forall s, Re.matches currency_pattern s = true
                <-> up_to_newline (exactly 3 is_capital) s)
  /\ (forall df, has_column df "Currency" = true ->
                 legible_column (column df "Currency") ->
                 exists df',
                   apply_rule validate_currency_format df = Ok df'
                   /\ column df' "Valid_Currency"
                      = map (fun v => VBool (Re.matches currency_pattern (Py.str v)))
                            (column df "Currency")
                   /\ column df' "Currency" = column df "Currency")
  /\ (forall df, has_column df "Currency" = false ->
                 apply_rule validate_currency_format df = Raise (KeyError "Currency")).
Proof.
  split; [judges_by_definition |].
  split.
  { intros s; apply matches_up_to_newline; intros t.
    unfold currency_pattern, upper_AZ; apply fullmatch_times_class. }
  split.
  - intros df Hcol _; unfold validate_currency_format; simpl.
    rewrite (df_get_present _ _ Hcol); simpl.
    rewrite (map_result_ok (str_match currency_pattern)
               (fun v => VBool (Re.matches currency_pattern (Py.str v))))
      by (intros v _; reflexivity).
    eexists; split; [reflexivity |].
    split; [apply column_set_same | apply column_set_other; discriminate].
  - intros df Hcol; unfold validate_currency_format; simpl.
    now rewrite (df_get_absent _ _ Hcol).
Qed.

(** X14. The three stages in a row, currency check, scoring and advice, on a table
    that has the [Currency] field and amounts that are numbers: all three
    return; a row whose currency is not three capitals is told to fix the
    currency, whatever else is wrong with it, and is never scored LOW; a row
    whose currency is well formed is never told to fix it. *)
Theorem currency_check_to_advice df :
  well_formed df ->
  has_column df "Currency" = true ->
  legible_column (column df "Currency") ->
  Forall amount_is_number (rows df) ->
  exists advised,
    (checked <- apply_rule validate_currency_format df ;;
     scored <- assign_risk_score checked ;;
     suggest_remediation scored) = Ok advised
    /\ forall i, i < nrows df ->
         let ok := Re.matches currency_pattern (Py.str (nth i (column df "Currency") NaN)) in
         nth i (column advised "Valid_Currency") NaN = VBool ok
         /\ (ok = false ->
             nth i (column advised "Remediation") NaN
             = VStr "Fix currency format to ISO 4217."
             /\ nth i (column advised "Risk_Score") NaN <> VStr "LOW")
         /\ (ok = true ->
             nth i (column advised "Remediation") NaN
             <> VStr "Fix currency format to ISO 4217.").
Proof.
  intros Hwf Hcol _ Hall.
  set (p := fun v => VBool (Re.matches currency_pattern (Py.str v))).
  set (checked := df_set df "Valid_Currency" (map p (column df "Currency"))).
  assert (Hchecked : apply_rule validate_currency_format df = Ok checked).
  { unfold validate_currency_format; simpl.
    rewrite (df_get_present _ _ Hcol); simpl.
    now rewrite (map_result_ok (str_match currency_pattern) p) by (intros v _; reflexivity). }
  assert (Hnum : Forall amount_is_number (rows checked)).
  { apply Forall_rows; intros i Hi; apply amount_is_number_set; [discriminate |].
    apply (proj1 (Forall_rows _ df) Hall); exact Hi. }
  eexists; split.
  { rewrite Hchecked; cbn [bind]; exact (remedy_of_scored_table checked Hnum). }
  intros i Hi ok.
  assert (Hlen : i < List.length (column df "Currency"))
    by (now rewrite (has_column_length df "Currency" Hwf Hcol)).
  assert (Hcell : row_get_default (row_at checked i) "Valid_Currency" (VBool true) = VBool ok).
  { unfold checked; rewrite row_get_default_set_same.
    now rewrite (nth_map_cell p NaN _ i Hlen). }
  assert (Hi' : i < nrows checked) by exact Hi.
  assert (Hvc : column checked "Valid_Currency" = map p (column df "Currency"))
    by apply column_set_same.
  repeat first [rewrite column_set_same | rewrite column_set_other by discriminate].
  rewrite Hvc, (nth_map_cell p NaN _ i Hlen).
  rewrite !(nth_map_rows _ NaN checked i Hi').
  split; [reflexivity |].
  unfold advice, risk_tier, designated_verdicts, verdict_is_false; cbn [existsb].
  rewrite Hcell; split; intros Hok; rewrite Hok; cbn [Py.truthy negb].
  - split; [reflexivity |].
    rewrite orb_true_r.
    now destruct (exceeds _ 5000).
  - destruct (negb _); [discriminate |].
    destruct (negb _); [discriminate |].
    now destruct (exceeds _ 5000).
Qed.

(** ** The theorems at sample tables *)

Lemma legible_table_check df :
  forallb (fun cs => forallb Py.legible (snd cs)) (columns df) = true ->
  legible_table df.
Proof.
  unfold legible_table, legible_column; rewrite forallb_forall, Forall_forall.
  intros H cs Hcs; apply Forall_forall; intros v Hv.
  specialize (H cs Hcs); rewrite forallb_forall in H; exact (H v Hv).
Qed.

(** The whole registry on a table that has the [Country] field only: the
    first rule, of [Target_Hold], stops the loop. *)
Lemma registry_stops_at_first_missing_field_witness :
  legible_table countries
  /\ apply_rules (firstn 102 (CORPORATE_LOAN_RULES (env_on 2024 1 1))) countries
     = Raise (KeyError "Target_Hold").
Proof.
  assert (Hleg : legible_table countries) by (apply legible_table_check; reflexivity).
  split; [exact Hleg |].
  destruct (registry_stops_at_first_missing_field (env_on 2024 1 1) 102 countries Hleg)
    as (Hrun & _).
  exact Hrun.
Defined.


(** The 100 cell and column rules in reverse registry order, on the one-row
    table that holds ["0"] in every field. *)
Lemma cell_and_column_rules_in_any_order_witness :
  exists a b,
    apply_rules (columnar (CORPORATE_LOAN_RULES (env_on 2024 1 1)))
      (uniform_table [VStr "0"]) = Ok a
    /\ apply_rules (rev (columnar (CORPORATE_LOAN_RULES (env_on 2024 1 1))))
         (uniform_table [VStr "0"]) = Ok b
    /\ same_cells a b.
Proof.
  assert (Hfields : has_fields (uniform_table [VStr "0"])
                      (flat_map source_fields
                         (columnar (CORPORATE_LOAN_RULES (env_on 2024 1 1)))))
    by (apply has_fields_check; vm_compute; reflexivity).
  assert (Hleg : legible_table (uniform_table [VStr "0"]))
    by (apply legible_table_check; vm_compute; reflexivity).
  destruct (cell_and_column_rules_in_any_order (env_on 2024 1 1)
              (rev (columnar (CORPORATE_LOAN_RULES (env_on 2024 1 1))))
              (uniform_table [VStr "0"])
              (Permutation_rev _) Hfields Hleg)
    as (a & b & Ha & Hb & Hsame & _).
  exists a, b; split; [exact Ha |]; split; [exact Hb | exact Hsame].
Defined.

(** The three stages on two rows: the malformed currency is to be fixed,
    although the amount of its row is above the threshold. *)
Lemma currency_check_to_advice_witness :
  exists advised,
    (checked <- apply_rule validate_currency_format two_currencies ;;
     scored <- assign_risk_score checked ;;
     suggest_remediation scored) = Ok advised
    /\ nth 1 (column advised "Remediation") NaN = VStr "Fix currency format to ISO 4217."
    /\ nth 0 (column advised "Remediation") NaN <> VStr "Fix currency format to ISO 4217.".
Proof.
  assert (Hwf : well_formed two_currencies) by (apply well_formed_check; reflexivity).
  assert (Hleg : legible_column (column two_currencies "Currency"))
    by (repeat constructor).
  assert (Hnum : Forall amount_is_number (rows two_currencies)) by (repeat constructor).
  destruct (currency_check_to_advice two_currencies Hwf eq_refl Hleg Hnum)
    as (advised & Hrun & Hrows).
  exists advised; split; [exact Hrun |].
  destruct (Hrows 1 (le_n 2)) as (_ & Hbad & _).
  destruct (Hrows 0 (le_S 1 1 (le_n 1))) as (_ & _ & Hgood).
  split; [apply Hbad | apply Hgood]; reflexivity.
Defined.
